(** * constrata: a shallow embedding of the binary record codec

    The development follows the layout of the Python package:

    - [Py]            the fragment of Python the package relies on: values,
                      exceptions, [str]/[bytes] methods, [format] and [int];
    - [Struct]        the fragment of CPython's [struct] module that the
                      package calls ([calcsize], [pack], [unpack]);
    - [ByteOrderM]    constrata/byte_order.py;
    - [BinaryBase]    constrata/streams/base.py;
    - [Writer]        constrata/streams/writer.py;
    - [Reader]        constrata/streams/reader.py;
    - [Bits]          constrata/streams/bits.py;
    - [Metadata]      constrata/metadata.py;
    - [BinaryStruct]  constrata/binary_struct.py;
    - [Utilities]     constrata/utilities.py.

    Python statements that mutate an object and may raise are modelled as
    functions returning the outcome together with the state of the object
    at the moment the call returns or raises. *)

From Stdlib Require Import ZArith List String Ascii Bool Lia Arith.
From Stdlib.Strings Require Import Byte.
From Stdlib Require Import DecimalString.
Import ListNotations.

Set Warnings "-register-all".

Local Open Scope string_scope.
Local Open Scope list_scope.

(* ===================================================================== *)
(** * Python fragment *)
(* ===================================================================== *)

Module Py.

(** Exceptions raised by the package or by the library calls it makes.
    [struct.error] is [StructError]; [HookError] stands for whatever a
    caller-supplied hook raises; [Unmodelled] marks a library behaviour
    outside the modelled fragment (floating point codes, exotic codecs). *)
Inductive exn : Type :=
| ValueError (msg : string)
| TypeError (msg : string)
| IndexError (msg : string)
| KeyError (msg : string)
| NameError (msg : string)
| LookupError (msg : string)
| UnicodeError (msg : string)
| StructError (msg : string)
| BinaryFieldValueError (msg : string)
| AssertionError (msg : string)
| AttributeError (msg : string)
| ZeroDivisionError (msg : string)
| HookError (msg : string)
| Unmodelled (what : string).

Inductive result (A : Type) : Type :=
| Ok (a : A)
| Raise (e : exn).

Arguments Ok {A} a.
Arguments Raise {A} e.

Definition bind {A B : Type} (r : result A) (k : A -> result B) : result B :=
  match r with
  | Ok a => k a
  | Raise e => Raise e
  end.

Definition is_ok {A : Type} (r : result A) : bool :=
  match r with Ok _ => true | Raise _ => false end.

(** Python objects that travel through [struct.pack]/[struct.unpack] and
    through the field codecs. *)
Inductive pyval : Type :=
| PNone
| PBool (b : bool)
| PInt (z : Z)
| PBytes (bs : list byte)
| PStr (s : string)
| PList (vs : list pyval).

Definition bytes_eqb (a b : list byte) : bool :=
  (Nat.eqb (List.length a) (List.length b))
  && forallb (fun p => Byte.eqb (fst p) (snd p)) (combine a b).

(** Python [==] on the modelled objects ([True == 1], [False == 0]). *)
Fixpoint py_eqb (a b : pyval) {struct a} : bool :=
  match a, b with
  | PNone, PNone => true
  | PBool x, PBool y => Bool.eqb x y
  | PBool x, PInt z => Z.eqb (Z.b2z x) z
  | PInt z, PBool x => Z.eqb z (Z.b2z x)
  | PInt x, PInt y => Z.eqb x y
  | PBytes x, PBytes y => bytes_eqb x y
  | PStr x, PStr y => String.eqb x y
  | PList xs, PList ys =>
      (fix go (l : list pyval) (r : list pyval) {struct l} : bool :=
         match l, r with
         | [], [] => true
         | x :: l', y :: r' => py_eqb x y && go l' r'
         | _, _ => false
         end) xs ys
  | _, _ => false
  end.

(** [value in tuple]. *)
Fixpoint tuple_eqb (a b : list pyval) : bool :=
  match a, b with
  | [], [] => true
  | x :: a', y :: b' => py_eqb x y && tuple_eqb a' b'
  | _, _ => false
  end.

Definition py_in (v : pyval) (t : list pyval) : bool :=
  existsb (fun a => py_eqb v a) t.

(** Truth value of an object ([bool(v)]). *)
Definition truthy (v : pyval) : bool :=
  match v with
  | PNone => false
  | PBool b => b
  | PInt z => negb (Z.eqb z 0)
  | PBytes bs => match bs with [] => false | _ => true end
  | PStr s => match s with EmptyString => false | _ => true end
  | PList vs => match vs with [] => false | _ => true end
  end.

Definition is_none (v : pyval) : bool :=
  match v with PNone => true | _ => false end.

(** [operator.index]: the integer carried by an [int] or a [bool]. *)
Definition as_index (v : pyval) : option Z :=
  match v with
  | PInt z => Some z
  | PBool b => Some (Z.b2z b)
  | _ => None
  end.

(** Iteration over an object, as [list.extend] performs it. *)
Definition py_iter (v : pyval) : result (list pyval) :=
  match v with
  | PList vs => Ok vs
  | PBytes bs => Ok (map (fun b => PInt (Z.of_N (Byte.to_N b))) bs)
  | PStr s => Ok (map (fun c => PStr (String c EmptyString)) (list_ascii_of_string s))
  | _ => Raise (TypeError "object is not iterable")
  end.

(** ** Dictionaries keyed by strings, in insertion order *)

Definition dict (V : Type) : Type := list (string * V).

Fixpoint dict_get {V : Type} (d : dict V) (k : string) : option V :=
  match d with
  | [] => None
  | (k', v) :: d' => if String.eqb k k' then Some v else dict_get d' k
  end.

Definition dict_mem {V : Type} (d : dict V) (k : string) : bool :=
  match dict_get d k with Some _ => true | None => false end.

(** [d[k] = v]: overwrite in place when present, append otherwise. *)
Fixpoint dict_set {V : Type} (d : dict V) (k : string) (v : V) : dict V :=
  match d with
  | [] => [(k, v)]
  | (k', v') :: d' =>
      if String.eqb k k' then (k', v) :: d' else (k', v') :: dict_set d' k v
  end.

(** [d.pop(k)] on a key known to be present drops its entry. *)
Fixpoint dict_pop {V : Type} (d : dict V) (k : string) : dict V :=
  match d with
  | [] => []
  | (k', v') :: d' =>
      if String.eqb k k' then d' else (k', v') :: dict_pop d' k
  end.

Definition dict_keys {V : Type} (d : dict V) : list string := map fst d.

(** ** Lists *)

(** [l.pop()]: the last element and the list without it. *)
Fixpoint list_pop {A : Type} (l : list A) : option (A * list A) :=
  match l with
  | [] => None
  | [x] => Some (x, [])
  | x :: l' =>
      match list_pop l' with
      | Some (y, r) => Some (y, x :: r)
      | None => None
      end
  end.

(** [a[off:off+len(p)] = p] on a [bytearray] ([off >= 0]). *)
Definition slice_assign {A : Type} (a : list A) (off : nat) (p : list A) : list A :=
  firstn off a ++ p ++ skipn (off + List.length p) a.

(** ** Strings *)

Definition str_len (s : string) : nat := String.length s.

Fixpoint str_map (f : ascii -> ascii) (s : string) : string :=
  match s with
  | EmptyString => EmptyString
  | String c s' => String (f c) (str_map f s')
  end.

(** [s.replace(a, b)] for one-character [a] and [b]. *)
Definition replace_char (a b : ascii) (s : string) : string :=
  str_map (fun c => if Ascii.eqb c a then b else c) s.

(** [s.replace(a, "")] for a one-character [a]. *)
Fixpoint remove_char (a : ascii) (s : string) : string :=
  match s with
  | EmptyString => EmptyString
  | String c s' => if Ascii.eqb c a then remove_char a s' else String c (remove_char a s')
  end.

(** [c in s] for a one-character [c]. *)
Fixpoint contains_char (c : ascii) (s : string) : bool :=
  match s with
  | EmptyString => false
  | String c' s' => Ascii.eqb c c' || contains_char c s'
  end.

(** [s.startswith(p)]. *)
Definition startswith (s p : string) : bool := String.prefix p s.

Fixpoint str_rev_onto (s acc : string) : string :=
  match s with
  | EmptyString => acc
  | String c s' => str_rev_onto s' (String c acc)
  end.

(** [s[::-1]]. *)
Definition str_rev (s : string) : string := str_rev_onto s EmptyString.

(** [s[a:b]] for [0 <= a], [0 <= b]. *)
Definition str_slice (s : string) (a b : nat) : string :=
  String.substring a (b - a) s.

(** [s[a:b]] with Python's treatment of negative and out-of-range
    indices. *)
Definition slice_index (len : nat) (i : Z) : nat :=
  if (i <? 0)%Z then Z.to_nat (Z.max 0 (i + Z.of_nat len))
  else Nat.min (Z.to_nat i) len.

Definition str_slice_z (s : string) (a b : Z) : string :=
  str_slice s (slice_index (String.length s) a) (slice_index (String.length s) b).

(** [s[a:]]. *)
Definition str_drop (s : string) (a : nat) : string :=
  String.substring a (String.length s - a) s.

(** [s[-1]] as a one-character string, when [s] is not empty. *)
Fixpoint str_last (s : string) : option ascii :=
  match s with
  | EmptyString => None
  | String c EmptyString => Some c
  | String _ s' => str_last s'
  end.

Fixpoint str_repeat (c : ascii) (n : nat) : string :=
  match n with
  | O => EmptyString
  | S n' => String c (str_repeat c n')
  end.

(** [sep.join(l)]. *)
Fixpoint str_join (sep : string) (l : list string) : string :=
  match l with
  | [] => EmptyString
  | [x] => x
  | x :: l' => (x ++ sep ++ str_join sep l')%string
  end.

(** [str(n)] for an integer. *)
Definition str_of_Z (z : Z) : string := NilZero.string_of_int (Z.to_int z).

Definition str_of_nat (n : nat) : string := str_of_Z (Z.of_nat n).

(** [repr(s)] of a string without characters that need escaping. *)
Definition repr_str (s : string) : string := ("'" ++ s ++ "'")%string.

Fixpoint rstrip_nul_rev (s : string) : string :=
  match s with
  | String c s' => if Ascii.eqb c zero then rstrip_nul_rev s' else s
  | EmptyString => EmptyString
  end.

(** [s.rstrip("\0")]. *)
Definition str_rstrip_nul (s : string) : string := str_rev (rstrip_nul_rev (str_rev s)).

Fixpoint drop_leading_nul (bs : list byte) : list byte :=
  match bs with
  | b :: bs' => if Byte.eqb b x00 then drop_leading_nul bs' else bs
  | [] => []
  end.

(** [bs.rstrip(b"\0")]. *)
Definition bytes_rstrip_nul (bs : list byte) : list byte :=
  rev (drop_leading_nul (rev bs)).

(** ** [format(value, "0{n}b")] and [int(s, 2)] *)

Fixpoint bin_digits_pos (p : positive) (acc : string) : string :=
  match p with
  | xH => String "1" acc
  | xO p' => bin_digits_pos p' (String "0" acc)
  | xI p' => bin_digits_pos p' (String "1" acc)
  end.

(** Binary digits of a natural number, most significant first. *)
Definition bin_digits (z : Z) : string :=
  match z with
  | Zpos p => bin_digits_pos p EmptyString
  | _ => "0"
  end.

(** [format(value, f"0{width}b")]: sign-aware zero padding to [width]
    characters.  A negative [width] is an invalid format specifier. *)
Definition format_0b (value : Z) (width : Z) : result string :=
  if (width <? 0)%Z then Raise (ValueError "Invalid format specifier")
  else
    let sign := if (value <? 0)%Z then "-" else "" in
    let digits := bin_digits (Z.abs value) in
    let pad := Z.to_nat width - (str_len sign + str_len digits) in
    Ok (sign ++ str_repeat "0" pad ++ digits)%string.

(** [format(v, f"0{width}b")] on an arbitrary object. *)
Definition format_0b_val (v : pyval) (width : Z) : result string :=
  match v with
  | PInt z => format_0b z width
  | PBool b => format_0b (Z.b2z b) width
  | PStr _ => Raise (ValueError "Unknown format code 'b' for object of type 'str'")
  | _ => Raise (TypeError "unsupported format string passed to __format__")
  end.

(** [format(s, f"0<{width}")] on a string: left-aligned, padded with
    ["0"] on the right up to [width] characters. *)
Definition format_pad_right0 (s : string) (width : nat) : string :=
  (s ++ str_repeat "0" (width - str_len s))%string.

Fixpoint bin_value (s : string) (acc : Z) : option Z :=
  match s with
  | EmptyString => Some acc
  | String c s' =>
      if Ascii.eqb c "0" then bin_value s' (2 * acc)%Z
      else if Ascii.eqb c "1" then bin_value s' (2 * acc + 1)%Z
      else None
  end.

(** [int(s, 2)] on strings made of an optional sign and binary digits (the
    only strings the package builds); anything else is an invalid literal. *)
Definition int_base2 (s : string) : result Z :=
  let invalid := Raise (ValueError ("invalid literal for int() with base 2: " ++ repr_str s)%string) in
  match s with
  | EmptyString => invalid
  | String c s' =>
      if Ascii.eqb c "-" then
        match s' with
        | EmptyString => invalid
        | _ => match bin_value s' 0 with Some z => Ok (- z)%Z | None => invalid end
        end
      else if Ascii.eqb c "+" then
        match s' with
        | EmptyString => invalid
        | _ => match bin_value s' 0 with Some z => Ok z | None => invalid end
        end
      else match bin_value s 0 with Some z => Ok z | None => invalid end
  end.

(** ** Bytes *)

Definition byte_of_Z (z : Z) : byte :=
  match Byte.of_N (Z.to_N (z mod 256)) with
  | Some b => b
  | None => x00
  end.

Definition Z_of_byte (b : byte) : Z := Z.of_N (Byte.to_N b).

Definition zeros (n : nat) : list byte := repeat x00 n.

End Py.

Import Py.

Notation "x <- r ;; k" := (Py.bind r (fun x => k))
  (at level 61, r at next level, right associativity).

(* ===================================================================== *)
(** * The [struct] module *)
(* ===================================================================== *)

(** The fragment of CPython's [struct] that the package calls, for a
    little-endian LP64 host.  Integer, boolean, byte-string, character and
    padding codes are encoded; the floating point codes ([e], [f], [d]) and
    the Pascal string code ([p]) are sized but their encodings are outside
    the model. *)
Module Struct.

Inductive alignment : Type := Native | Standard.
Inductive endianness : Type := LittleE | BigE.

Inductive kind : Type :=
| KPad
| KChar
| KInt (signed : bool)
| KBool
| KFloat
| KBytes
| KPascal.

Record entry : Type := mkEntry { e_kind : kind; e_size : nat }.

(** Meaning of the optional first character of a format. *)
Definition order_of (c : ascii) : option (alignment * endianness) :=
  if Ascii.eqb c "@" then Some (Native, LittleE)
  else if Ascii.eqb c "=" then Some (Standard, LittleE)
  else if Ascii.eqb c "<" then Some (Standard, LittleE)
  else if Ascii.eqb c ">" then Some (Standard, BigE)
  else if Ascii.eqb c "!" then Some (Standard, BigE)
  else None.

Definition split_order (fmt : string) : (alignment * endianness) * string :=
  match fmt with
  | EmptyString => ((Native, LittleE), EmptyString)
  | String c rest =>
      match order_of c with
      | Some o => (o, rest)
      | None => ((Native, LittleE), fmt)
      end
  end.

(** The format table: kind and size of each code. *)
Definition code_entry (a : alignment) (c : ascii) : option entry :=
  if Ascii.eqb c "x" then Some (mkEntry KPad 1)
  else if Ascii.eqb c "c" then Some (mkEntry KChar 1)
  else if Ascii.eqb c "b" then Some (mkEntry (KInt true) 1)
  else if Ascii.eqb c "B" then Some (mkEntry (KInt false) 1)
  else if Ascii.eqb c "?" then Some (mkEntry KBool 1)
  else if Ascii.eqb c "h" then Some (mkEntry (KInt true) 2)
  else if Ascii.eqb c "H" then Some (mkEntry (KInt false) 2)
  else if Ascii.eqb c "i" then Some (mkEntry (KInt true) 4)
  else if Ascii.eqb c "I" then Some (mkEntry (KInt false) 4)
  else if Ascii.eqb c "l" then
    Some (mkEntry (KInt true) (match a with Native => 8 | Standard => 4 end))
  else if Ascii.eqb c "L" then
    Some (mkEntry (KInt false) (match a with Native => 8 | Standard => 4 end))
  else if Ascii.eqb c "q" then Some (mkEntry (KInt true) 8)
  else if Ascii.eqb c "Q" then Some (mkEntry (KInt false) 8)
  else if Ascii.eqb c "n" then
    match a with Native => Some (mkEntry (KInt true) 8) | Standard => None end
  else if Ascii.eqb c "N" then
    match a with Native => Some (mkEntry (KInt false) 8) | Standard => None end
  else if Ascii.eqb c "P" then
    match a with Native => Some (mkEntry (KInt false) 8) | Standard => None end
  else if Ascii.eqb c "e" then Some (mkEntry KFloat 2)
  else if Ascii.eqb c "f" then Some (mkEntry KFloat 4)
  else if Ascii.eqb c "d" then Some (mkEntry KFloat 8)
  else if Ascii.eqb c "s" then Some (mkEntry KBytes 1)
  else if Ascii.eqb c "p" then Some (mkEntry KPascal 1)
  else None.

Definition is_digit (c : ascii) : bool :=
  ((48 <=? nat_of_ascii c) && (nat_of_ascii c <=? 57))%nat.

Definition digit_val (c : ascii) : nat := nat_of_ascii c - 48.

Definition is_space (c : ascii) : bool :=
  let n := nat_of_ascii c in
  ((n =? 32) || ((9 <=? n) && (n <=? 13)))%nat.

Definition token : Type := (nat * ascii)%type.

(** Splitting a format into (repeat count, code) pairs.  [cnt] is the
    repeat count read so far; white space is skipped between tokens only,
    and a count needs a code right after it. *)
Fixpoint tokenize_from (s : string) (cnt : option nat) : result (list token) :=
  match s with
  | EmptyString =>
      match cnt with
      | None => Ok []
      | Some _ => Raise (StructError "repeat count given without format specifier")
      end
  | String c s' =>
      if is_digit c then
        tokenize_from s'
          (Some (10 * (match cnt with Some n => n | None => 0 end) + digit_val c))
      else
        match cnt with
        | Some n => ts <- tokenize_from s' None ;; Ok ((n, c) :: ts)
        | None =>
            if is_space c then tokenize_from s' None
            else ts <- tokenize_from s' None ;; Ok ((1, c) :: ts)
        end
  end.

Definition tokenize (s : string) : result (list token) := tokenize_from s None.

(** Padding inserted before an item of size [sz] at offset [off]. *)
Definition align_pad (a : alignment) (off sz : nat) : nat :=
  match a with
  | Standard => 0
  | Native =>
      match sz with
      | O => 0
      | _ => (sz - off mod sz) mod sz
      end
  end.

Definition bad_char : exn := StructError "bad char in struct format".

(** Size of the items of [ts] laid out from offset [off]. *)
Fixpoint layout (a : alignment) (ts : list token) (off : nat) : result nat :=
  match ts with
  | [] => Ok off
  | (n, c) :: ts' =>
      match code_entry a c with
      | None => Raise bad_char
      | Some e => layout a ts' (off + align_pad a off (e_size e) + n * e_size e)
      end
  end.

(** [struct.calcsize(fmt)]. *)
Definition calcsize (fmt : string) : result nat :=
  let '((a, _), body) := split_order fmt in
  ts <- tokenize body ;;
  layout a ts 0.

(** Number of Python values a format packs or unpacks. *)
Fixpoint item_count (a : alignment) (ts : list token) : result nat :=
  match ts with
  | [] => Ok 0
  | (n, c) :: ts' =>
      match code_entry a c with
      | None => Raise bad_char
      | Some e =>
          k <- item_count a ts' ;;
          Ok (match e_kind e with
              | KPad => 0
              | KBytes | KPascal => 1
              | _ => n
              end + k)
      end
  end.

(** Two's complement digits of [z] in base 256, least significant first. *)
Fixpoint le_bytes (k : nat) (z : Z) : list byte :=
  match k with
  | O => []
  | S k' => byte_of_Z z :: le_bytes k' (z / 256)
  end.

Fixpoint le_value (bs : list byte) : Z :=
  match bs with
  | [] => 0
  | b :: bs' => Z_of_byte b + 256 * le_value bs'
  end.

Definition int_bytes (e : endianness) (k : nat) (z : Z) : list byte :=
  match e with
  | LittleE => le_bytes k z
  | BigE => rev (le_bytes k z)
  end.

Definition int_value (e : endianness) (signed : bool) (bs : list byte) : Z :=
  let u := le_value (match e with LittleE => bs | BigE => rev bs end) in
  let m := (2 ^ (8 * Z.of_nat (List.length bs)))%Z in
  if signed && (m <=? 2 * u)%Z then (u - m)%Z else u.

Definition in_range (signed : bool) (k : nat) (z : Z) : bool :=
  let m := (2 ^ (8 * Z.of_nat k))%Z in
  if signed then ((- m <=? 2 * z) && (2 * z <? m))%Z
  else ((0 <=? z) && (z <? m))%Z.

(** Encoding of one value under an integer, boolean or character code. *)
Definition pack_one (e : endianness) (en : entry) (v : pyval) : result (list byte) :=
  match e_kind en with
  | KInt signed =>
      match as_index v with
      | None => Raise (StructError "required argument is not an integer")
      | Some z =>
          if in_range signed (e_size en) z then Ok (int_bytes e (e_size en) z)
          else Raise (StructError "argument out of range")
      end
  | KBool => Ok [if truthy v then x01 else x00]
  | KChar =>
      match v with
      | PBytes [b] => Ok [b]
      | _ => Raise (StructError "char format requires a bytes object of length 1")
      end
  | KFloat => Raise (Unmodelled "floating point encoding")
  | _ => Raise (StructError "not a scalar code")
  end.

Fixpoint pack_many (e : endianness) (en : entry) (n : nat) (vs : list pyval)
  : result (list byte * list pyval) :=
  match n with
  | O => Ok ([], vs)
  | S n' =>
      match vs with
      | [] => Raise (StructError "not enough arguments")
      | v :: vs' =>
          b <- pack_one e en v ;;
          r <- pack_many e en n' vs' ;;
          Ok (b ++ fst r, snd r)
      end
  end.

Fixpoint pack_tokens (a : alignment) (e : endianness) (ts : list token)
  (vs : list pyval) (off : nat) : result (list byte) :=
  match ts with
  | [] => Ok []
  | (n, c) :: ts' =>
      match code_entry a c with
      | None => Raise bad_char
      | Some en =>
          let pad := align_pad a off (e_size en) in
          let off' := off + pad + n * e_size en in
          match e_kind en with
          | KPad =>
              rest <- pack_tokens a e ts' vs off' ;;
              Ok (zeros pad ++ zeros n ++ rest)
          | KBytes =>
              match vs with
              | PBytes bs :: vs' =>
                  rest <- pack_tokens a e ts' vs' off' ;;
                  Ok (zeros pad ++ firstn n bs ++ zeros (n - List.length bs) ++ rest)
              | _ => Raise (StructError "argument for 's' must be a bytes object")
              end
          | KPascal => Raise (Unmodelled "pascal string encoding")
          | _ =>
              r <- pack_many e en n vs ;;
              rest <- pack_tokens a e ts' (snd r) off' ;;
              Ok (zeros pad ++ fst r ++ rest)
          end
      end
  end.

(** [struct.pack(fmt, *values)]. *)
Definition pack (fmt : string) (values : list pyval) : result (list byte) :=
  let '((a, e), body) := split_order fmt in
  ts <- tokenize body ;;
  k <- item_count a ts ;;
  if negb (Nat.eqb k (List.length values)) then
    Raise (StructError ("pack expected " ++ str_of_nat k ++ " items for packing (got "
                        ++ str_of_nat (List.length values) ++ ")")%string)
  else pack_tokens a e ts values 0.

Definition unpack_one (e : endianness) (en : entry) (bs : list byte) : result pyval :=
  match e_kind en with
  | KInt signed => Ok (PInt (int_value e signed bs))
  | KBool => Ok (PBool (negb (bytes_eqb bs [x00])))
  | KChar => Ok (PBytes bs)
  | KFloat => Raise (Unmodelled "floating point decoding")
  | _ => Raise (StructError "not a scalar code")
  end.

Fixpoint unpack_many (e : endianness) (en : entry) (n : nat) (data : list byte)
  : result (list pyval) :=
  match n with
  | O => Ok []
  | S n' =>
      v <- unpack_one e en (firstn (e_size en) data) ;;
      r <- unpack_many e en n' (skipn (e_size en) data) ;;
      Ok (v :: r)
  end.

Fixpoint unpack_tokens (a : alignment) (e : endianness) (ts : list token)
  (data : list byte) (off : nat) : result (list pyval) :=
  match ts with
  | [] => Ok []
  | (n, c) :: ts' =>
      match code_entry a c with
      | None => Raise bad_char
      | Some en =>
          let pad := align_pad a off (e_size en) in
          let off' := off + pad + n * e_size en in
          let body := skipn pad data in
          let rest_data := skipn (n * e_size en) body in
          match e_kind en with
          | KPad => unpack_tokens a e ts' rest_data off'
          | KBytes =>
              rest <- unpack_tokens a e ts' rest_data off' ;;
              Ok (PBytes (firstn n body) :: rest)
          | KPascal => Raise (Unmodelled "pascal string decoding")
          | _ =>
              vs <- unpack_many e en n body ;;
              rest <- unpack_tokens a e ts' rest_data off' ;;
              Ok (vs ++ rest)
          end
      end
  end.

(** [struct.unpack(fmt, data)], as the tuple of unpacked values. *)
Definition unpack (fmt : string) (data : list byte) : result (list pyval) :=
  let '((a, e), body) := split_order fmt in
  ts <- tokenize body ;;
  size <- layout a ts 0 ;;
  if negb (Nat.eqb size (List.length data)) then
    Raise (StructError ("unpack requires a buffer of " ++ str_of_nat size ++ " bytes")%string)
  else unpack_tokens a e ts data 0.

End Struct.

(* ===================================================================== *)
(** * Text codecs *)
(* ===================================================================== *)

(** [str.encode] and [bytes.decode] for the single-byte codecs and the two
    UTF-16 variants without byte order mark, on strings whose code points
    are below 256.  Everything else is outside the model. *)
Module Codec.

Definition lower (c : ascii) : ascii :=
  let n := nat_of_ascii c in
  if ((65 <=? n) && (n <=? 90))%nat then ascii_of_nat (n + 32) else c.

(** Codec lookup ignores case, hyphens and underscores. *)
Definition normalize (encoding : string) : string :=
  remove_char "_" (remove_char "-" (str_map lower encoding)).

Definition bytes_of_str (s : string) : list byte :=
  map byte_of_ascii (list_ascii_of_string s).

Definition str_of_bytes (bs : list byte) : string :=
  string_of_list_ascii (map ascii_of_byte bs).

Definition all_ascii (bs : list byte) : bool :=
  forallb (fun b => (Z_of_byte b <? 128)%Z) bs.

Fixpoint utf16_pairs (big : bool) (bs : list byte) : result (list byte) :=
  match bs with
  | [] => Ok []
  | [_] => Raise (UnicodeError "truncated data")
  | b0 :: b1 :: bs' =>
      let lo := if big then b1 else b0 in
      let hi := if big then b0 else b1 in
      if Byte.eqb hi x00 then r <- utf16_pairs big bs' ;; Ok (lo :: r)
      else Raise (Unmodelled "code point above 255")
  end.

(** [value.encode(encoding)]. *)
Definition encode (encoding : string) (value : string) : result (list byte) :=
  let e := normalize encoding in
  let bs := bytes_of_str value in
  if String.eqb e "latin1" then Ok bs
  else if String.eqb e "ascii" then
    if all_ascii bs then Ok bs else Raise (UnicodeError "ordinal not in range(128)")
  else if String.eqb e "utf8" then
    if all_ascii bs then Ok bs else Raise (Unmodelled "multi-byte UTF-8")
  else if String.eqb e "utf16le" then Ok (flat_map (fun b => [b; x00]) bs)
  else if String.eqb e "utf16be" then Ok (flat_map (fun b => [x00; b]) bs)
  else Raise (Unmodelled "codec").

(** [data.decode(encoding)]. *)
Definition decode (encoding : string) (data : list byte) : result string :=
  let e := normalize encoding in
  if String.eqb e "latin1" then Ok (str_of_bytes data)
  else if String.eqb e "ascii" then
    if all_ascii data then Ok (str_of_bytes data)
    else Raise (UnicodeError "ordinal not in range(128)")
  else if String.eqb e "utf8" then
    if all_ascii data then Ok (str_of_bytes data) else Raise (Unmodelled "multi-byte UTF-8")
  else if String.eqb e "utf16le" then r <- utf16_pairs false data ;; Ok (str_of_bytes r)
  else if String.eqb e "utf16be" then r <- utf16_pairs true data ;; Ok (str_of_bytes r)
  else Raise (Unmodelled "codec").

End Codec.

(* ===================================================================== *)
(** * constrata/byte_order.py *)
(* ===================================================================== *)

Module ByteOrderM.

Inductive ByteOrder : Type :=
| NativeAutoAligned
| NativeNotAutoAligned
| LittleEndian
| BigEndian
| Network.

Definition value (b : ByteOrder) : ascii :=
  match b with
  | NativeAutoAligned => "@"
  | NativeNotAutoAligned => "="
  | LittleEndian => "<"
  | BigEndian => ">"
  | Network => "!"
  end%char.

Definition eqb (a b : ByteOrder) : bool := Ascii.eqb (value a) (value b).

Definition get_utf_16_encoding (b : ByteOrder) : string :=
  match b with
  | BigEndian | Network => "utf-16-be"
  | _ => "utf-16-le"
  end.

Definition big_endian_bool (is_big_endian : bool) : ByteOrder :=
  if is_big_endian then BigEndian else LittleEndian.

End ByteOrderM.

Import ByteOrderM.

(* ===================================================================== *)
(** * constrata/streams/base.py *)
(* ===================================================================== *)

Module BinaryBase.

Definition VAR_INT : ascii := "v".
Definition VAR_UINT : ascii := "V".

(** [parse_fmt]: insert the default byte order and replace the ['v'] and
    ['V'] characters.  [long_varints] is tested for truth, so an unset
    flag selects the short codes. *)
Definition parse_fmt (default_byte_order : ByteOrder) (long_varints : option bool)
  (fmt : string) : result string :=
  match fmt with
  | EmptyString => Raise (IndexError "string index out of range")
  | String c _ =>
      let fmt1 :=
        if negb (contains_char c "@=><!") then String (value default_byte_order) fmt
        else fmt in
      match long_varints with
      | Some true => Ok (replace_char "V" "Q" (replace_char "v" "q" fmt1))
      | _ => Ok (replace_char "V" "I" (replace_char "v" "i" fmt1))
      end
  end.

(** [calcsize]: struct size of [fmt] after parsing it. *)
Definition calcsize (default_byte_order : ByteOrder) (long_varints : option bool)
  (fmt : string) : result nat :=
  f <- parse_fmt default_byte_order long_varints fmt ;;
  Struct.calcsize f.

End BinaryBase.

(** A Python object used as a reservation owner: its class name and its
    [id]. *)
Record pyobj : Type := mkObj { obj_class_name : string; obj_id : Z }.

(* ===================================================================== *)
(** * constrata/streams/writer.py *)
(* ===================================================================== *)

Module Writer.

Record BinaryWriter : Type := mkWriter {
  _array : list byte;
  reserved : dict (nat * string);
  default_byte_order : ByteOrder;
  long_varints : option bool
}.

(** [BinaryWriter(byte_order, long_varints)]; the class defaults are
    [ByteOrder.LittleEndian] and [True]. *)
Definition init (byte_order : ByteOrder) (long_varints : option bool) : BinaryWriter :=
  mkWriter [] [] byte_order long_varints.

Definition init_default (byte_order : ByteOrder) : BinaryWriter :=
  init byte_order (Some true).

Definition with_array (w : BinaryWriter) (a : list byte) : BinaryWriter :=
  mkWriter a (reserved w) (default_byte_order w) (long_varints w).

Definition with_reserved (w : BinaryWriter) (r : dict (nat * string)) : BinaryWriter :=
  mkWriter (_array w) r (default_byte_order w) (long_varints w).

Definition with_byte_order (w : BinaryWriter) (b : ByteOrder) : BinaryWriter :=
  mkWriter (_array w) (reserved w) b (long_varints w).

Definition parse_fmt (w : BinaryWriter) (fmt : string) : result string :=
  BinaryBase.parse_fmt (default_byte_order w) (long_varints w) fmt.

Definition calcsize (w : BinaryWriter) (fmt : string) : result nat :=
  BinaryBase.calcsize (default_byte_order w) (long_varints w) fmt.

Definition position (w : BinaryWriter) : nat := List.length (_array w).

(** Outcome of a method together with the writer as the call leaves it. *)
Definition effect (A : Type) : Type := (result A * BinaryWriter)%type.

Definition pack (w : BinaryWriter) (fmt : string) (values : list pyval) : effect unit :=
  match (f <- parse_fmt w fmt ;; Struct.pack f values) with
  | Ok packed => (Ok tt, with_array w (_array w ++ packed))
  | Raise e => (Raise e, w)
  end.

Definition pack_at (w : BinaryWriter) (offset : nat) (fmt : string) (values : list pyval)
  : effect unit :=
  match (f <- parse_fmt w fmt ;; Struct.pack f values) with
  | Ok packed => (Ok tt, with_array w (slice_assign (_array w) offset packed))
  | Raise e => (Raise e, w)
  end.

(** [pack_z_string]: a two-byte terminator for UTF-16 encodings. *)
Definition pack_z_string (w : BinaryWriter) (value : string) (encoding : string)
  : effect unit :=
  let terminator :=
    if startswith (remove_char "-" encoding) "utf16" then [x00; x00] else [x00] in
  match Codec.encode encoding value with
  | Ok encoded => (Ok tt, with_array w (_array w ++ encoded ++ terminator))
  | Raise e => (Raise e, w)
  end.

Definition append (w : BinaryWriter) (bytes_ : list byte) : BinaryWriter :=
  with_array w (_array w ++ bytes_).

Definition pad (w : BinaryWriter) (size : Z) (char : list byte) : BinaryWriter :=
  if (0 <? size)%Z then
    with_array w (_array w ++ List.concat (repeat char (Z.to_nat size)))
  else w.

Definition pad_to_offset (w : BinaryWriter) (offset : nat) (char : list byte) : effect unit :=
  if (offset <? position w)%nat then
    (Raise (ValueError ("Writer is already past offset " ++ str_of_nat offset ++ ": "
                        ++ str_of_nat (position w))%string), w)
  else (Ok tt, pad w (Z.of_nat offset - Z.of_nat (position w)) char).

Definition pad_align (w : BinaryWriter) (alignment : Z) (char : list byte) : effect unit :=
  if (alignment =? 0)%Z then (Raise (ZeroDivisionError "integer modulo by zero"), w)
  else
    let amount := (alignment - Z.of_nat (position w) mod alignment)%Z in
    if negb (amount =? alignment)%Z then (Ok tt, pad w amount char) else (Ok tt, w).

(** The ledger key: [f"{obj.__class__.__name__}__{id(obj)}({name})"] when
    an owner is given. *)
Definition reserve_name (name : string) (obj : option pyobj) : string :=
  match obj with
  | Some o => (obj_class_name o ++ "__" ++ str_of_Z (obj_id o) ++ "(" ++ name ++ ")")%string
  | None => name
  end.

Definition already_reserved (name : string) : exn :=
  ValueError ("Name " ++ repr_str name ++ " is already reserved in `BinaryWriter`.")%string.

Definition reserve (w : BinaryWriter) (name : string) (fmt : string) (obj : option pyobj)
  : effect unit :=
  let name := reserve_name name obj in
  if dict_mem (reserved w) name then (Raise (already_reserved name), w)
  else
    match parse_fmt w fmt with
    | Raise e => (Raise e, w)
    | Ok fmt =>
        let w1 := with_reserved w (dict_set (reserved w) name (List.length (_array w), fmt)) in
        match Struct.calcsize fmt with
        | Raise e => (Raise e, w1)
        | Ok n => (Ok tt, with_array w1 (_array w1 ++ zeros n))
        end
    end.

Definition mark_reserved_offset (w : BinaryWriter) (name : string) (fmt : string)
  (offset : nat) (obj : option pyobj) : effect unit :=
  let name := reserve_name name obj in
  if dict_mem (reserved w) name then (Raise (already_reserved name), w)
  else
    match parse_fmt w fmt with
    | Raise e => (Raise e, w)
    | Ok fmt => (Ok tt, with_reserved w (dict_set (reserved w) name (offset, fmt)))
    end.

Definition not_reserved (name : string) (obj : option pyobj) : exn :=
  match obj with
  | Some o =>
      ValueError ("Field " ++ repr_str name ++ " is not reserved by `"
                  ++ obj_class_name o ++ "` object.")%string
  | None =>
      ValueError ("Name " ++ repr_str name ++ " is not reserved in `BinaryWriter`.")%string
  end.

Definition fill_pack_error (fmt : string) : exn :=
  ValueError ("Error occurred when packing values to reserved offset with fmt "
              ++ repr_str fmt)%string.

(** [fill]: only [struct.error] is caught and turned into a [ValueError];
    the reservation is popped after a successful fill only. *)
Definition fill (w : BinaryWriter) (name : string) (values : list pyval)
  (obj : option pyobj) : effect unit :=
  match values with
  | [] => (Raise (ValueError "No values given to fill."), w)
  | _ =>
      let name := reserve_name name obj in
      match dict_get (reserved w) name with
      | None => (Raise (not_reserved name obj), w)
      | Some (offset, fmt) =>
          match Struct.pack fmt values with
          | Raise (StructError _) => (Raise (fill_pack_error fmt), w)
          | Raise e => (Raise e, w)
          | Ok packed =>
              (Ok tt,
               with_reserved (with_array w (slice_assign (_array w) offset packed))
                             (dict_pop (reserved w) name))
          end
      end
  end.

Definition fill_with_position (w : BinaryWriter) (name : string) (obj : option pyobj)
  : effect nat :=
  match fill w name [PInt (Z.of_nat (position w))] obj with
  | (Ok _, w') => (Ok (position w'), w')
  | (Raise e, w') => (Raise e, w')
  end.

Definition block_copy (w : BinaryWriter) (source_offset dest_offset size : nat)
  : BinaryWriter :=
  let block := firstn size (skipn source_offset (_array w)) in
  with_array w (firstn dest_offset (_array w) ++ block
                ++ skipn (dest_offset + size) (_array w)).

Definition not_filled (keys : list string) : exn :=
  ValueError ("Reserved `BinaryWriter` offsets not filled:" ++ String "010" "    "
              ++ str_join (String "010" "    ") keys)%string.

(** [bytes(writer)]. *)
Definition to_bytes (w : BinaryWriter) : result (list byte) :=
  match reserved w with
  | [] => Ok (_array w)
  | _ => Raise (not_filled (dict_keys (reserved w)))
  end.

End Writer.

(* ===================================================================== *)
(** * constrata/streams/reader.py *)
(* ===================================================================== *)

Module Reader.

(** The reader over an in-memory buffer: the bytes and the stream
    position. *)
Record BinaryReader : Type := mkReader {
  buffer : list byte;
  position : nat;
  default_byte_order : ByteOrder;
  long_varints : option bool
}.

(** [BinaryReader(data, default_byte_order, long_varints)]; the class
    defaults are [ByteOrder.LittleEndian] and [True]. *)
Definition init (data : list byte) (byte_order : ByteOrder) (long_varints : option bool)
  : BinaryReader :=
  mkReader data 0 byte_order long_varints.

Definition init_default (data : list byte) (byte_order : ByteOrder) : BinaryReader :=
  init data byte_order (Some true).

Definition seek (r : BinaryReader) (offset : nat) : BinaryReader :=
  mkReader (buffer r) offset (default_byte_order r) (long_varints r).

Definition with_byte_order (r : BinaryReader) (b : ByteOrder) : BinaryReader :=
  mkReader (buffer r) (position r) b (long_varints r).

Definition effect (A : Type) : Type := (result A * BinaryReader)%type.

(** [buffer.read(size)]: at most [size] bytes from the current position. *)
Definition buffer_read (r : BinaryReader) (size : nat) : list byte * BinaryReader :=
  let data := firstn size (skipn (position r) (buffer r)) in
  (data, seek r (position r + List.length data)).

Definition parse_fmt (r : BinaryReader) (fmt : string) : result string :=
  BinaryBase.parse_fmt (default_byte_order r) (long_varints r) fmt.

Definition could_not_unpack (fmt_size : nat) (fmt : string) : exn :=
  ValueError ("Could not unpack " ++ str_of_nat fmt_size
              ++ " bytes from reader for format '" ++ fmt ++ "'.")%string.

(** [unpack(fmt, offset, relative_offset, asserted)]. *)
Definition unpack_at (r : BinaryReader) (fmt : string) (offset : option nat)
  (relative_offset : bool) (asserted : option (list pyval)) : effect (list pyval) :=
  match parse_fmt r fmt with
  | Raise e => (Raise e, r)
  | Ok fmt =>
      match Struct.calcsize fmt with
      | Raise e => (Raise e, r)
      | Ok fmt_size =>
          let initial_offset := position r in
          let r1 :=
            match offset with
            | Some o => seek r (if relative_offset then initial_offset + o else o)
            | None => r
            end in
          let '(raw_data, r2) := buffer_read r1 fmt_size in
          match raw_data, fmt_size with
          | [], S _ => (Raise (could_not_unpack fmt_size fmt), r2)
          | _, _ =>
              match Struct.unpack fmt raw_data with
              | Raise e => (Raise e, r2)
              | Ok data =>
                  let mismatch :=
                    match asserted with
                    | Some a => negb (tuple_eqb data a)
                    | None => false
                    end in
                  if mismatch then
                    (Raise (AssertionError "Unpacked data does not equal asserted data."), r2)
                  else
                    (Ok data,
                     match offset with Some _ => seek r2 initial_offset | None => r2 end)
              end
          end
      end
  end.

(** [unpack(fmt)] at the current offset. *)
Definition unpack (r : BinaryReader) (fmt : string) : effect (list pyval) :=
  unpack_at r fmt None false None.

(** [unpack_value(fmt)]: the single value unpacked. *)
Definition unpack_value (r : BinaryReader) (fmt : string) : effect pyval :=
  match unpack r fmt with
  | (Raise e, r') => (Raise e, r')
  | (Ok data, r') =>
      match data with
      | _ :: _ :: _ =>
          (Raise (ValueError "More than one value unpacked with `unpack_value()`"), r')
      | [] => (Raise (IndexError "tuple index out of range"), r')
      | [v] => (Ok v, r')
      end
  end.

(** [reader[fmt]]. *)
Definition getitem (r : BinaryReader) (fmt : string) : effect pyval := unpack_value r fmt.

(** [read(size)] at the current offset. *)
Definition read (r : BinaryReader) (size : nat) : list byte * BinaryReader :=
  buffer_read r size.

(** [tell()]. *)
Definition tell (r : BinaryReader) : nat := position r.

(** [read(size, offset)]: read at [offset] under [temp_offset], which
    seeks back to the initial offset afterwards. *)
Definition read_at (r : BinaryReader) (size : nat) (offset : nat)
  : list byte * BinaryReader :=
  let initial_offset := position r in
  let '(data, r1) := buffer_read (seek r offset) size in
  (data, seek r1 initial_offset).

(** [peek(size, bytes_ahead)] with an integer size. *)
Definition peek_bytes (r : BinaryReader) (size : nat) (bytes_ahead : nat)
  : list byte * BinaryReader :=
  read_at r size (position r + bytes_ahead).

(** [peek(fmt, bytes_ahead)] with a format. *)
Definition peek (r : BinaryReader) (fmt : string) (bytes_ahead : nat)
  : effect (list pyval) :=
  unpack_at r fmt (Some (position r + bytes_ahead)) false None.

(** [assert_pad(size, char)]: read [size] bytes and raise when stripping
    the bytes of [char] from both ends leaves something. *)
Definition assert_pad (r : BinaryReader) (size : nat) (char : list byte) : effect unit :=
  let '(padding, r1) := buffer_read r size in
  if forallb (fun b => existsb (Byte.eqb b) char) padding then (Ok tt, r1)
  else (Raise (ValueError "Reader `assert_pad` found bytes other than the pad character"), r1).

(** [align(alignment)]: [while tell() % alignment: read(1)].  [fuel]
    bounds the number of rounds and [None] means the bound was reached. *)
Fixpoint align (fuel : nat) (r : BinaryReader) (alignment : Z)
  : option (effect unit) :=
  match fuel with
  | O => None
  | S fuel' =>
      if (alignment =? 0)%Z then
        Some (Raise (ZeroDivisionError "integer modulo by zero"), r)
      else if (Z.of_nat (position r) mod alignment =? 0)%Z then Some (Ok tt, r)
      else align fuel' (snd (buffer_read r 1)) alignment
  end.

End Reader.

(* ===================================================================== *)
(** * constrata/field_types/type_info.py *)
(* ===================================================================== *)

Module TypeInfo.

(** [PRIMITIVE_FMT_SIZE_MINMAX[fmt][1][1]]: the largest value of a
    format; a [KeyError] outside the table and a [TypeError] where the
    table holds [None]. *)
Definition fmt_max (fmt : string) : result Z :=
  if String.eqb fmt "B" then Ok (2 ^ 8 - 1)%Z
  else if String.eqb fmt "b" then Ok (2 ^ 7 - 1)%Z
  else if String.eqb fmt "H" then Ok (2 ^ 16 - 1)%Z
  else if String.eqb fmt "h" then Ok (2 ^ 15 - 1)%Z
  else if String.eqb fmt "I" then Ok (2 ^ 32 - 1)%Z
  else if String.eqb fmt "i" then Ok (2 ^ 31 - 1)%Z
  else if String.eqb fmt "Q" then Ok (2 ^ 64 - 1)%Z
  else if String.eqb fmt "q" then Ok (2 ^ 63 - 1)%Z
  else if String.eqb fmt "?" || String.eqb fmt "f" || String.eqb fmt "d"
          || String.eqb fmt "v" || String.eqb fmt "V"
  then Raise (TypeError "'NoneType' object is not subscriptable")
  else Raise (KeyError fmt).

End TypeInfo.

(* ===================================================================== *)
(** * constrata/streams/bits.py *)
(* ===================================================================== *)

Module Bits.

(** [_BitFieldBase]: the partial field as a string of binary digits, least
    significant bit first, the format of the unit and the read offset. *)
Record BitField : Type := mkBits {
  _field : string;
  _fmt : string;
  _offset : Z
}.

Definition init : BitField := mkBits "" "" 0.

Definition clear (b : BitField) : BitField := mkBits "" "" 0.

Definition empty (b : BitField) : bool :=
  match _field b with EmptyString => true | _ => false end.

Definition str_is_empty (s : string) : bool :=
  match s with EmptyString => true | _ => false end.

(** ** BitFieldReader *)

(** The tail shared by [read] and [read_list_buffer]: slice the requested
    bits out of the unit, advance, reset at a unit boundary. *)
Definition take_bits (b : BitField) (bit_count : Z) (max_bit_count : nat)
  : result Z * BitField :=
  let binary_str :=
    str_rev (str_slice_z (_field b) (_offset b) (_offset b + bit_count)) in
  let off := (_offset b + bit_count)%Z in
  match max_bit_count with
  | O => (Raise (ZeroDivisionError "integer modulo by zero"), mkBits (_field b) (_fmt b) off)
  | _ =>
      let b' :=
        if (off mod Z.of_nat max_bit_count =? 0)%Z then mkBits "" (_fmt b) 0
        else mkBits (_field b) (_fmt b) off in
      (int_base2 binary_str, b')
  end.

Definition needs_new_unit (b : BitField) (bit_count : Z) (fmt : string)
  (max_bit_count : nat) : bool :=
  str_is_empty (_field b) || negb (String.eqb fmt (_fmt b))
  || (Z.of_nat max_bit_count <? _offset b + bit_count)%Z.

Definition read (b : BitField) (reader : Reader.BinaryReader) (bit_count : Z)
  (fmt : string) : result Z * BitField * Reader.BinaryReader :=
  match Struct.calcsize fmt with
  | Raise e => (Raise e, b, reader)
  | Ok size =>
      let max_bit_count := 8 * size in
      if needs_new_unit b bit_count fmt max_bit_count then
        match Reader.getitem reader fmt with
        | (Raise e, reader') => (Raise e, b, reader')
        | (Ok integer, reader') =>
            match format_0b_val integer (Z.of_nat max_bit_count) with
            | Raise e => (Raise e, b, reader')
            | Ok digits =>
                let '(r, b') :=
                  take_bits (mkBits (str_rev digits) fmt (_offset b)) bit_count max_bit_count in
                (r, b', reader')
            end
        end
      else
        let '(r, b') := take_bits b bit_count max_bit_count in (r, b', reader)
  end.

Definition too_large_for_fmt (fmt : string) : exn :=
  ValueError ("BitFieldReader popped value which is too large for fmt " ++ fmt ++ ".")%string.

Definition read_list_buffer (b : BitField) (buffer : list pyval) (bit_count : Z)
  (fmt : string) : result Z * BitField * list pyval :=
  match Struct.calcsize fmt with
  | Raise e => (Raise e, b, buffer)
  | Ok size =>
      let max_bit_count := 8 * size in
      if needs_new_unit b bit_count fmt max_bit_count then
        match list_pop buffer with
        | None => (Raise (IndexError "pop from empty list"), b, buffer)
        | Some (integer, buffer') =>
            match TypeInfo.fmt_max fmt with
            | Raise e => (Raise e, b, buffer')
            | Ok max_size =>
                match as_index integer with
                | None =>
                    (Raise (TypeError "'>' not supported between these instances"), b, buffer')
                | Some z =>
                    if (max_size <? z)%Z then (Raise (too_large_for_fmt fmt), b, buffer')
                    else
                      match format_0b_val integer (Z.of_nat max_bit_count) with
                      | Raise e => (Raise e, b, buffer')
                      | Ok digits =>
                          let '(r, b') :=
                            take_bits (mkBits (str_rev digits) fmt (_offset b))
                                      bit_count max_bit_count in
                          (r, b', buffer')
                      end
                end
            end
        end
      else
        let '(r, b') := take_bits b bit_count max_bit_count in (r, b', buffer)
  end.

(** ** BitFieldWriter *)

(** [value >= 2 ** bit_count]; a negative exponent gives a float strictly
    between 0 and 1. *)
Definition exceeds (value : pyval) (bit_count : Z) : result bool :=
  match as_index value with
  | None => Raise (TypeError "'>=' not supported between these instances")
  | Some z =>
      if (bit_count <? 0)%Z then Ok (1 <=? z)%Z
      else Ok (2 ^ bit_count <=? z)%Z
  end.

Definition too_large (bit_count : Z) : exn :=
  ValueError ("Value of new bit field value is too large for given bit count ("
              ++ str_of_Z bit_count ++ ").")%string.

Definition exceeded_new : exn :=
  ValueError "New bit field was exceeded before previous bit field could be written.".

(** [finish_field]: pad the existing bit field, pack it, clear. *)
Definition finish_field (b : BitField) (writer : Writer.BinaryWriter)
  : result unit * BitField * Writer.BinaryWriter :=
  if str_is_empty (_field b) then (Ok tt, b, writer)
  else
    match Struct.calcsize (_fmt b) with
    | Raise e => (Raise e, b, writer)
    | Ok size =>
        let padded_field := format_pad_right0 (_field b) size in
        match int_base2 (str_rev padded_field) with
        | Raise e => (Raise e, b, writer)
        | Ok integer =>
            match Writer.pack writer (_fmt b) [PInt integer] with
            | (Raise e, writer') => (Raise e, b, writer')
            | (Ok _, writer') => (Ok tt, clear b, writer')
            end
        end
    end.

(** [finish_field_buffer]: the same onto a list of pack inputs; returns
    the format added. *)
Definition finish_field_buffer (b : BitField) (buffer : list pyval)
  : result string * BitField * list pyval :=
  match Struct.calcsize (_fmt b) with
  | Raise e => (Raise e, b, buffer)
  | Ok size =>
      let padded_field := format_pad_right0 (_field b) size in
      match int_base2 (str_rev padded_field) with
      | Raise e => (Raise e, b, buffer)
      | Ok integer => (Ok (_fmt b), clear b, buffer ++ [PInt integer])
      end
  end.

(** [write]: append [value] to the bit field and pack the unit to the
    writer whenever it is completed. *)
Definition write (b : BitField) (writer : Writer.BinaryWriter) (value : pyval)
  (bit_count : Z) (fmt : string) : result unit * BitField * Writer.BinaryWriter :=
  match exceeds value bit_count with
  | Raise e => (Raise e, b, writer)
  | Ok true => (Raise (too_large bit_count), b, writer)
  | Ok false =>
      let '(r0, b0, writer0, new_fmt) :=
        if negb (String.eqb fmt (_fmt b)) then
          let '(r, b', writer') :=
            if negb (str_is_empty (_fmt b)) then finish_field b writer
            else (Ok tt, b, writer) in
          match r with
          | Raise e => (Raise e, b', writer', true)
          | Ok _ => (Ok tt, mkBits (_field b') fmt (_offset b'), writer', true)
          end
        else (Ok tt, b, writer, false) in
      match r0 with
      | Raise e => (Raise e, b0, writer0)
      | Ok _ =>
          match format_0b_val value bit_count with
          | Raise e => (Raise e, b0, writer0)
          | Ok digits =>
              let b1 := mkBits (_field b0 ++ str_rev digits) (_fmt b0) (_offset b0) in
              match Struct.calcsize (_fmt b1) with
              | Raise e => (Raise e, b1, writer0)
              | Ok size =>
                  let max_bit_count := 8 * size in
                  if (max_bit_count <=? str_len (_field b1))%nat then
                    if new_fmt then (Raise exceeded_new, b1, writer0)
                    else
                      let completed_bit_field := str_slice (_field b1) 0 max_bit_count in
                      match int_base2 (str_rev completed_bit_field) with
                      | Raise e => (Raise e, b1, writer0)
                      | Ok integer =>
                          match Writer.pack writer0 (_fmt b1) [PInt integer] with
                          | (Raise e, writer1) => (Raise e, b1, writer1)
                          | (Ok _, writer1) =>
                              (Ok tt,
                               mkBits (str_drop (_field b1) max_bit_count) (_fmt b1) (_offset b1),
                               writer1)
                          end
                      end
                  else (Ok tt, b1, writer0)
              end
          end
      end
  end.

(** [write_to_buffer]: the same onto a list of pack inputs; returns the
    formats of the values appended. *)
Definition write_to_buffer (b : BitField) (buffer : list pyval) (value : pyval)
  (bit_count : Z) (fmt : string) : result string * BitField * list pyval :=
  match exceeds value bit_count with
  | Raise e => (Raise e, b, buffer)
  | Ok true => (Raise (too_large bit_count), b, buffer)
  | Ok false =>
      let '(r0, b0, buffer0, new_fmt) :=
        if negb (String.eqb fmt (_fmt b)) then
          let '(r, b', buffer') :=
            if negb (str_is_empty (_fmt b)) && negb (empty b) then
              (* the value returned by [finish_field_buffer] is dropped and
                 [self._fmt] is read after the call *)
              match finish_field_buffer b buffer with
              | (Raise e, b', buffer') => (Raise e, b', buffer')
              | (Ok _, b', buffer') => (Ok (_fmt b'), b', buffer')
              end
            else (Ok "", b, buffer) in
          match r with
          | Raise e => (Raise e, b', buffer', true)
          | Ok added => (Ok added, mkBits (_field b') fmt (_offset b'), buffer', true)
          end
        else (Ok "", b, buffer, false) in
      match r0 with
      | Raise e => (Raise e, b0, buffer0)
      | Ok added_fmt =>
          match format_0b_val value bit_count with
          | Raise e => (Raise e, b0, buffer0)
          | Ok digits =>
              let b1 := mkBits (_field b0 ++ str_rev digits) (_fmt b0) (_offset b0) in
              match Struct.calcsize (_fmt b1) with
              | Raise e => (Raise e, b1, buffer0)
              | Ok size =>
                  let max_bit_count := 8 * size in
                  if (max_bit_count <=? str_len (_field b1))%nat then
                    if new_fmt then (Raise exceeded_new, b1, buffer0)
                    else
                      let completed_bit_field := str_slice (_field b1) 0 max_bit_count in
                      match int_base2 (str_rev completed_bit_field) with
                      | Raise e => (Raise e, b1, buffer0)
                      | Ok field_int =>
                          (Ok (added_fmt ++ _fmt b1)%string,
                           mkBits (str_drop (_field b1) max_bit_count) (_fmt b1) (_offset b1),
                           buffer0 ++ [PInt field_int])
                      end
                  else (Ok added_fmt, b1, buffer0)
              end
          end
      end
  end.

End Bits.

(* ===================================================================== *)
(** * constrata/metadata.py *)
(* ===================================================================== *)

Module Metadata.

(** The three metadata classes. *)
Inductive kind : Type :=
| Plain
| StringMeta (encoding : option string) (rstrip_null : bool)
| ArrayMeta (length : nat).

Record BinaryMetadata : Type := mkMeta {
  fmt : string;
  asserted : list pyval;
  unpack_func : option (pyval -> result pyval);
  pack_func : option (pyval -> result pyval);
  bit_count : Z;
  should_skip_func : option (option bool -> dict pyval -> bool);
  field_name : string;
  meta_kind : kind
}.

(** [single_asserted], as [__post_init__] computes it ([None] when there
    is not exactly one asserted value). *)
Definition single_asserted (m : BinaryMetadata) : pyval :=
  match asserted m with
  | [v] => v
  | _ => PNone
  end.

Definition has_asserted (m : BinaryMetadata) : bool :=
  match asserted m with [] => false | _ => true end.

(** The statements out of which [get_unpacker] and [get_packer] assemble
    the text of the function they [exec]. *)
Inductive stmt : Type :=
| Pop                        (* value = struct_output.pop() *)
| PopList (n : nat)          (* value = [struct_output.pop() for _ in range(n)] *)
| Decode                     (* value = value.decode(metadata.encoding) *)
| DecodeByteOrder            (* value = value.decode(byte_order.get_utf_16_encoding()) *)
| Encode                     (* value = value.encode(metadata.encoding) *)
| EncodeByteOrder            (* value = value.encode(byte_order.get_utf_16_encoding()) *)
| RstripStr                  (* value = value.rstrip("\0") *)
| RstripBytes                (* value = value.rstrip(b"\0") *)
| CallUnpackFunc             (* value = metadata.unpack_func(value) *)
| CallPackFunc               (* value = metadata.pack_func(value) *)
| CheckAsserted (read : bool)  (* if value not in metadata.asserted: raise ... *)
| Append                     (* struct_input.append(value) *)
| Extend                     (* struct_input.extend(value) *)
| Return.                    (* return value *)

Definition opt (b : bool) (s : list stmt) : list stmt := if b then s else [].

Definition is_some {A : Type} (o : option A) : bool :=
  match o with Some _ => true | None => false end.

Definition is_utf16 (encoding : option string) : bool :=
  match encoding with Some e => String.eqb e "utf16" | None => false end.

Definition has_encoding (encoding : option string) : bool :=
  match encoding with Some e => negb (String.eqb e "") | None => false end.

(** [get_unpacker]: the body of the generated [unpack(struct_output)]. *)
Definition get_unpacker (m : BinaryMetadata) : list stmt :=
  match meta_kind m with
  | Plain =>
      [Pop]
      ++ opt (is_some (unpack_func m)) [CallUnpackFunc]
      ++ opt (has_asserted m) [CheckAsserted true]
      ++ [Return]
  | StringMeta encoding rstrip_null =>
      [Pop]
      ++ (if has_encoding encoding then
            (if is_utf16 encoding then [DecodeByteOrder] else [Decode])
            ++ opt rstrip_null [RstripStr]
          else opt rstrip_null [RstripBytes])
      ++ opt (is_some (unpack_func m)) [CallUnpackFunc]
      ++ opt (has_asserted m) [CheckAsserted true]
      ++ [Return]
  | ArrayMeta length =>
      [PopList length]
      ++ opt (is_some (unpack_func m)) [CallUnpackFunc]
      ++ opt (has_asserted m) [CheckAsserted true]
      ++ [Return]
  end.

(** [get_packer]: the body of the generated [pack(struct_input, value)]. *)
Definition get_packer (m : BinaryMetadata) : list stmt :=
  match meta_kind m with
  | Plain =>
      opt (has_asserted m) [CheckAsserted false]
      ++ opt (is_some (pack_func m)) [CallPackFunc]
      ++ [Append]
  | StringMeta encoding rstrip_null =>
      opt rstrip_null
          [match encoding with None => RstripBytes | Some _ => RstripStr end]
      ++ opt (has_asserted m) [CheckAsserted false]
      ++ opt (is_some (pack_func m)) [CallPackFunc]
      ++ (if has_encoding encoding then
            (if is_utf16 encoding then [EncodeByteOrder] else [Encode])
          else [])
      ++ [Append]
  | ArrayMeta length =>
      opt (has_asserted m) [CheckAsserted false]
      ++ opt (is_some (pack_func m)) [CallPackFunc]
      ++ [Extend]
  end.

Definition not_asserted (m : BinaryMetadata) (read : bool) : exn :=
  BinaryFieldValueError
    ("Field '" ++ field_name m ++ (if read then "' read value" else "' value")
     ++ " is not an asserted value")%string.

Definition call_hook (h : option (pyval -> result pyval)) (v : pyval) : result pyval :=
  match h with
  | Some f => f v
  | None => Raise (TypeError "'NoneType' object is not callable")
  end.

Definition encoding_of (m : BinaryMetadata) : string :=
  match meta_kind m with
  | StringMeta (Some e) _ => e
  | _ => ""
  end.

(** [[struct_output.pop() for _ in range(n)]]. *)
Fixpoint pop_n (n : nat) (io : list pyval) : result (list pyval) * list pyval :=
  match n with
  | O => (Ok [], io)
  | S n' =>
      match list_pop io with
      | None => (Raise (IndexError "pop from empty list"), io)
      | Some (v, io') =>
          match pop_n n' io' with
          | (Ok vs, io'') => (Ok (v :: vs), io'')
          | (Raise e, io'') => (Raise e, io'')
          end
      end
  end.

(** One statement of a generated function, on the list argument [io] and
    the local [value]. *)
Definition exec_stmt (m : BinaryMetadata) (s : stmt) (io : list pyval) (value : pyval)
  : result pyval * list pyval :=
  match s with
  | Pop =>
      match list_pop io with
      | Some (v, io') => (Ok v, io')
      | None => (Raise (IndexError "pop from empty list"), io)
      end
  | PopList n =>
      match pop_n n io with
      | (Ok vs, io') => (Ok (PList vs), io')
      | (Raise e, io') => (Raise e, io')
      end
  | Decode =>
      match value with
      | PBytes bs => (s <- Codec.decode (encoding_of m) bs ;; Ok (PStr s), io)
      | _ => (Raise (AttributeError "object has no attribute 'decode'"), io)
      end
  | Encode =>
      match value with
      | PStr s => (bs <- Codec.encode (encoding_of m) s ;; Ok (PBytes bs), io)
      | _ => (Raise (AttributeError "object has no attribute 'encode'"), io)
      end
  | DecodeByteOrder | EncodeByteOrder =>
      (Raise (NameError "name 'byte_order' is not defined"), io)
  | RstripStr =>
      match value with
      | PStr s => (Ok (PStr (str_rstrip_nul s)), io)
      | PBytes _ => (Raise (TypeError "a bytes-like object is required, not 'str'"), io)
      | _ => (Raise (AttributeError "object has no attribute 'rstrip'"), io)
      end
  | RstripBytes =>
      match value with
      | PBytes bs => (Ok (PBytes (bytes_rstrip_nul bs)), io)
      | PStr _ => (Raise (TypeError "rstrip arg must be None or str"), io)
      | _ => (Raise (AttributeError "object has no attribute 'rstrip'"), io)
      end
  | CallUnpackFunc => (call_hook (unpack_func m) value, io)
  | CallPackFunc => (call_hook (pack_func m) value, io)
  | CheckAsserted read =>
      if py_in value (asserted m) then (Ok value, io)
      else (Raise (not_asserted m read), io)
  | Append => (Ok value, io ++ [value])
  | Extend =>
      match py_iter value with
      | Ok vs => (Ok value, io ++ vs)
      | Raise e => (Raise e, io)
      end
  | Return => (Ok value, io)
  end.

(** Running a generated body: statements in order, stopping at the first
    exception or at [return]; falling off the end returns [None]. *)
Fixpoint exec (m : BinaryMetadata) (body : list stmt) (io : list pyval) (value : pyval)
  : result pyval * list pyval :=
  match body with
  | [] => (Ok PNone, io)
  | Return :: _ => (Ok value, io)
  | s :: body' =>
      match exec_stmt m s io value with
      | (Ok value', io') => exec m body' io' value'
      | (Raise e, io') => (Raise e, io')
      end
  end.

(** Calling the function returned by [get_unpacker]. *)
Definition unpack (m : BinaryMetadata) (struct_output : list pyval)
  : result pyval * list pyval :=
  exec m (get_unpacker m) struct_output PNone.

(** Calling the function returned by [get_packer]. *)
Definition pack (m : BinaryMetadata) (struct_input : list pyval) (value : pyval)
  : result unit * list pyval :=
  match exec m (get_packer m) struct_input value with
  | (Ok _, io) => (Ok tt, io)
  | (Raise e, io) => (Raise e, io)
  end.

End Metadata.

(* ===================================================================== *)
(** * constrata/binary_struct.py *)
(* ===================================================================== *)

Module BinaryStruct.

Import Metadata.

(** One binary field of an initialized class: the dataclass field, the
    annotated type as a callable, and the compiled metadata.  The class
    caches [_FIELDS], [_FIELD_TYPES], [_FIELD_METADATA], [_FIELD_PACKERS]
    and [_FIELD_UNPACKERS] are parallel tuples; a [Field] is one position
    of them, the packer and unpacker being [Metadata.pack] and
    [Metadata.unpack] of its metadata. *)
Record Field : Type := mkField {
  name : string;
  init : bool;
  default : option pyval;
  NOT_BINARY : bool;
  field_type : pyval -> result pyval;
  metadata : BinaryMetadata
}.

Record StructClass : Type := mkClass {
  cls_name : string;
  _FIELDS : list Field
}.

Record Instance : Type := mkInstance {
  cls : StructClass;
  self_id : Z;
  attrs : dict pyval;
  byte_order : option ByteOrder;
  long_varints : option bool
}.

(** [getattr(self, name, None)]. *)
Definition getattr (self : Instance) (name : string) : pyval :=
  match dict_get (attrs self) name with
  | Some v => v
  | None => PNone
  end.

Definition as_obj (self : Instance) : pyobj :=
  mkObj (cls_name (cls self)) (self_id self).


Definition skips (m : BinaryMetadata) (long_varints : option bool)
  (field_values : dict pyval) : bool :=
  match should_skip_func m with
  | Some f => f long_varints field_values
  | None => false
  end.

(** ** [get_full_fmt] *)

Record FmtState : Type := mkFmtState {
  fs_full_fmt : string;
  fs_used_bits : Z;
  fs_bit_field_max : Z
}.

Definition last_differs (fmt full_fmt : string) : bool :=
  match str_last full_fmt with
  | Some c => negb (String.eqb fmt (String c EmptyString))
  | None => true
  end.

Definition full_fmt_step (long_varints : option bool) (field_values : option (dict pyval))
  (st : FmtState) (f : Field) : result FmtState :=
  let m := metadata f in
  let skip :=
    match field_values with
    | Some vals => skips m long_varints vals
    | None => false
    end in
  if skip then Ok st
  else if (bit_count m =? -1)%Z then
    Ok (mkFmtState (fs_full_fmt st ++ fmt m) 0 0)
  else if Bits.str_is_empty (fs_full_fmt st) || (fs_bit_field_max st =? 0)%Z
          || last_differs (fmt m) (fs_full_fmt st) then
    size <- Struct.calcsize (fmt m) ;;
    Ok (mkFmtState (fs_full_fmt st ++ fmt m) (bit_count m) (Z.of_nat size * 8))
  else if (fs_bit_field_max st <? fs_used_bits st + bit_count m)%Z then
    Ok (mkFmtState (fs_full_fmt st ++ fmt m)
                   (bit_count m - (fs_bit_field_max st - fs_used_bits st))
                   (fs_bit_field_max st))
  else
    Ok (mkFmtState (fs_full_fmt st) (fs_used_bits st + bit_count m) (fs_bit_field_max st)).

Fixpoint full_fmt_loop (long_varints : option bool) (field_values : option (dict pyval))
  (fields : list Field) (st : FmtState) : result FmtState :=
  match fields with
  | [] => Ok st
  | f :: fields' =>
      st' <- full_fmt_step long_varints field_values st f ;;
      full_fmt_loop long_varints field_values fields' st'
  end.

Definition get_full_fmt (c : StructClass) (long_varints : option bool)
  (field_values : option (dict pyval)) : result string :=
  st <- full_fmt_loop long_varints field_values (_FIELDS c) (mkFmtState "" 0 0) ;;
  Ok (fs_full_fmt st).

(** ** [get_size] *)

Definition has_varint (full_fmt : string) : bool :=
  contains_char "v" full_fmt || contains_char "V" full_fmt.

Definition size_needs_flag (c : StructClass) : exn :=
  ValueError ("Struct `" ++ cls_name c
              ++ "` has varint fields. `long_varints` must be set to get size.")%string.

Definition get_size (c : StructClass) (byte_order : ByteOrder) (long_varints : option bool)
  : result nat :=
  body <- get_full_fmt c None None ;;
  let full_fmt := String (value byte_order) body in
  if has_varint full_fmt then
    match long_varints with
    | None => Raise (size_needs_flag c)
    | Some true => Struct.calcsize (replace_char "V" "Q" (replace_char "v" "q" full_fmt))
    | Some false => Struct.calcsize (replace_char "V" "I" (replace_char "v" "i" full_fmt))
    end
  else Struct.calcsize full_fmt.

(** ** [to_writer] *)

Record PackState : Type := mkPackState {
  ps_writer : Writer.BinaryWriter;
  ps_bit_writer : Bits.BitField;
  ps_full_fmt : string;
  ps_struct_input : list pyval
}.

(** The local function [get_fmt_size]. *)
Definition get_fmt_size (long_varints : option bool) (st : PackState) : result nat :=
  if Bits.str_is_empty (ps_full_fmt st) then Ok 0
  else
    match long_varints with
    | None => Struct.calcsize (ps_full_fmt st)
    | Some _ => Writer.calcsize (ps_writer st) (ps_full_fmt st)
    end.

Definition not_asserted_value (c : StructClass) (f : Field) : exn :=
  ValueError ("Field `" ++ cls_name c ++ "." ++ name f
              ++ "` value is not an asserted value")%string.

(** The body of the packing loop for one field. *)
Definition pack_field (c : StructClass) (long_varints : option bool)
  (field_values : dict pyval) (start_offset : nat) (byte_order : ByteOrder)
  (reserve_obj : pyobj) (st : PackState) (f : Field) (field_value : pyval)
  : result unit * PackState :=
  let m := metadata f in
  if NOT_BINARY f then (Ok tt, st)
  else if skips m long_varints field_values then (Ok tt, st)
  else
    (* pad out the bit writer before an ordinary field *)
    let '(r1, st1) :=
      if negb (Bits.empty (ps_bit_writer st)) && (bit_count m =? -1)%Z then
        match Bits.finish_field_buffer (ps_bit_writer st) (ps_struct_input st) with
        | (Ok added, b, input) =>
            (Ok tt, mkPackState (ps_writer st) b (ps_full_fmt st ++ added) input)
        | (Raise e, b, input) =>
            (Raise e, mkPackState (ps_writer st) b (ps_full_fmt st) input)
        end
      else (Ok tt, st) in
    match r1 with
    | Raise e => (Raise e, st1)
    | Ok _ =>
        if negb (bit_count m =? -1)%Z then
          if has_asserted m && negb (py_in field_value (asserted m)) then
            (Raise (not_asserted_value c f), st1)
          else
            match Bits.write_to_buffer (ps_bit_writer st1) (ps_struct_input st1)
                    field_value (bit_count m) (fmt m) with
            | (Ok added, b, input) =>
                (Ok tt, mkPackState (ps_writer st1) b (ps_full_fmt st1 ++ added) input)
            | (Raise e, b, input) =>
                (Raise e, mkPackState (ps_writer st1) b (ps_full_fmt st1) input)
            end
        else if is_none field_value && is_none (single_asserted m) then
          (* reserved for external filling *)
          match get_fmt_size long_varints st1 with
          | Raise e => (Raise e, st1)
          | Ok fmt_size =>
              let reserve_offset := start_offset + fmt_size in
              let reserve_fmt := String (value byte_order) (fmt m) in
              match Writer.mark_reserved_offset (ps_writer st1) (name f) reserve_fmt
                      reserve_offset (Some reserve_obj) with
              | (Raise e, w) =>
                  (Raise e, mkPackState w (ps_bit_writer st1) (ps_full_fmt st1)
                                        (ps_struct_input st1))
              | (Ok _, w) =>
                  let st2 := mkPackState w (ps_bit_writer st1) (ps_full_fmt st1)
                                         (ps_struct_input st1) in
                  match Writer.calcsize w reserve_fmt with
                  | Raise e => (Raise e, st2)
                  | Ok null_size =>
                      (Ok tt,
                       mkPackState w (ps_bit_writer st1)
                         (ps_full_fmt st1 ++ str_of_nat null_size ++ "s")
                         (ps_struct_input st1 ++ [PBytes (zeros null_size)]))
                  end
              end
          end
        else
          let field_value :=
            if is_none field_value then single_asserted m else field_value in
          match Metadata.pack m (ps_struct_input st1) field_value with
          | (Raise e, input) =>
              (Raise e, mkPackState (ps_writer st1) (ps_bit_writer st1) (ps_full_fmt st1) input)
          | (Ok _, input) =>
              (Ok tt, mkPackState (ps_writer st1) (ps_bit_writer st1)
                                  (ps_full_fmt st1 ++ fmt m) input)
          end
    end.

Fixpoint pack_fields (c : StructClass) (long_varints : option bool)
  (field_values : dict pyval) (start_offset : nat) (byte_order : ByteOrder)
  (reserve_obj : pyobj) (fields : list Field) (st : PackState)
  : result unit * PackState :=
  match fields with
  | [] => (Ok tt, st)
  | f :: fields' =>
      let field_value :=
        match dict_get field_values (name f) with Some v => v | None => PNone end in
      match pack_field c long_varints field_values start_offset byte_order reserve_obj
              st f field_value with
      | (Raise e, st') => (Raise e, st')
      | (Ok _, st') =>
          pack_fields c long_varints field_values start_offset byte_order reserve_obj
            fields' st'
      end
  end.

(** [get_default_byte_order]. *)
Definition get_default_byte_order (self : Instance) : ByteOrder := LittleEndian.

(** [to_writer(writer, reserve_obj, byte_order)]: the outcome and the
    writer, given or started here, as the call leaves it. *)
Definition to_writer (self : Instance) (writer : option Writer.BinaryWriter)
  (reserve_obj : option pyobj) (byte_order : option ByteOrder)
  : Writer.effect unit :=
  let reserve_obj := match reserve_obj with Some o => o | None => as_obj self end in
  (* preference for byte order: argument, self, writer, default *)
  let '(byte_order, writer, old_byte_order) :=
    match byte_order with
    | Some b => (b, writer, None)
    | None =>
        let b :=
          match BinaryStruct.byte_order self, writer with
          | Some b, _ => b
          | None, Some w => Writer.default_byte_order w
          | None, None => get_default_byte_order self
          end in
        match writer with
        | Some w =>
            if negb (ByteOrderM.eqb (Writer.default_byte_order w) b) then
              (b, Some (Writer.with_byte_order w b), Some (Writer.default_byte_order w))
            else (b, writer, None)
        | None => (b, writer, None)
        end
    end in
  let long_varints :=
    match BinaryStruct.long_varints self, writer with
    | None, Some w => Writer.long_varints w
    | lv, _ => lv
    end in
  let writer :=
    match writer with
    | Some w => w
    | None => Writer.init_default byte_order
    end in
  let field_values := map (fun f => (name f, getattr self (name f))) (_FIELDS (cls self)) in
  let start_offset := Writer.position writer in
  match pack_fields (cls self) long_varints field_values start_offset byte_order
          reserve_obj (_FIELDS (cls self)) (mkPackState writer Bits.init "" []) with
  | (Raise e, st) => (Raise e, ps_writer st)
  | (Ok _, st) =>
      (* single pack call *)
      match Writer.pack (ps_writer st) (ps_full_fmt st) (ps_struct_input st) with
      | (Raise e, w) => (Raise e, w)
      | (Ok _, w) =>
          match old_byte_order with
          | Some _ => (Ok tt, Writer.with_byte_order w byte_order)
          | None => (Ok tt, w)
          end
      end
  end.

Definition set_flags (self : Instance) (byte_order : option ByteOrder)
  (long_varints : option bool) : Instance :=
  mkInstance (cls self) (self_id self) (attrs self)
    (match byte_order with Some b => Some b | None => BinaryStruct.byte_order self end)
    (match long_varints with Some l => Some l | None => BinaryStruct.long_varints self end).

Definition cannot_fill_alone (self : Instance) : exn :=
  ValueError ("`" ++ cls_name (cls self)
              ++ "` BinaryStruct cannot fill all fields on its own. Use `to_writer()`.")%string.

(** [to_bytes(byte_order, long_varints)]. *)
Definition to_bytes (self : Instance) (byte_order : option ByteOrder)
  (long_varints : option bool) : result (list byte) :=
  let self := set_flags self byte_order long_varints in
  match to_writer self None None None with
  | (Raise e, _) => Raise e
  | (Ok _, writer) =>
      match Writer.reserved writer with
      | _ :: _ => Raise (cannot_fill_alone self)
      | [] => Writer.to_bytes writer
      end
  end.

(** ** Construction *)

(** The dataclass [__init__] called with keyword arguments: [init] fields
    take their argument or their default, the others their default. *)
Fixpoint dataclass_init (fields : list Field) (kwargs : dict pyval) : result (dict pyval) :=
  match fields with
  | [] => Ok []
  | f :: fields' =>
      rest <- dataclass_init fields' kwargs ;;
      match (if init f then dict_get kwargs (name f) else None), default f with
      | Some v, _ => Ok ((name f, v) :: rest)
      | None, Some d => Ok ((name f, d) :: rest)
      | None, None =>
          if init f then Raise (TypeError "__init__() missing a required argument")
          else Ok rest
      end
  end.

(** [__post_init__]: single-asserted fields are set to their asserted
    value, regardless of [init]. *)
Fixpoint post_init (fields : list Field) (attrs : dict pyval) : dict pyval :=
  match fields with
  | [] => attrs
  | f :: fields' =>
      let attrs' :=
        if is_none (single_asserted (metadata f)) then attrs
        else dict_set attrs (name f) (single_asserted (metadata f)) in
      post_init fields' attrs'
  end.

Fixpoint setattrs (attrs : dict pyval) (updates : dict pyval) : dict pyval :=
  match updates with
  | [] => attrs
  | (k, v) :: updates' => setattrs (dict_set attrs k v) updates'
  end.

(** [cls] called with keyword arguments [kwargs]; [new_id] is the identity of the object created. *)
Definition construct (c : StructClass) (kwargs : dict pyval) (new_id : Z) : result Instance :=
  attrs <- dataclass_init (_FIELDS c) kwargs ;;
  Ok (mkInstance c new_id (post_init (_FIELDS c) attrs) None None).

(** ** [from_bytes] *)

Record UnpackState : Type := mkUnpackState {
  us_reader : Reader.BinaryReader;
  us_bit_reader : Bits.BitField;
  us_struct_output : option (list pyval);
  us_init_values : dict pyval;
  us_non_init_values : dict pyval;
  us_all_field_values : dict pyval
}.

Definition with_io (st : UnpackState) (r : Reader.BinaryReader) (b : Bits.BitField)
  (out : option (list pyval)) : UnpackState :=
  mkUnpackState r b out (us_init_values st) (us_non_init_values st)
    (us_all_field_values st).

(** [all_field_values[field.name] = v], and the same in [init_values] or
    [non_init_values]. *)
Definition record_value (f : Field) (v : pyval) (st : UnpackState) : UnpackState :=
  mkUnpackState (us_reader st) (us_bit_reader st) (us_struct_output st)
    (if init f then dict_set (us_init_values st) (name f) v else us_init_values st)
    (if init f then us_non_init_values st else dict_set (us_non_init_values st) (name f) v)
    (dict_set (us_all_field_values st) (name f) v).

Definition bit_not_asserted (c : StructClass) (f : Field) : exn :=
  BinaryFieldValueError ("Bit field `" ++ cls_name c ++ "." ++ name f
                         ++ "` value is not an asserted value")%string.

(** Casting the bits read to the field type and checking them. *)
Definition finish_bit_value (c : StructClass) (f : Field) (st : UnpackState) (z : Z)
  : result unit * UnpackState :=
  match field_type f (PInt z) with
  | Raise e => (Raise e, st)
  | Ok field_value =>
      if has_asserted (metadata f) && negb (py_in field_value (asserted (metadata f))) then
        (Raise (bit_not_asserted c f), st)
      else (Ok tt, record_value f field_value st)
  end.

(** The body of the unpacking loop for one field. *)
Definition unpack_field (c : StructClass) (long_varints : option bool)
  (st : UnpackState) (f : Field) : result unit * UnpackState :=
  let m := metadata f in
  (* last bit field was not finished: discard bits *)
  let st0 :=
    if (bit_count m =? -1)%Z && negb (Bits.empty (us_bit_reader st)) then
      with_io st (us_reader st) (Bits.clear (us_bit_reader st)) (us_struct_output st)
    else st in
  if skips m long_varints (us_all_field_values st0) then
    (Ok tt, record_value f PNone st0)
  else if negb (bit_count m =? -1)%Z then
    match us_struct_output st0 with
    | None =>
        match Bits.read (us_bit_reader st0) (us_reader st0) (bit_count m) (fmt m) with
        | (Raise e, b, r) => (Raise e, with_io st0 r b None)
        | (Ok z, b, r) => finish_bit_value c f (with_io st0 r b None) z
        end
    | Some out =>
        match Bits.read_list_buffer (us_bit_reader st0) out (bit_count m) (fmt m) with
        | (Raise e, b, out') => (Raise e, with_io st0 (us_reader st0) b (Some out'))
        | (Ok z, b, out') =>
            finish_bit_value c f (with_io st0 (us_reader st0) b (Some out')) z
        end
    end
  else
    match us_struct_output st0 with
    | None =>
        match Reader.unpack (us_reader st0) (fmt m) with
        | (Raise e, r) => (Raise e, with_io st0 r (us_bit_reader st0) None)
        | (Ok data, r) =>
            let st1 := with_io st0 r (us_bit_reader st0) None in
            match Metadata.unpack m data with
            | (Raise e, _) => (Raise e, st1)
            | (Ok field_value, _) => (Ok tt, record_value f field_value st1)
            end
        end
    | Some out =>
        match Metadata.unpack m out with
        | (Raise e, out') =>
            (Raise e, with_io st0 (us_reader st0) (us_bit_reader st0) (Some out'))
        | (Ok field_value, out') =>
            (Ok tt, record_value f field_value
                      (with_io st0 (us_reader st0) (us_bit_reader st0) (Some out')))
        end
    end.

Fixpoint unpack_fields (c : StructClass) (long_varints : option bool)
  (fields : list Field) (st : UnpackState) : result unit * UnpackState :=
  match fields with
  | [] => (Ok tt, st)
  | f :: fields' =>
      match unpack_field c long_varints st f with
      | (Raise e, st') => (Raise e, st')
      | (Ok _, st') => unpack_fields c long_varints fields' st'
      end
  end.

Definition careful_unpack_mode (c : StructClass) : bool :=
  existsb (fun f => is_some (should_skip_func (metadata f))) (_FIELDS c).

(** The byte order [from_bytes] works with. *)
Definition resolve_byte_order (byte_order : option ByteOrder)
  (data : list byte + Reader.BinaryReader) : ByteOrder :=
  match byte_order, data with
  | Some b, _ => b
  | None, inr r => Reader.default_byte_order r
  | None, inl _ => LittleEndian
  end.

(** The width flag [from_bytes] works with: left as [None] when it is
    neither given nor carried by a reader. *)
Definition resolve_long_varints (long_varints : option bool)
  (data : list byte + Reader.BinaryReader) : option bool :=
  match long_varints, data with
  | Some l, _ => Some l
  | None, inr r => Reader.long_varints r
  | None, inl _ => None
  end.

(** The reader [from_bytes] reads from, a transient one over [bytes] or
    the one passed in, and the byte order to restore afterwards. *)
Definition open_reader (data : list byte + Reader.BinaryReader) (byte_order : ByteOrder)
  : Reader.BinaryReader * option ByteOrder :=
  match data with
  | inl bs => (Reader.init_default bs byte_order, None)
  | inr r =>
      (r, if negb (ByteOrderM.eqb byte_order (Reader.default_byte_order r))
          then Some (Reader.default_byte_order r) else None)
  end.

(** The bulk unpack of the whole format, unless some field has a skip
    predicate. *)
Definition bulk_unpack (c : StructClass) (reader : Reader.BinaryReader) (full_fmt : string)
  : result unit * Reader.BinaryReader * option (list pyval) :=
  if negb (careful_unpack_mode c) then
    match Reader.unpack reader full_fmt with
    | (Raise e, r) => (Raise e, r, None)
    | (Ok data, r) => (Ok tt, r, Some (rev data))
    end
  else (Ok tt, reader, None).

(** The end of [from_bytes]: build the instance from the values decoded
    and restore the byte order of a reader passed in. *)
Definition finish_instance (c : StructClass) (byte_order : ByteOrder)
  (long_varints : option bool) (old_byte_order : option ByteOrder) (new_id : Z)
  (reader : Reader.BinaryReader) (init_values non_init_values : dict pyval)
  : result Instance * Reader.BinaryReader :=
  match construct c init_values new_id with
  | Raise e => (Raise e, reader)
  | Ok instance =>
      (Ok (mkInstance c new_id (setattrs (attrs instance) non_init_values)
             (Some byte_order) long_varints),
       match old_byte_order with
       | Some old => Reader.with_byte_order reader old
       | None => reader
       end)
  end.

(** [from_bytes(data, byte_order, long_varints)], [data] being [bytes] or
    a [BinaryReader]: the outcome and the reader as the call leaves it. *)
Definition from_bytes (c : StructClass) (data : list byte + Reader.BinaryReader)
  (byte_order : option ByteOrder) (long_varints : option bool) (new_id : Z)
  : result Instance * Reader.BinaryReader :=
  let byte_order := resolve_byte_order byte_order data in
  let long_varints := resolve_long_varints long_varints data in
  let '(reader, old_byte_order) := open_reader data byte_order in
  match get_full_fmt c None None with
  | Raise e => (Raise e, reader)
  | Ok full_fmt =>
      match bulk_unpack c reader full_fmt with
      | (Raise e, reader0, _) => (Raise e, reader0)
      | (Ok _, reader0, struct_output) =>
          match unpack_fields c long_varints (_FIELDS c)
                  (mkUnpackState reader0 Bits.init struct_output [] [] []) with
          | (Raise e, st) => (Raise e, us_reader st)
          | (Ok _, st) =>
              finish_instance c byte_order long_varints old_byte_order new_id
                (us_reader st) (us_init_values st) (us_non_init_values st)
          end
      end
  end.

(** [fill(writer, field_name, *values)]. *)
Definition fill (self : Instance) (writer : Writer.BinaryWriter) (field_name : string)
  (values : list pyval) : Writer.effect unit :=
  Writer.fill writer field_name values (Some (as_obj self)).

(** ** [pop] *)

Definition no_value_to_consume (self : Instance) (field_name : string) : exn :=
  BinaryFieldValueError ("Field `" ++ cls_name (cls self) ++ "." ++ field_name
                         ++ "` has no set value to consume.")%string.

(** [pop(field_name)]: the value of the field, which is set to [None];
    the outcome and the instance as the call leaves it. *)
Definition pop (self : Instance) (field_name : string) : result pyval * Instance :=
  let value := getattr self field_name in
  if is_none value then (Raise (no_value_to_consume self field_name), self)
  else
    (Ok value,
     mkInstance (cls self) (self_id self) (dict_set (attrs self) field_name PNone)
       (byte_order self) (long_varints self)).

End BinaryStruct.

(* ===================================================================== *)
(** * constrata/utilities.py *)
(* ===================================================================== *)

Module Utilities.

(** A binary stream ([io.BufferedIOBase]): its bytes and its position. *)
Record Stream : Type := mkStream { data : list byte; pos : nat }.

Definition stream_read (s : Stream) (n : nat) : list byte * Stream :=
  let c := firstn n (skipn (pos s) (data s)) in
  (c, mkStream (data s) (pos s + List.length c)).

Definition stream_seek (s : Stream) (offset : nat) : Stream := mkStream (data s) offset.

(** [encoding is not None and encoding.replace("-", "").startswith(p)]. *)
Definition encoding_starts (encoding : option string) (p : string) : bool :=
  match encoding with
  | Some e => startswith (remove_char "-" e) p
  | None => false
  end.

(** [array.decode(encoding)] when an encoding is given, [array] otherwise. *)
Definition decoded (encoding : option string) (array : list byte) : result pyval :=
  match encoding with
  | Some e => s <- Codec.decode e array ;; Ok (PStr s)
  | None => Ok (PBytes array)
  end.

Definition is_ascii_space (b : byte) : bool :=
  let n := Z_of_byte b in
  ((n =? 32) || ((9 <=? n) && (n <=? 13)))%Z.

Fixpoint drop_leading_space (bs : list byte) : list byte :=
  match bs with
  | b :: bs' => if is_ascii_space b then drop_leading_space bs' else bs
  | [] => []
  end.

(** [bs.rstrip()]. *)
Definition bytes_rstrip (bs : list byte) : list byte :=
  rev (drop_leading_space (rev bs)).

Definition ends_with (bs suffix : list byte) : bool :=
  (List.length suffix <=? List.length bs)%nat
  && bytes_eqb (skipn (List.length bs - List.length suffix) bs) suffix.

(** [while a.endswith(terminator): a = a[:-bytes_per_char]]; at most
    [len(a)] rounds shorten [a]. *)
Fixpoint strip_terminators (rounds : nat) (a terminator : list byte) : list byte :=
  match rounds with
  | O => a
  | S rounds' =>
      if ends_with a terminator then
        strip_terminators rounds' (firstn (List.length a - List.length terminator) a)
          terminator
      else a
  end.

Definition restore (reset_old_offset : bool) (old_offset : option nat) (s : Stream) : Stream :=
  match old_offset with
  | Some o => if reset_old_offset then stream_seek s o else s
  | None => s
  end.

Definition ran_out : exn :=
  ValueError "Ran out of bytes to read before null termination was found.".

(** The [while 1] loop of [read_chars_from_buffer]; [fuel] bounds the
    number of rounds and [None] means the bound was reached. *)
Fixpoint read_chars_loop (fuel : nat) (buffer : Stream) (chars : list (list byte))
  (length : option Z) (bytes_per_char : nat) (old_offset : option nat)
  (reset_old_offset : bool) (encoding : option string) (strip : bool)
  : option (result pyval * Stream) :=
  match fuel with
  | O => None
  | S fuel' =>
      let terminator := zeros bytes_per_char in
      let '(c, buffer1) := stream_read buffer bytes_per_char in
      match c, length with
      | [], None => Some (Raise ran_out, buffer1)
      | _, _ =>
          if match length with None => bytes_eqb c terminator | Some _ => false end then
            (* null termination *)
            let array := List.concat chars in
            Some (decoded encoding array, restore reset_old_offset old_offset buffer1)
          else
            let chars := chars ++ [c] in
            if match length with
               | Some n => (Z.of_nat (List.length chars) =? n)%Z
               | None => false
               end then
              let buffer2 := restore reset_old_offset old_offset buffer1 in
              let joined := List.concat chars in
              let stripped_array :=
                if strip then
                  let a := bytes_rstrip joined in
                  strip_terminators (List.length a) a terminator
                else joined in
              Some (decoded encoding stripped_array, buffer2)
            else
              read_chars_loop fuel' buffer1 chars length bytes_per_char old_offset
                reset_old_offset encoding strip
      end
  end.

(** [read_chars_from_buffer(buffer, offset, length, reset_old_offset,
    encoding, strip)] on a stream, or on a [bytes] object wrapped into a
    fresh stream. *)
Definition read_chars_from_buffer (fuel : nat) (buffer : list byte + Stream)
  (offset : option nat) (length : option Z) (reset_old_offset : bool)
  (encoding : option string) (strip : bool) : option (result pyval * Stream) :=
  let stream := match buffer with inl bs => mkStream bs 0 | inr s => s end in
  if match length with Some n => (n =? 0)%Z | None => false end then
    let empty := match encoding with Some _ => PStr "" | None => PBytes [] end in
    match buffer, reset_old_offset, offset with
    | inr s, false, None =>
        Some (Raise (TypeError "'NoneType' object cannot be interpreted as an integer"), s)
    | inr s, false, Some o => Some (Ok empty, stream_seek s o)
    | _, _, _ => Some (Ok empty, stream)
    end
  else
    let bytes_per_char := if encoding_starts encoding "utf16le" then 2 else 1 in
    let '(old_offset, stream1) :=
      match offset with
      | Some o => (Some (pos stream), stream_seek stream o)
      | None => (None, stream)
      end in
    read_chars_loop fuel stream1 [] length bytes_per_char old_offset reset_old_offset
      encoding strip.

(** The [while 1] loop of [read_null_terminated_bytes]. *)
Fixpoint read_null_loop (fuel : nat) (reader : Reader.BinaryReader)
  (chars : list (list byte)) (bytes_per_char : nat) (encoding : option string)
  : option (result pyval * Reader.BinaryReader) :=
  match fuel with
  | O => None
  | S fuel' =>
      let terminator := zeros bytes_per_char in
      let '(c, reader1) := Reader.read reader bytes_per_char in
      match c with
      | [] => Some (Raise ran_out, reader1)
      | _ =>
          if bytes_eqb c terminator then Some (decoded encoding (List.concat chars), reader1)
          else read_null_loop fuel' reader1 (chars ++ [c]) bytes_per_char encoding
      end
  end.

(** [read_null_terminated_bytes(reader, encoding)]. *)
Definition read_null_terminated_bytes (fuel : nat) (reader : Reader.BinaryReader)
  (encoding : option string) : option (result pyval * Reader.BinaryReader) :=
  let bytes_per_char := if encoding_starts encoding "utf16" then 2 else 1 in
  read_null_loop fuel reader [] bytes_per_char encoding.

Definition could_not_determine (what : string) : exn :=
  ValueError ("Could not determine " ++ what ++ " from bytes")%string.

(** [long_varints_from_reader_peek(reader, size, bytes_ahead, true_read,
    false_read)]. *)
Definition long_varints_from_reader_peek (reader : Reader.BinaryReader) (size : nat)
  (bytes_ahead : nat) (true_read false_read : list byte) : Reader.effect bool :=
  let '(peeked, reader') := Reader.peek_bytes reader size bytes_ahead in
  if bytes_eqb peeked true_read then (Ok true, reader')
  else if bytes_eqb peeked false_read then (Ok false, reader')
  else (Raise (could_not_determine "`long_varints`"), reader').

(** [ByteOrder.from_reader_peek(reader, size, bytes_ahead, big_endian_read,
    little_endian_read)] of constrata/byte_order.py. *)
Definition from_reader_peek (reader : Reader.BinaryReader) (size : nat)
  (bytes_ahead : nat) (big_endian_read little_endian_read : list byte)
  : Reader.effect ByteOrder :=
  let '(peeked, reader') := Reader.peek_bytes reader size bytes_ahead in
  if bytes_eqb peeked big_endian_read then (Ok BigEndian, reader')
  else if bytes_eqb peeked little_endian_read then (Ok LittleEndian, reader')
  else (Raise (could_not_determine "byte order"), reader').

End Utilities.

(* ===================================================================== *)
(** * Derived notions used by the statements *)
(* ===================================================================== *)

(** Writers that a program can hold: a fresh writer, or the writer left
    by any method of [BinaryWriter] (whether it returned or raised) or by
    an assignment to [default_byte_order]. *)
Inductive reachable : Writer.BinaryWriter -> Prop :=
| reach_init : forall bo lv, reachable (Writer.init bo lv)
| reach_pack : forall w fmt values,
    reachable w -> reachable (snd (Writer.pack w fmt values))
| reach_pack_at : forall w offset fmt values,
    reachable w -> reachable (snd (Writer.pack_at w offset fmt values))
| reach_pack_z_string : forall w value encoding,
    reachable w -> reachable (snd (Writer.pack_z_string w value encoding))
| reach_append : forall w bs,
    reachable w -> reachable (Writer.append w bs)
| reach_pad : forall w size char,
    reachable w -> reachable (Writer.pad w size char)
| reach_pad_to_offset : forall w offset char,
    reachable w -> reachable (snd (Writer.pad_to_offset w offset char))
| reach_pad_align : forall w alignment char,
    reachable w -> reachable (snd (Writer.pad_align w alignment char))
| reach_reserve : forall w name fmt obj,
    reachable w -> reachable (snd (Writer.reserve w name fmt obj))
| reach_mark : forall w name fmt offset obj,
    reachable w -> reachable (snd (Writer.mark_reserved_offset w name fmt offset obj))
| reach_fill : forall w name values obj,
    reachable w -> reachable (snd (Writer.fill w name values obj))
| reach_fill_with_position : forall w name obj,
    reachable w -> reachable (snd (Writer.fill_with_position w name obj))
| reach_block_copy : forall w src dst size,
    reachable w -> reachable (Writer.block_copy w src dst size)
| reach_byte_order : forall w bo,
    reachable w -> reachable (Writer.with_byte_order w bo).

(** [k] occurs in [s]. *)
Definition occurs_in (k s : string) : Prop :=
  exists pre post, s = (pre ++ k ++ post)%string.

(** What the ledger of a writer [w] guarantees. *)
Record ledger_contract (w : Writer.BinaryWriter) : Prop := mkLedgerContract {
  (* no two reservations share a key *)
  lc_unique : NoDup (dict_keys (Writer.reserved w));
  (* reserving under a key already present raises, the writer is untouched *)
  lc_reserve : forall name fmt obj,
    dict_mem (Writer.reserved w) (Writer.reserve_name name obj) = true ->
    Writer.reserve w name fmt obj
    = (Raise (Writer.already_reserved (Writer.reserve_name name obj)), w);
  lc_mark : forall name fmt offset obj,
    dict_mem (Writer.reserved w) (Writer.reserve_name name obj) = true ->
    Writer.mark_reserved_offset w name fmt offset obj
    = (Raise (Writer.already_reserved (Writer.reserve_name name obj)), w);
  (* filling a key that is not in the ledger raises *)
  lc_fill_unknown : forall name values obj,
    dict_mem (Writer.reserved w) (Writer.reserve_name name obj) = false ->
    exists msg, Writer.fill w name values obj = (Raise (ValueError msg), w);
  (* a key that was filled cannot be filled again *)
  lc_fill_twice : forall name values obj w',
    Writer.fill w name values obj = (Ok tt, w') ->
    forall values', exists msg,
      Writer.fill w' name values' obj = (Raise (ValueError msg), w');
  (* finalizing with reservations outstanding raises and names them all *)
  lc_finalize : Writer.reserved w <> [] ->
    exists msg,
      Writer.to_bytes w = Raise (ValueError msg)
      /\ forall k, In k (dict_keys (Writer.reserved w)) -> occurs_in k msg
}.

(** A writer holding the two reservations ["a"] and ["b"]. *)
Definition two_reservations : Writer.BinaryWriter :=
  snd (Writer.mark_reserved_offset
         (snd (Writer.reserve (Writer.init LittleEndian (Some true)) "a" "i" None))
         "b" "H" 0 None).

(** The writer left by a successful [fill]. *)
Definition filled (w : Writer.BinaryWriter) (key : string) (offset : nat)
  (packed : list byte) : Writer.BinaryWriter :=
  Writer.with_reserved
    (Writer.with_array w (slice_assign (Writer._array w) offset packed))
    (dict_pop (Writer.reserved w) key).


(** In the statement list [l], [a] is executed before [b]: [b] does not
    occur before the first [a] nor [a] after the [b] that follows it. *)
Definition runs_before (a b : Metadata.stmt) (l : list Metadata.stmt) : Prop :=
  exists l1 l2 l3,
    l = l1 ++ a :: l2 ++ b :: l3
    /\ ~ In b l1 /\ ~ In b l2 /\ ~ In a l3.

(** A field stored on the wire as twice its value, allowed to be 5 or 6. *)
Definition doubled_meta : Metadata.BinaryMetadata :=
  Metadata.mkMeta "B" [PInt 5; PInt 6]
    (Some (fun v => match v with
                    | PInt z => Ok (PInt (z / 2))
                    | _ => Raise (HookError "not an int")
                    end))
    (Some (fun v => match v with
                    | PInt z => Ok (PInt (2 * z))
                    | _ => Raise (HookError "not an int")
                    end))
    (-1) None "doubled" Metadata.Plain.

(** ** Sizing by the schema *)

Definition is_var (c : ascii) : bool := Ascii.eqb c "v" || Ascii.eqb c "V".

(** The sizing rule in the specification's words: a varint or varuint
    token takes 8 bytes when the width flag is true and 4 bytes when it is
    false (and has no size while the flag is unset); any other token has
    the size of its code. *)
Definition token_size (a : Struct.alignment) (long_varints : option bool) (c : ascii)
  : option nat :=
  if is_var c then
    match long_varints with
    | Some true => Some 8
    | Some false => Some 4
    | None => None
    end
  else option_map Struct.e_size (Struct.code_entry a c).

(** Size of a token list laid out with [token_size]. *)
Fixpoint schema_size (a : Struct.alignment) (long_varints : option bool)
  (ts : list Struct.token) (off : nat) : result nat :=
  match ts with
  | [] => Ok off
  | (n, c) :: ts' =>
      match token_size a long_varints c with
      | None => Raise Struct.bad_char
      | Some sz =>
          schema_size a long_varints ts' (off + Struct.align_pad a off sz + n * sz)
      end
  end.

Definition alignment_of (byte_order : ByteOrder) : Struct.alignment :=
  match byte_order with
  | NativeAutoAligned => Struct.Native
  | _ => Struct.Standard
  end.

(** Renaming the codes of a token list. *)
Definition map_tokens (r : ascii -> ascii) (x : result (list Struct.token))
  : result (list Struct.token) :=
  match x with
  | Ok ts => Ok (map (fun t => (fst t, r (snd t))) ts)
  | Raise e => Raise e
  end.

(** What the two [replace] calls do to one character of a format. *)
Definition resolve (b : bool) (c : ascii) : ascii :=
  let c1 := if Ascii.eqb c "v" then (if b then "q" else "i")%char else c in
  if Ascii.eqb c1 "V" then (if b then "Q" else "I")%char else c1.

(** ** Example schemas *)

(** Calling an integer field type ([int] or one of its subclasses). *)
Definition py_int (v : pyval) : result pyval :=
  match as_index v with
  | Some z => Ok (PInt z)
  | None => Raise (TypeError "int() argument must be a number")
  end.

(** An integer field with format [fmt] and no other metadata. *)
Definition int_field (name fmt : string) : BinaryStruct.Field :=
  BinaryStruct.mkField name true None false py_int
    (Metadata.mkMeta fmt [] None None (-1) None name Metadata.Plain).

(** A bit field of [bit_count] bits within units of format [fmt]. *)
Definition bit_field (name fmt : string) (bit_count : Z) : BinaryStruct.Field :=
  BinaryStruct.mkField name true None false py_int
    (Metadata.mkMeta fmt [] None None bit_count None name Metadata.Plain).

(** [class Var(BinaryStruct): n: varint]. *)
Definition Var : BinaryStruct.StructClass :=
  BinaryStruct.mkClass "Var" [int_field "n" "v"].

(** ** Decoding one field at a time *)

(** The state of a decoder that owns nothing but the reader, the bit
    accumulator and the values decoded so far. *)
Record SeqState : Type := mkSeqState {
  sq_reader : Reader.BinaryReader;
  sq_bits : Bits.BitField;
  sq_init_values : dict pyval;
  sq_non_init_values : dict pyval;
  sq_values : dict pyval
}.


Definition seq_record (f : BinaryStruct.Field) (v : pyval) (st : SeqState) : SeqState :=
  mkSeqState (sq_reader st) (sq_bits st)
    (if BinaryStruct.init f then dict_set (sq_init_values st) (BinaryStruct.name f) v
     else sq_init_values st)
    (if BinaryStruct.init f then sq_non_init_values st
     else dict_set (sq_non_init_values st) (BinaryStruct.name f) v)
    (dict_set (sq_values st) (BinaryStruct.name f) v).



(** What [from_bytes] leaves of its loop state once the list of bulk
    values is out of the picture. *)
Definition forget (st : BinaryStruct.UnpackState) : SeqState :=
  mkSeqState (BinaryStruct.us_reader st) (BinaryStruct.us_bit_reader st)
    (BinaryStruct.us_init_values st) (BinaryStruct.us_non_init_values st)
    (BinaryStruct.us_all_field_values st).


(** [class Opt(BinaryStruct)]: a byte [a], then an int [b] that is present
    only when [a] is not zero. *)
Definition Opt : BinaryStruct.StructClass :=
  BinaryStruct.mkClass "Opt"
    [int_field "a" "B";
     BinaryStruct.mkField "b" true None false py_int
       (Metadata.mkMeta "i" [] None None (-1)
          (Some (fun _ values =>
                   match dict_get values "a" with
                   | Some v => py_eqb v (PInt 0)
                   | None => false
                   end))
          "b" Metadata.Plain)].

(** The attributes of the instance a call returned, and where it left the
    reader. *)
Definition attrs_and_position (r : result BinaryStruct.Instance * Reader.BinaryReader)
  : option (dict pyval) * nat :=
  (match fst r with
   | Ok i => Some (BinaryStruct.attrs i)
   | Raise _ => None
   end, Reader.position (snd r)).

(** [class Quad(BinaryStruct)]: bit fields of 3, 3, 2 and 3 bits in bytes,
    the schema of the bit-field boundary test of the specification. *)
Definition Quad : BinaryStruct.StructClass :=
  BinaryStruct.mkClass "Quad"
    [bit_field "b0" "B" 3; bit_field "b1" "B" 3; bit_field "b2" "B" 2;
     bit_field "b3" "B" 3].

(** [Quad(5, 3, 1, 6)]. *)
Definition quad_5316 : BinaryStruct.Instance :=
  BinaryStruct.mkInstance Quad 1
    [("b0", PInt 5); ("b1", PInt 3); ("b2", PInt 1); ("b3", PInt 6)] None None.

(** [Var(n=1)], with the width flag left unset. *)
Definition var_1 : BinaryStruct.Instance :=
  BinaryStruct.mkInstance Var 1 [("n", PInt 1)] None None.

(** [class Hdr(BinaryStruct): a: byte; b: int; c: int]. *)
Definition Hdr : BinaryStruct.StructClass :=
  BinaryStruct.mkClass "Hdr" [int_field "a" "B"; int_field "b" "i"; int_field "c" "i"].

(** [Hdr(a=1, b=2, c=c)]. *)
Definition hdr (c : pyval) : BinaryStruct.Instance :=
  BinaryStruct.mkInstance Hdr 7 [("a", PInt 1); ("b", PInt 2); ("c", c)] None None.

(** Packing [hdr(None)], filling [c] with [v], finalizing. *)
Definition reserve_then_fill (v : pyval) : result (list byte) :=
  match BinaryStruct.to_writer (hdr PNone) None None None with
  | (Raise e, _) => Raise e
  | (Ok _, w) =>
      match BinaryStruct.fill (hdr PNone) w "c" [v] with
      | (Raise e, _) => Raise e
      | (Ok _, w') => Writer.to_bytes w'
      end
  end.

(** The same on a writer passed to [to_writer]. *)
Definition reserve_then_fill_on (writer : Writer.BinaryWriter) (v : pyval)
  : result (list byte) :=
  match BinaryStruct.to_writer (hdr PNone) (Some writer) None None with
  | (Raise e, _) => Raise e
  | (Ok _, w) =>
      match BinaryStruct.fill (hdr PNone) w "c" [v] with
      | (Raise e, _) => Raise e
      | (Ok _, w') => Writer.to_bytes w'
      end
  end.

(** The two replacements of [parse_fmt], for either value of the flag. *)
Definition resolved (long_varints : option bool) (s : string) : string :=
  match long_varints with
  | Some true => replace_char "V" "Q" (replace_char "v" "q" s)
  | _ => replace_char "V" "I" (replace_char "v" "i" s)
  end.

(** ** Null-terminated text *)

(** [chunks] are characters of [bytes_per_char] bytes, none of them the
    null character. *)
Definition text_chunks (bytes_per_char : nat) (chunks : list (list byte)) : Prop :=
  Forall (fun c => List.length c = bytes_per_char
                   /\ bytes_eqb c (zeros bytes_per_char) = false) chunks.

(** The character width [read_null_terminated_bytes] and [pack_z_string]
    use for an encoding. *)
Definition char_width (encoding : option string) : nat :=
  if Utilities.encoding_starts encoding "utf16" then 2 else 1.

(** The character width [read_chars_from_buffer] uses for an encoding. *)
Definition buffer_char_width (encoding : option string) : nat :=
  if Utilities.encoding_starts encoding "utf16le" then 2 else 1.

(** ** Codecs *)

(** Calling an optional hook: the value goes through unchanged when the
    hook is absent. *)
Definition through (h : option (pyval -> result pyval)) (v : pyval) : result pyval :=
  match h with
  | Some f => f v
  | None => Ok v
  end.

(** Array metadata of [length] elements with no hook and no assertion. *)
Definition plain_array (fmt : string) (length : nat) : Metadata.BinaryMetadata :=
  Metadata.mkMeta fmt [] None None (-1) None "array" (Metadata.ArrayMeta length).

(** ** Formats of whole records *)

(** Concatenation of strings. *)
Fixpoint str_concat (l : list string) : string :=
  match l with
  | [] => EmptyString
  | s :: l' => (s ++ str_concat l')%string
  end.

(** The fields [get_full_fmt] (or [to_writer]) does not leave out: all of
    them without field values, the ones whose predicate does not answer
    true otherwise. *)
Definition kept (long_varints : option bool) (field_values : option (dict pyval))
  (f : BinaryStruct.Field) : bool :=
  match field_values with
  | Some vals => negb (BinaryStruct.skips (BinaryStruct.metadata f) long_varints vals)
  | None => true
  end.

Definition is_ordinary (f : BinaryStruct.Field) : bool :=
  (Metadata.bit_count (BinaryStruct.metadata f) =? -1)%Z.

(** Bit fields of [bit_count] bits in units of the one-character format
    [unit], for each of the given bit counts. *)
Definition bit_fields (unit : ascii) (bit_counts : list Z) : list BinaryStruct.Field :=
  map (fun bc => bit_field "bits" (String unit EmptyString) bc) bit_counts.

Definition sum_Z (l : list Z) : Z := fold_right Z.add 0%Z l.

(** ** Reservations made by [to_writer] *)

(** The value [to_writer] packs for a field. *)
Definition value_for (field_values : dict pyval) (f : BinaryStruct.Field) : pyval :=
  match dict_get field_values (BinaryStruct.name f) with
  | Some v => v
  | None => PNone
  end.

(** The fields [to_writer] leaves to the caller: ordinary fields that are
    not skipped, whose value is [None] and that have no single asserted
    value. *)
Definition left_reserved (long_varints : option bool) (field_values : dict pyval)
  (f : BinaryStruct.Field) : bool :=
  negb (BinaryStruct.NOT_BINARY f)
  && negb (BinaryStruct.skips (BinaryStruct.metadata f) long_varints field_values)
  && is_ordinary f
  && is_none (value_for field_values f)
  && is_none (Metadata.single_asserted (BinaryStruct.metadata f)).

(** The values of the binary fields of an instance, as [to_writer]
    collects them. *)
Definition values_of (self : BinaryStruct.Instance) : dict pyval :=
  map (fun f => (BinaryStruct.name f, BinaryStruct.getattr self (BinaryStruct.name f)))
      (BinaryStruct._FIELDS (BinaryStruct.cls self)).

(** The width flag [to_writer] works with. *)
Definition flag_for (self : BinaryStruct.Instance) (writer : option Writer.BinaryWriter)
  : option bool :=
  match BinaryStruct.long_varints self, writer with
  | None, Some w => Writer.long_varints w
  | lv, _ => lv
  end.

(** The ledger keys of the fields of [self] left reserved, under the
    owner [obj]. *)
Definition keys_left (self : BinaryStruct.Instance) (writer : option Writer.BinaryWriter)
  (obj : pyobj) : list string :=
  map (fun f => Writer.reserve_name (BinaryStruct.name f) (Some obj))
      (filter (left_reserved (flag_for self writer) (values_of self))
              (BinaryStruct._FIELDS (BinaryStruct.cls self))).

(** ** Bit fields of one unit *)

(** The characters [format(value, "0{bit_count}b")] gives for a value
    that is not negative. *)
Definition digits (value bit_count : Z) : string :=
  (str_repeat "0" (Z.to_nat bit_count - (0 + str_len (bin_digits value)))
   ++ bin_digits value)%string.

(** The accumulator of a bit writer after the items (value, bit count),
    least significant bit first. *)
Fixpoint field_of (items : list (Z * Z)) : string :=
  match items with
  | [] => ""%string
  | (value, bit_count) :: rest => (str_rev (digits value bit_count) ++ field_of rest)%string
  end.

(** Strings of binary digits. *)
Fixpoint binary (s : string) : bool :=
  match s with
  | EmptyString => true
  | String c s' => (Ascii.eqb c "0" || Ascii.eqb c "1") && binary s'
  end.

(** A value that fits its bit count. *)
Definition fits (item : Z * Z) : Prop :=
  (1 <= snd item /\ 0 <= fst item < 2 ^ snd item)%Z.

(** Writing the bit fields [items] one after the other with
    [write_to_buffer], as the loop of [to_writer] does; the formats added
    are joined. *)
Fixpoint write_bits (b : Bits.BitField) (buffer : list pyval) (items : list (Z * Z))
  (fmt : string) : result string * Bits.BitField * list pyval :=
  match items with
  | [] => (Ok ""%string, b, buffer)
  | (value, bit_count) :: rest =>
      match Bits.write_to_buffer b buffer (PInt value) bit_count fmt with
      | (Raise e, b', buffer') => (Raise e, b', buffer')
      | (Ok added, b', buffer') =>
          match write_bits b' buffer' rest fmt with
          | (Raise e, b'', buffer'') => (Raise e, b'', buffer'')
          | (Ok added', b'', buffer'') => (Ok (added ++ added')%string, b'', buffer'')
          end
      end
  end.

(** The same with a fresh bit writer, padding out the unit left open, as
    [to_writer] does before an ordinary field. *)
Definition write_unit (buffer : list pyval) (items : list (Z * Z)) (fmt : string)
  : result (string * list pyval) :=
  match write_bits Bits.init buffer items fmt with
  | (Raise e, _, _) => Raise e
  | (Ok added, b, buffer') =>
      if Bits.empty b then Ok (added, buffer')
      else
        match Bits.finish_field_buffer b buffer' with
        | (Raise e, _, _) => Raise e
        | (Ok added', _, buffer'') => Ok ((added ++ added')%string, buffer'')
        end
  end.

(** Reading bit fields of the given bit counts one after the other with
    [read_list_buffer], as the loop of [from_bytes] does. *)
Fixpoint read_bits (b : Bits.BitField) (buffer : list pyval) (bit_counts : list Z)
  (fmt : string) : result (list Z) * Bits.BitField * list pyval :=
  match bit_counts with
  | [] => (Ok [], b, buffer)
  | bit_count :: rest =>
      match Bits.read_list_buffer b buffer bit_count fmt with
      | (Raise e, b', buffer') => (Raise e, b', buffer')
      | (Ok value, b', buffer') =>
          match read_bits b' buffer' rest fmt with
          | (Raise e, b'', buffer'') => (Raise e, b'', buffer'')
          | (Ok values, b'', buffer'') => (Ok (value :: values), b'', buffer'')
          end
      end
  end.

(** ** Formats of integers *)

(** Codes that pack an integer, or padding. *)
Definition int_code (a : Struct.alignment) (t : Struct.token) : bool :=
  match Struct.code_entry a (snd t) with
  | Some en =>
      match Struct.e_kind en with
      | Struct.KInt _ | Struct.KPad => true
      | _ => false
      end
  | None => false
  end.

(** A format, byte order character included, all of whose codes pack
    integers or padding. *)
Definition int_format (fmt : string) : bool :=
  let '((a, _), body) := Struct.split_order fmt in
  match Struct.tokenize body with
  | Ok ts => forallb (int_code a) ts
  | Raise _ => false
  end.

(** ** Records of integers *)

(** A field packed as one value as it is: binary, taken by [__init__],
    not a bit field, with no skip predicate, no assertion and no hook. *)
Definition plain_field (f : BinaryStruct.Field) : Prop :=
  BinaryStruct.NOT_BINARY f = false
  /\ BinaryStruct.init f = true
  /\ Metadata.meta_kind (BinaryStruct.metadata f) = Metadata.Plain
  /\ Metadata.bit_count (BinaryStruct.metadata f) = (-1)%Z
  /\ Metadata.should_skip_func (BinaryStruct.metadata f) = None
  /\ Metadata.asserted (BinaryStruct.metadata f) = []
  /\ Metadata.unpack_func (BinaryStruct.metadata f) = None
  /\ Metadata.pack_func (BinaryStruct.metadata f) = None.

(** The formats of the fields of a class, joined. *)
Definition joined_fmt (c : BinaryStruct.StructClass) : string :=
  str_concat (map (fun f => Metadata.fmt (BinaryStruct.metadata f)) (BinaryStruct._FIELDS c)).

(** ** Asserted values *)

(** [class Magic(BinaryStruct): magic: int], asserted to be 7. *)
Definition Magic : BinaryStruct.StructClass :=
  BinaryStruct.mkClass "Magic"
    [BinaryStruct.mkField "magic" true None false py_int
       (Metadata.mkMeta "i" [PInt 7] None None (-1) None "magic" Metadata.Plain)].

(** ** Bit fields on streams *)

(** Writing the bit fields [items] one after the other with [write]. *)
Fixpoint write_stream_bits (b : Bits.BitField) (w : Writer.BinaryWriter)
  (items : list (Z * Z)) (fmt : string)
  : result unit * Bits.BitField * Writer.BinaryWriter :=
  match items with
  | [] => (Ok tt, b, w)
  | (value, bit_count) :: rest =>
      match Bits.write b w (PInt value) bit_count fmt with
      | (Raise e, b', w') => (Raise e, b', w')
      | (Ok _, b', w') => write_stream_bits b' w' rest fmt
      end
  end.

(** The same with a fresh bit writer, followed by [finish_field]. *)
Definition write_stream_unit (w : Writer.BinaryWriter) (items : list (Z * Z))
  (fmt : string) : result unit * Writer.BinaryWriter :=
  match write_stream_bits Bits.init w items fmt with
  | (Raise e, _, w') => (Raise e, w')
  | (Ok _, b, w') =>
      match Bits.finish_field b w' with
      | (Raise e, _, w'') => (Raise e, w'')
      | (Ok _, _, w'') => (Ok tt, w'')
      end
  end.

(** Reading bit fields of the given bit counts one after the other with
    [read]. *)
Fixpoint read_stream_bits (b : Bits.BitField) (r : Reader.BinaryReader)
  (bit_counts : list Z) (fmt : string)
  : result (list Z) * Bits.BitField * Reader.BinaryReader :=
  match bit_counts with
  | [] => (Ok [], b, r)
  | bit_count :: rest =>
      match Bits.read b r bit_count fmt with
      | (Raise e, b', r') => (Raise e, b', r')
      | (Ok value, b', r') =>
          match read_stream_bits b' r' rest fmt with
          | (Raise e, b'', r'') => (Raise e, b'', r'')
          | (Ok values, b'', r'') => (Ok (value :: values), b'', r'')
          end
      end
  end.

(** ** Skipped fields *)





(** ** The writer during [to_writer] *)

(** The byte order [to_writer] works with on the writer [w]: the
    argument, else that of the struct, else that of the writer. *)
Definition order_for (self : BinaryStruct.Instance) (w : Writer.BinaryWriter)
  (byte_order : option ByteOrder) : ByteOrder :=
  match byte_order with
  | Some b => b
  | None =>
      match BinaryStruct.byte_order self with
      | Some b => b
      | None => Writer.default_byte_order w
      end
  end.

(** The writer [w] as the packing loop of [to_writer] has it: given the
    byte order of the struct when the call has no byte order argument
    and the struct has one. *)
Definition writer_during (self : BinaryStruct.Instance) (w : Writer.BinaryWriter)
  (byte_order : option ByteOrder) : Writer.BinaryWriter :=
  match byte_order, BinaryStruct.byte_order self with
  | None, Some b => Writer.with_byte_order w b
  | _, _ => w
  end.
(* ===================================================================== *)
(** * Facts about the Python fragment *)
(* ===================================================================== *)

Lemma str_app_nil_r (s : string) : (s ++ "")%string = s.
Proof. induction s as [|c s IH]; simpl; [reflexivity | now rewrite IH]. Qed.

Lemma str_app_assoc (a b c : string) : ((a ++ b) ++ c)%string = (a ++ (b ++ c))%string.
Proof. induction a as [|x a IH]; simpl; [reflexivity | now rewrite IH]. Qed.

Section DictFacts.

Context {V : Type}.
Implicit Types (d : dict V) (k : string) (v : V).

Lemma dict_mem_in d k : dict_mem d k = true <-> In k (dict_keys d).
Proof.
  unfold dict_mem. induction d as [|[k' v'] d IH]; simpl.
  - split; [discriminate | tauto].
  - destruct (String.eqb_spec k k') as [->|Hne].
    + split; auto.
    + rewrite IH. split; [auto | intros [H|H]; [congruence | exact H]].
Qed.

Lemma dict_mem_false d k : dict_mem d k = false <-> ~ In k (dict_keys d).
Proof.
  rewrite <- dict_mem_in. destruct (dict_mem d k); split; congruence.
Qed.

Lemma dict_get_mem d k v : dict_get d k = Some v -> dict_mem d k = true.
Proof. unfold dict_mem. now intros ->. Qed.

Lemma dict_keys_set d k v :
  dict_keys (dict_set d k v)
  = if dict_mem d k then dict_keys d else dict_keys d ++ [k].
Proof.
  unfold dict_mem. induction d as [|[k' v'] d IH]; simpl; [reflexivity|].
  destruct (String.eqb_spec k k') as [->|Hne]; simpl; [reflexivity|].
  rewrite IH. now destruct (dict_get d k).
Qed.

Lemma NoDup_snoc (l : list string) k : NoDup l -> ~ In k l -> NoDup (l ++ [k]).
Proof.
  induction l as [|x l IH]; simpl; intros Hnd Hin.
  - constructor; [tauto | constructor].
  - inversion Hnd as [|? ? Hx Hl]; subst. constructor.
    + rewrite in_app_iff. simpl. intros [H|[H|[]]]; [tauto | subst; tauto].
    + apply IH; tauto.
Qed.

Lemma NoDup_dict_set d k v : NoDup (dict_keys d) -> NoDup (dict_keys (dict_set d k v)).
Proof.
  intros Hnd. rewrite dict_keys_set. destruct (dict_mem d k) eqn:Hm; [exact Hnd|].
  apply NoDup_snoc; [exact Hnd | now apply dict_mem_false].
Qed.

Lemma dict_keys_pop_incl d k x : In x (dict_keys (dict_pop d k)) -> In x (dict_keys d).
Proof.
  induction d as [|[k' v'] d IH]; simpl; [tauto|].
  destruct (String.eqb k k'); simpl; tauto.
Qed.

Lemma NoDup_dict_pop d k : NoDup (dict_keys d) -> NoDup (dict_keys (dict_pop d k)).
Proof.
  induction d as [|[k' v'] d IH]; simpl; intros Hnd; [constructor|].
  inversion Hnd as [|? ? Hx Hl]; subst.
  destruct (String.eqb k k'); simpl; [exact Hl|].
  constructor; [|now apply IH]. intros H. now apply dict_keys_pop_incl in H.
Qed.

Lemma dict_pop_removes d k : NoDup (dict_keys d) -> dict_mem (dict_pop d k) k = false.
Proof.
  intros Hnd. apply dict_mem_false. induction d as [|[k' v'] d IH]; simpl; [tauto|].
  inversion Hnd as [|? ? Hx Hl]; subst.
  destruct (String.eqb_spec k k') as [->|Hne]; simpl; [exact Hx|].
  intros [H|H]; [congruence | now apply IH].
Qed.

End DictFacts.

Lemma join_occurs (sep : string) (keys : list string) (k : string) :
  In k keys -> occurs_in k (str_join sep keys).
Proof.
  induction keys as [|x keys IH]; [intros []|].
  intros Hin. destruct keys as [|y keys].
  - destruct Hin as [->|[]]. exists ""%string, ""%string. simpl.
    now rewrite str_app_nil_r.
  - change (str_join sep (x :: y :: keys))
      with (x ++ sep ++ str_join sep (y :: keys))%string.
    destruct Hin as [->|Hin].
    + exists ""%string, (sep ++ str_join sep (y :: keys))%string. reflexivity.
    + destruct (IH Hin) as (pre & post & E). rewrite E.
      exists (x ++ sep ++ pre)%string, post.
      now rewrite !str_app_assoc.
Qed.

(* ===================================================================== *)
(** * The reservation ledger *)
(* ===================================================================== *)

Ltac break_match :=
  match goal with
  | |- context [match ?x with _ => _ end] => destruct x eqn:?
  end.

Lemma fill_reserved_nodup w name values obj :
  NoDup (dict_keys (Writer.reserved w)) ->
  NoDup (dict_keys (Writer.reserved (snd (Writer.fill w name values obj)))).
Proof.
  intros Hnd. unfold Writer.fill.
  repeat (break_match; simpl; try exact Hnd).
  now apply NoDup_dict_pop.
Qed.

Lemma reachable_unique w : reachable w -> NoDup (dict_keys (Writer.reserved w)).
Proof.
  induction 1 as [bo lv | w fmt values _ IH | w offset fmt values _ IH
                 | w value encoding _ IH | w bs _ IH | w size char _ IH
                 | w offset char _ IH | w alignment char _ IH | w name fmt obj _ IH
                 | w name fmt offset obj _ IH | w name values obj _ IH
                 | w name obj _ IH | w src dst size _ IH | w bo _ IH].
  - constructor.
  - unfold Writer.pack. break_match; exact IH.
  - unfold Writer.pack_at. break_match; exact IH.
  - unfold Writer.pack_z_string. break_match; exact IH.
  - exact IH.
  - unfold Writer.pad. break_match; exact IH.
  - unfold Writer.pad_to_offset, Writer.pad. repeat break_match; exact IH.
  - unfold Writer.pad_align, Writer.pad. repeat break_match; exact IH.
  - unfold Writer.reserve. repeat (break_match; simpl; try exact IH);
      now apply NoDup_dict_set.
  - unfold Writer.mark_reserved_offset. repeat (break_match; simpl; try exact IH).
    now apply NoDup_dict_set.
  - now apply fill_reserved_nodup.
  - unfold Writer.fill_with_position.
    pose proof (fill_reserved_nodup w name
                  [PInt (Z.of_nat (Writer.position w))] obj IH) as H.
    destruct (Writer.fill w name [PInt (Z.of_nat (Writer.position w))] obj)
      as [[u|e] w']; exact H.
  - exact IH.
  - exact IH.
Qed.

Lemma fill_unknown w name values obj :
  dict_mem (Writer.reserved w) (Writer.reserve_name name obj) = false ->
  exists msg, Writer.fill w name values obj = (Raise (ValueError msg), w).
Proof.
  intros Hm. unfold Writer.fill. destruct values as [|v values]; [eauto|].
  unfold dict_mem in Hm.
  destruct (dict_get (Writer.reserved w) (Writer.reserve_name name obj));
    [discriminate|].
  unfold Writer.not_reserved. destruct obj; eauto.
Qed.

Lemma fill_pops w name values obj w' :
  Writer.fill w name values obj = (Ok tt, w') ->
  Writer.reserved w' = dict_pop (Writer.reserved w) (Writer.reserve_name name obj).
Proof.
  unfold Writer.fill. intros H.
  destruct values as [|v values]; [discriminate|].
  destruct (dict_get (Writer.reserved w) (Writer.reserve_name name obj))
    as [[offset fmt]|]; [|discriminate].
  destruct (Struct.pack fmt (v :: values)) as [packed|[]]; inversion H; reflexivity.
Qed.

(** C5.  On every writer a program can hold, the ledger has no duplicate
    key; [reserve] and [mark_reserved_offset] under a key already present
    raise; [fill] with a key that is not present raises, hence so does a
    second [fill] of a key; and [bytes(writer)] with a non-empty ledger
    raises an error whose message contains every outstanding key. *)
Theorem reservation_ledger_errors (w : Writer.BinaryWriter) :
  reachable w -> ledger_contract w.
Proof.
  intros Hr. pose proof (reachable_unique w Hr) as Hnd. constructor.
  - exact Hnd.
  - intros name fmt obj Hm. unfold Writer.reserve. now rewrite Hm.
  - intros name fmt offset obj Hm. unfold Writer.mark_reserved_offset. now rewrite Hm.
  - intros name values obj. apply fill_unknown.
  - intros name values obj w' Hfill values'. apply fill_unknown.
    rewrite (fill_pops _ _ _ _ _ Hfill). now apply dict_pop_removes.
  - intros Hne. unfold Writer.to_bytes, Writer.not_filled.
    destruct (Writer.reserved w) as [|kv rest] eqn:E; [congruence|].
    eexists. split; [reflexivity|]. intros k Hin.
    destruct (join_occurs (String "010" "    ") (dict_keys (kv :: rest)) k Hin)
      as (pre & post & Ej).
    exists ("Reserved `BinaryWriter` offsets not filled:" ++ String "010" "    " ++ pre)%string,
      post.
    rewrite Ej. now rewrite !str_app_assoc.
Qed.

Lemma reservation_ledger_errors_witness :
  Writer.reserved two_reservations = [("a", (0, "<i")); ("b", (0, "<H"))]
  /\ ledger_contract two_reservations.
Proof.
  split; [reflexivity|].
  apply (reservation_ledger_errors two_reservations).
  unfold two_reservations. apply reach_mark, reach_reserve, reach_init.
Defined.

(* ===================================================================== *)
(** * Atomicity of [fill] *)
(* ===================================================================== *)

(** C10.  When the values given to [fill] cannot be encoded with the
    format stored in the reservation, [fill] raises and leaves the writer,
    buffer and ledger, as it was: the reservation is still present, and a
    later [fill] with values that encode succeeds, patching the span and
    removing the reservation. *)
Theorem fill_atomic_on_error (w : Writer.BinaryWriter) (name : string)
  (obj : option pyobj) (offset : nat) (fmt : string) (values : list pyval)
  (e0 : exn) :
  dict_get (Writer.reserved w) (Writer.reserve_name name obj) = Some (offset, fmt) ->
  Struct.pack fmt values = Raise e0 ->
  exists e,
    Writer.fill w name values obj = (Raise e, w)
    /\ forall w1, w1 = snd (Writer.fill w name values obj) ->
       Writer._array w1 = Writer._array w
       /\ Writer.reserved w1 = Writer.reserved w
       /\ forall v values' packed,
            Struct.pack fmt (v :: values') = Ok packed ->
            Writer.fill w1 name (v :: values') obj
            = (Ok tt, filled w (Writer.reserve_name name obj) offset packed).
Proof.
  intros Hget Hfail.
  assert (Hraise : exists e, Writer.fill w name values obj = (Raise e, w)).
  { unfold Writer.fill. destruct values as [|v values]; [eauto|].
    rewrite Hget, Hfail. destruct e0; eauto. }
  destruct Hraise as [e He]. exists e. split; [exact He|].
  intros w1 ->. rewrite He. simpl. repeat split.
  intros v values' packed Hpack. unfold Writer.fill. now rewrite Hget, Hpack.
Qed.

Lemma fill_atomic_on_error_witness :
  exists e,
    Writer.fill two_reservations "a" [PInt (2 ^ 40)] None = (Raise e, two_reservations)
    /\ forall w1, w1 = snd (Writer.fill two_reservations "a" [PInt (2 ^ 40)] None) ->
       Writer._array w1 = Writer._array two_reservations
       /\ Writer.reserved w1 = Writer.reserved two_reservations
       /\ forall v values' packed,
            Struct.pack "<i" (v :: values') = Ok packed ->
            Writer.fill w1 "a" (v :: values') None
            = (Ok tt, filled two_reservations "a" 0 packed).
Proof.
  apply (fill_atomic_on_error two_reservations "a" None 0 "<i" [PInt (2 ^ 40)]
           (StructError "argument out of range")).
  - reflexivity.
  - vm_compute. reflexivity.
Defined.

(* ===================================================================== *)
(** * Order of hooks and assertions in the generated codecs *)
(* ===================================================================== *)

Lemma list_pop_snoc {A : Type} (l : list A) (x : A) : list_pop (l ++ [x]) = Some (x, l).
Proof.
  induction l as [|y l IH]; [reflexivity|].
  simpl. rewrite IH. destruct (l ++ [x]) eqn:E; [|reflexivity].
  now destruct l.
Qed.

Lemma has_asserted_opt (m : Metadata.BinaryMetadata) (l : list Metadata.stmt) :
  Metadata.has_asserted m = true -> Metadata.opt (Metadata.has_asserted m) l = l.
Proof. now intros ->. Qed.

(** C4.  For a codec with an assertion set and both hooks: in the body of
    the generated unpacker the call of [unpack_func] runs before the
    membership test, and in the body of the generated packer the
    membership test runs before the call of [pack_func], whatever the
    metadata class.  For [BinaryMetadata] itself the unpacker therefore
    tests the converted value [f raw], and the packer tests the supplied
    value and does not reach [pack_func] when the test fails. *)
Theorem assertion_checks_domain_value (m : Metadata.BinaryMetadata)
  (f g : pyval -> result pyval) :
  Metadata.has_asserted m = true ->
  Metadata.unpack_func m = Some f ->
  Metadata.pack_func m = Some g ->
  runs_before Metadata.CallUnpackFunc (Metadata.CheckAsserted true) (Metadata.get_unpacker m)
  /\ runs_before (Metadata.CheckAsserted false) Metadata.CallPackFunc (Metadata.get_packer m)
  /\ (Metadata.meta_kind m = Metadata.Plain ->
      (forall struct_output raw,
         Metadata.unpack m (struct_output ++ [raw])
         = (match f raw with
            | Ok v => if py_in v (Metadata.asserted m) then Ok v
                      else Raise (Metadata.not_asserted m true)
            | Raise e => Raise e
            end, struct_output))
      /\ (forall struct_input v,
            Metadata.pack m struct_input v
            = if py_in v (Metadata.asserted m) then
                match g v with
                | Ok wire => (Ok tt, struct_input ++ [wire])
                | Raise e => (Raise e, struct_input)
                end
              else (Raise (Metadata.not_asserted m false), struct_input))).
Proof.
  intros Ha Hf Hg. split; [|split].
  - unfold runs_before, Metadata.get_unpacker. rewrite Ha, Hf. simpl.
    destruct (Metadata.meta_kind m) as [|encoding rstrip|n].
    + exists [Metadata.Pop], [], [Metadata.Return]. simpl.
      repeat split; intuition discriminate.
    + destruct (Metadata.has_encoding encoding), (Metadata.is_utf16 encoding), rstrip;
        simpl;
        match goal with
        | |- exists l1 l2 l3, ?pre ++ _ = _ /\ _ => idtac
        | |- exists l1 l2 l3, ?x :: ?y :: ?z :: Metadata.CallUnpackFunc :: _ = _ /\ _ =>
            exists [x; y; z], [], [Metadata.Return]
        | |- exists l1 l2 l3, ?x :: ?y :: Metadata.CallUnpackFunc :: _ = _ /\ _ =>
            exists [x; y], [], [Metadata.Return]
        | |- exists l1 l2 l3, ?x :: Metadata.CallUnpackFunc :: _ = _ /\ _ =>
            exists [x], [], [Metadata.Return]
        end; simpl; repeat split; intuition discriminate.
    + exists [Metadata.PopList n], [], [Metadata.Return]. simpl.
      repeat split; intuition discriminate.
  - unfold runs_before, Metadata.get_packer. rewrite Ha, Hg. simpl.
    destruct (Metadata.meta_kind m) as [|encoding rstrip|n].
    + exists [], [], [Metadata.Append]. simpl. repeat split; intuition discriminate.
    + destruct rstrip; simpl.
      * exists [match encoding with
                | Some _ => Metadata.RstripStr
                | None => Metadata.RstripBytes
                end], [],
          ((if Metadata.has_encoding encoding
            then if Metadata.is_utf16 encoding then [Metadata.EncodeByteOrder]
                 else [Metadata.Encode]
            else []) ++ [Metadata.Append]).
        simpl. repeat split; try (destruct encoding; intuition discriminate).
        destruct (Metadata.has_encoding encoding), (Metadata.is_utf16 encoding);
          simpl; intuition discriminate.
      * exists [], [],
          ((if Metadata.has_encoding encoding
            then if Metadata.is_utf16 encoding then [Metadata.EncodeByteOrder]
                 else [Metadata.Encode]
            else []) ++ [Metadata.Append]).
        simpl. repeat split; try tauto.
        destruct (Metadata.has_encoding encoding), (Metadata.is_utf16 encoding);
          simpl; intuition discriminate.
    + exists [], [], [Metadata.Extend]. simpl. repeat split; intuition discriminate.
  - intros Hk. split.
    + intros struct_output raw.
      unfold Metadata.unpack, Metadata.get_unpacker. rewrite Hk, Ha, Hf. simpl.
      rewrite list_pop_snoc. unfold Metadata.call_hook. rewrite Hf.
      destruct (f raw) as [v|e]; [|reflexivity].
      now destruct (py_in v (Metadata.asserted m)).
    + intros struct_input v.
      unfold Metadata.pack, Metadata.get_packer. rewrite Hk, Ha, Hg. simpl.
      destruct (py_in v (Metadata.asserted m)); [|reflexivity].
      unfold Metadata.call_hook. rewrite Hg. now destruct (g v).
Qed.

Lemma assertion_checks_domain_value_witness :
  Metadata.unpack doubled_meta [PInt 10] = (Ok (PInt 5), [])
  /\ Metadata.unpack doubled_meta [PInt 5]
     = (Raise (Metadata.not_asserted doubled_meta true), [])
  /\ Metadata.pack doubled_meta [] (PInt 5) = (Ok tt, [PInt 10])
  /\ Metadata.pack doubled_meta [] (PInt 10)
     = (Raise (Metadata.not_asserted doubled_meta false), []).
Proof.
  destruct (assertion_checks_domain_value doubled_meta _ _ eq_refl eq_refl eq_refl)
    as (_ & _ & H).
  destruct (H eq_refl) as [Hu Hp].
  split; [exact (Hu [] (PInt 10))|].
  split; [exact (Hu [] (PInt 5))|].
  split; [exact (Hp [] (PInt 5)) | exact (Hp [] (PInt 10))].
Defined.

(* ===================================================================== *)
(** * Sizing *)
(* ===================================================================== *)

Section Renaming.

(** A renaming of format characters that leaves digits and white space
    alone. *)
Variable r : ascii -> ascii.
Hypothesis r_digit : forall c, Struct.is_digit (r c) = Struct.is_digit c.
Hypothesis r_space : forall c, Struct.is_space (r c) = Struct.is_space c.
Hypothesis r_fix_digit : forall c, Struct.is_digit c = true -> r c = c.

Lemma tokenize_from_map (s : string) (cnt : option nat) :
  Struct.tokenize_from (str_map r s) cnt = map_tokens r (Struct.tokenize_from s cnt).
Proof.
  revert cnt. induction s as [|c s IH]; intros cnt; simpl.
  - now destruct cnt.
  - rewrite r_digit. destruct (Struct.is_digit c) eqn:Hd.
    + rewrite (r_fix_digit c Hd). apply IH.
    + destruct cnt as [n|].
      * rewrite IH. now destruct (Struct.tokenize_from s None).
      * rewrite r_space. destruct (Struct.is_space c); [apply IH|].
        rewrite IH. now destruct (Struct.tokenize_from s None).
Qed.

End Renaming.

Lemma replace_resolve (b : bool) (s : string) :
  replace_char "V" (if b then "Q" else "I") (replace_char "v" (if b then "q" else "i") s)
  = str_map (resolve b) s.
Proof.
  unfold replace_char, resolve. induction s as [|c s IH]; simpl; [reflexivity|].
  now rewrite IH.
Qed.

Lemma resolve_cases (b : bool) (c : ascii) :
  (c = "v"%char /\ resolve b c = (if b then "q" else "i")%char)
  \/ (c = "V"%char /\ resolve b c = (if b then "Q" else "I")%char)
  \/ (is_var c = false /\ resolve b c = c).
Proof.
  unfold resolve, is_var.
  destruct (Ascii.eqb_spec c "v") as [->|Hv].
  - left. now destruct b.
  - destruct (Ascii.eqb_spec c "V") as [->|HV]; [right; left; now destruct b|].
    right; right. split; reflexivity.
Qed.

Lemma tokenize_resolve (b : bool) (s : string) :
  Struct.tokenize (str_map (resolve b) s) = map_tokens (resolve b) (Struct.tokenize s).
Proof.
  apply tokenize_from_map.
  - intros c. destruct (resolve_cases b c) as [[-> ->]|[[-> ->]|[_ ->]]];
      [now destruct b | now destruct b | reflexivity].
  - intros c. destruct (resolve_cases b c) as [[-> ->]|[[-> ->]|[_ ->]]];
      [now destruct b | now destruct b | reflexivity].
  - intros c Hd. destruct (resolve_cases b c) as [[-> _]|[[-> _]|[_ ->]]];
      [discriminate | discriminate | reflexivity].
Qed.

Lemma resolved_size (a : Struct.alignment) (b : bool) (c : ascii) :
  option_map Struct.e_size (Struct.code_entry a (resolve b c)) = token_size a (Some b) c.
Proof.
  unfold token_size.
  destruct (resolve_cases b c) as [[-> ->]|[[-> ->]|[Hn ->]]].
  - now destruct b.
  - now destruct b.
  - now rewrite Hn.
Qed.

Lemma layout_resolved (a : Struct.alignment) (b : bool) (ts : list Struct.token) :
  forall off,
    Struct.layout a (map (fun t => (fst t, resolve b (snd t))) ts) off
    = schema_size a (Some b) ts off.
Proof.
  induction ts as [|[n c] ts IH]; intros off; simpl; [reflexivity|].
  rewrite <- resolved_size.
  destruct (Struct.code_entry a (resolve b c)) as [e|]; simpl; [apply IH | reflexivity].
Qed.

Lemma contains_char_false_neq (c : ascii) (s : string) (x : ascii) :
  contains_char c s = false -> contains_char x s = true -> x <> c.
Proof.
  intros Hc Hx ->. congruence.
Qed.

Lemma tokenize_from_codes (s : string) :
  forall cnt ts n c,
    Struct.tokenize_from s cnt = Ok ts -> In (n, c) ts -> contains_char c s = true.
Proof.
  induction s as [|x s IH]; intros cnt ts n c; simpl.
  - destruct cnt; [discriminate|]. intros H; inversion H; subst. intros [].
  - destruct (Struct.is_digit x).
    + intros H Hin. rewrite (IH _ _ _ _ H Hin). apply orb_true_r.
    + destruct cnt as [k|].
      * destruct (Struct.tokenize_from s None) as [ts'|] eqn:E; [|discriminate].
        simpl. intros H; inversion H; subst. intros [Heq|Hin].
        -- inversion Heq; subst. now rewrite Ascii.eqb_refl.
        -- rewrite (IH _ _ _ _ E Hin). apply orb_true_r.
      * destruct (Struct.is_space x).
        -- intros H Hin. rewrite (IH _ _ _ _ H Hin). apply orb_true_r.
        -- destruct (Struct.tokenize_from s None) as [ts'|] eqn:E; [|discriminate].
           simpl. intros H; inversion H; subst. intros [Heq|Hin].
           ++ inversion Heq; subst. now rewrite Ascii.eqb_refl.
           ++ rewrite (IH _ _ _ _ E Hin). apply orb_true_r.
Qed.

Lemma layout_no_varint (a : Struct.alignment) (lv : option bool) (ts : list Struct.token) :
  (forall n c, In (n, c) ts -> is_var c = false) ->
  forall off, Struct.layout a ts off = schema_size a lv ts off.
Proof.
  induction ts as [|[n c] ts IH]; intros Hno off; simpl; [reflexivity|].
  unfold token_size. rewrite (Hno n c (or_introl eq_refl)).
  destruct (Struct.code_entry a c) as [e|]; simpl; [|reflexivity].
  apply IH. intros n' c' Hin. apply (Hno n' c'). now right.
Qed.

Lemma split_order_value (bo : ByteOrder) (body : string) :
  exists e, Struct.split_order (String (value bo) body) = ((alignment_of bo, e), body).
Proof. destruct bo; eexists; reflexivity. Qed.

Lemma calcsize_with_order (bo : ByteOrder) (body : string) :
  Struct.calcsize (String (value bo) body)
  = (ts <- Struct.tokenize body ;; Struct.layout (alignment_of bo) ts 0).
Proof.
  unfold Struct.calcsize. destruct (split_order_value bo body) as [e ->]. reflexivity.
Qed.

Lemma has_varint_with_order (bo : ByteOrder) (body : string) :
  BinaryStruct.has_varint (String (value bo) body) = BinaryStruct.has_varint body.
Proof. destruct bo; reflexivity. Qed.

Lemma resolve_with_order (b : bool) (bo : ByteOrder) (body : string) :
  str_map (resolve b) (String (value bo) body)
  = String (value bo) (str_map (resolve b) body).
Proof. destruct bo, b; reflexivity. Qed.

Lemma no_varint_tokens (body : string) (ts : list Struct.token) :
  BinaryStruct.has_varint body = false ->
  Struct.tokenize body = Ok ts ->
  forall n c, In (n, c) ts -> is_var c = false.
Proof.
  unfold BinaryStruct.has_varint, is_var. intros Hno Htok n c Hin.
  apply orb_false_iff in Hno. destruct Hno as [Hv HV].
  pose proof (tokenize_from_codes body None ts n c Htok Hin) as Hc.
  destruct (Ascii.eqb_spec c "v") as [->|_]; [congruence|].
  destruct (Ascii.eqb_spec c "V") as [->|_]; [congruence|]. reflexivity.
Qed.

(** C8.  [get_size] is a function of the class's full format, the byte
    order and the width flag alone.  With [body] the full format of the
    class: if [body] holds a varint or varuint token and the flag is unset
    [get_size] raises; otherwise it is the size of the tokens of [body]
    laid out under the byte order, each varint or varuint token counting 8
    bytes when the flag is true and 4 bytes when it is false. *)
Theorem get_size_from_schema (c : BinaryStruct.StructClass) (byte_order : ByteOrder)
  (long_varints : option bool) (body : string) :
  BinaryStruct.get_full_fmt c None None = Ok body ->
  BinaryStruct.get_size c byte_order long_varints
  = if BinaryStruct.has_varint body && negb (Metadata.is_some long_varints)
    then Raise (BinaryStruct.size_needs_flag c)
    else (ts <- Struct.tokenize body ;;
          schema_size (alignment_of byte_order) long_varints ts 0).
Proof.
  intros Hfmt. unfold BinaryStruct.get_size. rewrite Hfmt. simpl.
  rewrite has_varint_with_order.
  destruct (BinaryStruct.has_varint body) eqn:Hv; simpl.
  - destruct long_varints as [b|]; simpl; [|reflexivity].
    transitivity (Struct.calcsize (str_map (resolve b) (String (value byte_order) body))).
    { rewrite <- replace_resolve. now destruct b. }
    rewrite resolve_with_order, calcsize_with_order, tokenize_resolve.
    destruct (Struct.tokenize body) as [ts|e]; simpl; [|reflexivity].
    apply layout_resolved.
  - rewrite calcsize_with_order.
    destruct (Struct.tokenize body) as [ts|e] eqn:Htok; simpl; [|reflexivity].
    apply layout_no_varint. now apply (no_varint_tokens body).
Qed.

Lemma get_size_from_schema_witness :
  BinaryStruct.get_size Var LittleEndian None = Raise (BinaryStruct.size_needs_flag Var)
  /\ BinaryStruct.get_size Var LittleEndian (Some true) = Ok 8
  /\ BinaryStruct.get_size Var LittleEndian (Some false) = Ok 4.
Proof.
  split; [|split].
  - exact (get_size_from_schema Var LittleEndian None "v" eq_refl).
  - exact (get_size_from_schema Var LittleEndian (Some true) "v" eq_refl).
  - exact (get_size_from_schema Var LittleEndian (Some false) "v" eq_refl).
Defined.

(* ===================================================================== *)
(** * Unpacking schemas with skip predicates *)
(* ===================================================================== *)

Lemma dict_get_set_same {V : Type} (d : dict V) (k : string) (v : V) :
  dict_get (dict_set d k v) k = Some v.
Proof.
  induction d as [|[k' v'] d IH]; simpl.
  - now rewrite String.eqb_refl.
  - destruct (String.eqb k k') eqn:E; simpl; rewrite E; [reflexivity | exact IH].
Qed.

Lemma forget_record (f : BinaryStruct.Field) (v : pyval) (st : BinaryStruct.UnpackState) :
  forget (BinaryStruct.record_value f v st) = seq_record f v (forget st).
Proof. reflexivity. Qed.




(* ===================================================================== *)
(** * Runs of the pack and unpack engine *)
(* ===================================================================== *)

(** C1.  The round trip fails on the bit-field schema of the
    specification: for bit fields of 3, 3, 2 and 3 bits, [to_bytes] of
    (5, 3, 1, 6) is the single byte 0x5d, because the bits of the last
    field are never flushed at the end of the packing loop, whereas the
    full format of the class is ["BB"], its size is 2, and [from_bytes]
    on the packed byte raises. *)
Theorem round_trip_drops_trailing_bits :
  BinaryStruct.to_bytes quad_5316 None None = Ok [x5d]
  /\ BinaryStruct.get_full_fmt Quad None None = Ok "BB"
  /\ BinaryStruct.get_size Quad LittleEndian None = Ok 2
  /\ fst (BinaryStruct.from_bytes Quad (inl [x5d]) None None 2)
     = Raise (StructError "unpack requires a buffer of 2 bytes").
Proof. repeat split; vm_compute; reflexivity. Qed.

(** C2.  Filling a reservation does not give the bytes of a direct pack:
    for [Hdr(a=1, b=2, c=None)] packed on its own, the reservation of [c]
    is recorded at offset 8, the size of ["Bi"] with native alignment,
    while the placeholder is written at offset 5; after [fill] with 3 the
    finalized buffer has 12 bytes and differs from the 9 bytes of
    [Hdr(a=1, b=2, c=3)]. *)
Theorem fill_misses_placeholder :
  snd (BinaryStruct.to_writer (hdr PNone) None None None)
  = Writer.mkWriter [x01; x02; x00; x00; x00; x00; x00; x00; x00]
      [("Hdr__7(c)", (8, "<i"))] LittleEndian (Some true)
  /\ reserve_then_fill (PInt 3)
     = Ok [x01; x02; x00; x00; x00; x00; x00; x00; x03; x00; x00; x00]
  /\ BinaryStruct.to_bytes (hdr (PInt 3)) None None
     = Ok [x01; x02; x00; x00; x00; x03; x00; x00; x00]
  /\ reserve_then_fill (PInt 3) <> BinaryStruct.to_bytes (hdr (PInt 3)) None None.
Proof.
  split; [vm_compute; reflexivity|].
  split; [vm_compute; reflexivity|].
  split; [vm_compute; reflexivity|].
  vm_compute. discriminate.
Qed.

(** On a writer passed in, whose flag [to_writer] adopts, the offset is
    computed with the byte order and the fill lands on the placeholder. *)
Lemma fill_on_given_writer :
  reserve_then_fill_on (Writer.init LittleEndian (Some true)) (PInt 3)
  = BinaryStruct.to_bytes (hdr (PInt 3)) None None.
Proof. vm_compute. reflexivity. Qed.

(** C3.  An unset width flag raises nowhere and a false flag is not
    honoured: [to_bytes] of [Var(n=1)] gives 8 bytes with the flag unset,
    and also with the flag false, because the writer started by
    [to_writer] has its own flag, true; likewise [from_bytes] on [bytes]
    reads 8 bytes with the flag unset, and rejects the 4-byte encoding
    with the flag false. *)
Theorem varint_flag_not_consulted :
  BinaryStruct.to_bytes var_1 None None
  = Ok [x01; x00; x00; x00; x00; x00; x00; x00]
  /\ BinaryStruct.to_bytes var_1 None (Some false)
     = Ok [x01; x00; x00; x00; x00; x00; x00; x00]
  /\ attrs_and_position
       (BinaryStruct.from_bytes Var (inl [x01; x00; x00; x00; x00; x00; x00; x00])
          None None 2)
     = (Some [("n", PInt 1)], 8)
  /\ fst (BinaryStruct.from_bytes Var (inl [x01; x00; x00; x00]) None (Some false) 2)
     = Raise (StructError "unpack requires a buffer of 8 bytes").
Proof. repeat split; vm_compute; reflexivity. Qed.

(** The flag that decides the width is the one of the writer: a writer
    passed in with a false flag packs the varint in 4 bytes. *)
Lemma varint_flag_of_writer :
  Writer._array
    (snd (BinaryStruct.to_writer var_1 (Some (Writer.init LittleEndian (Some false)))
            None None))
  = [x01; x00; x00; x00].
Proof. vm_compute. reflexivity. Qed.

(* ===================================================================== *)
(** * The guard of the bit-field writer *)
(* ===================================================================== *)

(** X21.  A value of at least [2 ** bit_count] is rejected before anything
    is touched. *)
Lemma write_rejects_large (b : Bits.BitField) (buffer : list pyval)
  (w : Writer.BinaryWriter) (z bit_count : Z) (fmt : string) :
  (0 <= bit_count)%Z -> (2 ^ bit_count <= z)%Z ->
  Bits.write_to_buffer b buffer (PInt z) bit_count fmt
  = (Raise (Bits.too_large bit_count), b, buffer)
  /\ Bits.write b w (PInt z) bit_count fmt = (Raise (Bits.too_large bit_count), b, w).
Proof.
  intros Hn Hz. unfold Bits.write_to_buffer, Bits.write, Bits.exceeds. simpl.
  destruct (bit_count <? 0)%Z eqn:E; [apply Z.ltb_lt in E; lia|].
  destruct (2 ^ bit_count <=? z)%Z eqn:E2; [split; reflexivity|].
  apply Z.leb_gt in E2. lia.
Qed.

(** C6.  The guard of the bit-field writer only looks at the upper bound:
    the value -9, which does not fit in 3 bits, is accepted by [write] and
    by [write_to_buffer], and the characters of its formatted form,
    sign included, enter the accumulator. *)
Theorem bit_writer_accepts_negative (w : Writer.BinaryWriter) :
  Bits.write_to_buffer Bits.init [] (PInt (-9)) 3 "B"
  = (Ok "", Bits.mkBits "1001-" "B" 0, [])
  /\ Bits.write Bits.init w (PInt (-9)) 3 "B" = (Ok tt, Bits.mkBits "1001-" "B" 0, w).
Proof. split; reflexivity. Qed.

(* ===================================================================== *)
(** * Null-terminated text *)
(* ===================================================================== *)

(** [pack_z_string] appends the encoded text and a terminator of two
    bytes for an encoding whose name, hyphens removed, starts with
    ["utf16"], of one byte otherwise. *)
Lemma pack_z_string_terminator (w : Writer.BinaryWriter) (value encoding : string)
  (encoded : list byte) :
  Codec.encode encoding value = Ok encoded ->
  Writer.pack_z_string w value encoding
  = (Ok tt,
     Writer.with_array w
       (Writer._array w ++ encoded
        ++ (if startswith (remove_char "-" encoding) "utf16" then [x00; x00] else [x00]))).
Proof. intros H. unfold Writer.pack_z_string. now rewrite H. Qed.

(** C9.  [read_chars_from_buffer] takes a UTF-16 encoding for a two-byte
    one only when its name starts with ["utf16le"]: on the big-endian
    text "A" written by [pack_z_string], bytes 00 41 00 00, it reads one
    byte, takes it for the terminator and returns the empty string, where
    [read_null_terminated_bytes] reads two bytes at a time and returns
    "A". *)
Theorem utf16_be_read_as_single_bytes :
  snd (Writer.pack_z_string (Writer.init LittleEndian (Some true)) "A" "utf-16-be")
  = Writer.mkWriter [x00; x41; x00; x00] [] LittleEndian (Some true)
  /\ Utilities.read_chars_from_buffer 5 (inl [x00; x41; x00; x00]) None None true
       (Some "utf-16-be") true
     = Some (Ok (PStr ""), Utilities.mkStream [x00; x41; x00; x00] 1)
  /\ Utilities.read_null_terminated_bytes 5
       (Reader.init [x00; x41; x00; x00] LittleEndian (Some true)) (Some "utf-16-be")
     = Some (Ok (PStr "A"),
             Reader.mkReader [x00; x41; x00; x00] 4 LittleEndian (Some true)).
Proof. repeat split; vm_compute; reflexivity. Qed.

(* ===================================================================== *)
(** * Formats after [parse_fmt] *)
(* ===================================================================== *)

Lemma replace_char_absent (a b : ascii) (s : string) :
  contains_char a s = false -> replace_char a b s = s.
Proof.
  unfold replace_char. induction s as [|c s IH]; simpl; [reflexivity|].
  intros H. apply orb_false_iff in H. destruct H as [Hc Hs].
  rewrite Ascii.eqb_sym in Hc. rewrite Hc. now rewrite IH.
Qed.

Lemma replace_char_removes (a b : ascii) (s : string) :
  a <> b -> contains_char a (replace_char a b s) = false.
Proof.
  intros Hab. unfold replace_char. induction s as [|c s IH]; simpl; [reflexivity|].
  rewrite IH, orb_false_r.
  destruct (Ascii.eqb_spec c a) as [->|Hc]; apply Ascii.eqb_neq; congruence.
Qed.

Lemma replace_char_keeps_absent (x a b : ascii) (s : string) :
  x <> b -> contains_char x s = false -> contains_char x (replace_char a b s) = false.
Proof.
  intros Hxb. unfold replace_char. induction s as [|c s IH]; simpl; [reflexivity|].
  intros H. apply orb_false_iff in H. destruct H as [Hc Hs].
  rewrite (IH Hs), orb_false_r.
  destruct (Ascii.eqb c a); [now apply Ascii.eqb_neq | exact Hc].
Qed.

Lemma replace_char_head (a b c : ascii) (s : string) :
  c <> a -> replace_char a b (String c s) = String c (replace_char a b s).
Proof.
  intros Hc. unfold replace_char. simpl.
  now destruct (Ascii.eqb_spec c a) as [->|_].
Qed.

Lemma order_char_not_var (c : ascii) :
  contains_char c "@=><!" = true -> c <> "v"%char /\ c <> "V"%char.
Proof. intros H. split; intros ->; discriminate. Qed.

Lemma resolved_no_varint (lv : option bool) (s : string) :
  contains_char "v" (resolved lv s) = false /\ contains_char "V" (resolved lv s) = false.
Proof.
  unfold resolved. destruct lv as [[|]|]; split;
    try (apply replace_char_removes; discriminate);
    (apply replace_char_keeps_absent; [discriminate|]);
    apply replace_char_removes; discriminate.
Qed.

Lemma resolved_head (lv : option bool) (c : ascii) (s : string) :
  c <> "v"%char -> c <> "V"%char -> resolved lv (String c s) = String c (resolved lv s).
Proof.
  intros Hv HV. unfold resolved.
  destruct lv as [[|]|]; rewrite !replace_char_head by assumption; reflexivity.
Qed.

Lemma resolved_fixed (lv : option bool) (s : string) :
  contains_char "v" s = false -> contains_char "V" s = false -> resolved lv s = s.
Proof.
  intros Hv HV. unfold resolved.
  destruct lv as [[|]|]; rewrite (replace_char_absent "v") by exact Hv;
    now rewrite replace_char_absent.
Qed.

Lemma parse_fmt_resolved (bo : ByteOrder) (lv : option bool) (c : ascii) (s : string) :
  BinaryBase.parse_fmt bo lv (String c s)
  = Ok (resolved lv (if contains_char c "@=><!" then String c s
                     else String (value bo) (String c s))).
Proof.
  unfold BinaryBase.parse_fmt, resolved.
  destruct (contains_char c "@=><!"); destruct lv as [[|]|]; reflexivity.
Qed.

Lemma value_is_order_char (bo : ByteOrder) : contains_char (value bo) "@=><!" = true.
Proof. now destruct bo. Qed.

(** X1.  [parse_fmt] raises [IndexError] on the empty format and on any
    other format returns a concrete one: it begins with a byte-order
    character, which is the format's own first character when that is one
    and the default byte order otherwise, it holds no ['v'] and no ['V'],
    and parsing it again, under any default byte order and any flag, gives
    it back unchanged. *)
Theorem parse_fmt_concrete (bo : ByteOrder) (lv : option bool) (fmt : string) :
  fmt <> "" ->
  BinaryBase.parse_fmt bo lv "" = Raise (IndexError "string index out of range")
  /\ exists c body,
       BinaryBase.parse_fmt bo lv fmt = Ok (String c body)
       /\ contains_char c "@=><!" = true
       /\ (forall c0 rest, fmt = String c0 rest ->
           c = if contains_char c0 "@=><!" then c0 else value bo)
       /\ contains_char "v" (String c body) = false
       /\ contains_char "V" (String c body) = false
       /\ forall bo' lv', BinaryBase.parse_fmt bo' lv' (String c body) = Ok (String c body).
Proof.
  intros Hne. split; [reflexivity|].
  destruct fmt as [|c0 rest]; [congruence|].
  rewrite parse_fmt_resolved.
  set (f1 := if contains_char c0 "@=><!" then String c0 rest
             else String (value bo) (String c0 rest)).
  assert (Hhead : exists c tail, f1 = String c tail
                                 /\ contains_char c "@=><!" = true
                                 /\ c = if contains_char c0 "@=><!" then c0 else value bo).
  { unfold f1. destruct (contains_char c0 "@=><!") eqn:E.
    - exists c0, rest. auto.
    - exists (value bo), (String c0 rest). split; [reflexivity|].
      split; [apply value_is_order_char | reflexivity]. }
  destruct Hhead as (c & tail & Hf1 & Hc & Hsel). rewrite Hf1.
  destruct (order_char_not_var c Hc) as [Hv HV].
  rewrite (resolved_head lv c tail Hv HV).
  exists c, (resolved lv tail).
  destruct (resolved_no_varint lv (String c tail)) as [Hnv HnV].
  rewrite (resolved_head lv c tail Hv HV) in Hnv, HnV.
  split; [reflexivity|]. split; [exact Hc|]. split.
  { intros c1 rest1 E. injection E as <- <-. exact Hsel. }
  split; [exact Hnv|]. split; [exact HnV|].
  intros bo' lv'. rewrite parse_fmt_resolved, Hc.
  now rewrite resolved_fixed.
Qed.

Lemma parse_fmt_concrete_witness :
  BinaryBase.parse_fmt BigEndian (Some false) "2vH" = Ok ">2iH"
  /\ BinaryBase.parse_fmt BigEndian (Some true) "<V" = Ok "<Q".
Proof.
  split.
  - destruct (parse_fmt_concrete BigEndian (Some false) "2vH") as (_ & c & body & H & _);
      [discriminate|].
    rewrite H. vm_compute in H. inversion H. reflexivity.
  - destruct (parse_fmt_concrete BigEndian (Some true) "<V") as (_ & c & body & H & _);
      [discriminate|].
    rewrite H. vm_compute in H. inversion H. reflexivity.
Defined.

(* ===================================================================== *)
(** * Padding in the writer *)
(* ===================================================================== *)

Lemma concat_repeat_single {A : Type} (c : A) (n : nat) :
  List.concat (repeat [c] n) = repeat c n.
Proof. induction n as [|n IH]; simpl; [reflexivity | now rewrite IH]. Qed.

Lemma pad_single (w : Writer.BinaryWriter) (size : Z) (c : byte) :
  (0 <= size)%Z ->
  Writer.pad w size [c] = Writer.with_array w (Writer._array w ++ repeat c (Z.to_nat size)).
Proof.
  intros Hs. unfold Writer.pad. destruct (0 <? size)%Z eqn:E.
  - now rewrite concat_repeat_single.
  - apply Z.ltb_ge in E. assert (size = 0%Z) as -> by lia. simpl.
    rewrite app_nil_r. now destruct w.
Qed.

(** X2.  [pad_align] with a positive alignment and a one-byte pad
    character appends fewer than [alignment] copies of the character, none
    when the position is already aligned, and leaves the position on a
    multiple of the alignment; the ledger is not touched.  An alignment of
    zero raises [ZeroDivisionError]. *)
Theorem pad_align_aligns (w : Writer.BinaryWriter) (alignment : Z) (c : byte) :
  (0 < alignment)%Z ->
  Writer.pad_align w 0 [c] = (Raise (ZeroDivisionError "integer modulo by zero"), w)
  /\ exists k,
       Writer.pad_align w alignment [c]
       = (Ok tt, Writer.with_array w (Writer._array w ++ repeat c k))
       /\ (Z.of_nat k < alignment)%Z
       /\ (Z.of_nat (Writer.position w + k) mod alignment = 0)%Z
       /\ ((Z.of_nat (Writer.position w) mod alignment = 0)%Z -> k = 0).
Proof.
  intros Ha. split; [reflexivity|].
  unfold Writer.pad_align. destruct (alignment =? 0)%Z eqn:E0; [apply Z.eqb_eq in E0; lia|].
  set (p := Z.of_nat (Writer.position w)).
  pose proof (Z.mod_pos_bound p alignment Ha) as Hm.
  destruct (alignment - p mod alignment =? alignment)%Z eqn:E; cbn [negb].
  - apply Z.eqb_eq in E. exists 0. simpl. rewrite app_nil_r, Nat.add_0_r. fold p.
    repeat split; try lia. now destruct w.
  - apply Z.eqb_neq in E. exists (Z.to_nat (alignment - p mod alignment)).
    rewrite pad_single by lia. split; [reflexivity|].
    rewrite Nat2Z.inj_add, Z2Nat.id by lia. fold p.
    split; [lia|]. split; [|intros H0; lia].
    replace (p + (alignment - p mod alignment))%Z
      with (p - p mod alignment + 1 * alignment)%Z by lia.
    rewrite Z.mod_add by lia. rewrite Zminus_mod, Zmod_mod, Z.sub_diag. reflexivity.
Qed.

Lemma pad_align_aligns_witness :
  exists k,
    Writer.pad_align (Writer.append (Writer.init LittleEndian (Some true)) [x01; x02; x03])
      4 [xff]
    = (Ok tt, Writer.with_array
                (Writer.append (Writer.init LittleEndian (Some true)) [x01; x02; x03])
                ([x01; x02; x03] ++ repeat xff k))
    /\ (Z.of_nat k < 4)%Z
    /\ (Z.of_nat (3 + k) mod 4 = 0)%Z
    /\ ((Z.of_nat 3 mod 4 = 0)%Z -> k = 0).
Proof.
  apply (pad_align_aligns
           (Writer.append (Writer.init LittleEndian (Some true)) [x01; x02; x03]) 4 xff).
  lia.
Defined.

(** X3.  [pad_to_offset] with a one-byte pad character raises
    [ValueError], leaving the writer as it was, when the writer is already
    past the offset; otherwise it pads with that character and the
    position becomes the offset. *)
Theorem pad_to_offset_reaches (w : Writer.BinaryWriter) (offset : nat) (c : byte) :
  (offset < Writer.position w ->
   exists msg, Writer.pad_to_offset w offset [c] = (Raise (ValueError msg), w))
  /\ (Writer.position w <= offset ->
      Writer.pad_to_offset w offset [c]
      = (Ok tt, Writer.with_array w
                  (Writer._array w ++ repeat c (offset - Writer.position w)))
      /\ Writer.position (snd (Writer.pad_to_offset w offset [c])) = offset).
Proof.
  unfold Writer.pad_to_offset. split.
  - intros Hlt. apply Nat.ltb_lt in Hlt. rewrite Hlt. eauto.
  - intros Hle. destruct (offset <? Writer.position w)%nat eqn:E;
      [apply Nat.ltb_lt in E; lia|].
    rewrite pad_single by lia.
    replace (Z.to_nat (Z.of_nat offset - Z.of_nat (Writer.position w)))
      with (offset - Writer.position w) by lia.
    split; [reflexivity|]. unfold Writer.position in *. simpl.
    rewrite length_app, repeat_length. lia.
Qed.

(* ===================================================================== *)
(** * The span written by [fill] *)
(* ===================================================================== *)

Lemma slice_assign_inside {A : Type} (a p : list A) (off : nat) :
  off + List.length p <= List.length a ->
  List.length (slice_assign a off p) = List.length a
  /\ firstn off (slice_assign a off p) = firstn off a
  /\ firstn (List.length p) (skipn off (slice_assign a off p)) = p
  /\ skipn (off + List.length p) (slice_assign a off p) = skipn (off + List.length p) a.
Proof.
  intros Hin. unfold slice_assign.
  assert (Hf : List.length (firstn off a) = off) by (rewrite length_firstn; lia).
  repeat split.
  - rewrite !length_app, Hf, length_skipn. lia.
  - rewrite firstn_app, Hf, Nat.sub_diag. simpl. rewrite app_nil_r.
    rewrite firstn_all2; [reflexivity | lia].
  - rewrite skipn_app, Hf, Nat.sub_diag. simpl.
    rewrite (skipn_all2 (firstn off a)) by lia. simpl.
    rewrite firstn_app, Nat.sub_diag. simpl. rewrite app_nil_r.
    apply firstn_all.
  - rewrite app_assoc, skipn_app.
    rewrite (skipn_all2 (firstn off a ++ p)) by (rewrite length_app; lia).
    rewrite length_app, Hf, Nat.sub_diag. reflexivity.
Qed.

Lemma slice_assign_beyond {A : Type} (a p : list A) (off : nat) :
  List.length a <= off -> slice_assign a off p = a ++ p.
Proof.
  intros Hb. unfold slice_assign.
  rewrite firstn_all2 by lia. rewrite skipn_all2 by lia. now rewrite app_nil_r.
Qed.

(** X4.  A successful [fill] writes the packed values over the span of
    the reservation and nothing else when the span lies inside the buffer:
    the length of the buffer, the bytes before the span and the bytes
    after it are kept.  When the recorded offset is at or past the end of
    the buffer the packed values are appended at the end instead. *)
Theorem fill_writes_span (w : Writer.BinaryWriter) (name : string) (obj : option pyobj)
  (offset : nat) (fmt : string) (v : pyval) (values : list pyval) (packed : list byte) :
  dict_get (Writer.reserved w) (Writer.reserve_name name obj) = Some (offset, fmt) ->
  Struct.pack fmt (v :: values) = Ok packed ->
  exists w',
    Writer.fill w name (v :: values) obj = (Ok tt, w')
    /\ (offset + List.length packed <= Writer.position w ->
        Writer.position w' = Writer.position w
        /\ firstn offset (Writer._array w') = firstn offset (Writer._array w)
        /\ firstn (List.length packed) (skipn offset (Writer._array w')) = packed
        /\ skipn (offset + List.length packed) (Writer._array w')
           = skipn (offset + List.length packed) (Writer._array w))
    /\ (Writer.position w <= offset -> Writer._array w' = Writer._array w ++ packed).
Proof.
  intros Hget Hpack. unfold Writer.fill. rewrite Hget, Hpack.
  eexists. split; [reflexivity|]. unfold Writer.position. simpl. split.
  - intros Hin. now apply slice_assign_inside.
  - intros Hb. now apply slice_assign_beyond.
Qed.

Lemma fill_writes_span_witness :
  exists w',
    Writer.fill two_reservations "a" [PInt 258] None = (Ok tt, w')
    /\ (0 + List.length [x02; x01; x00; x00] <= Writer.position two_reservations ->
        Writer.position w' = Writer.position two_reservations
        /\ firstn 0 (Writer._array w') = firstn 0 (Writer._array two_reservations)
        /\ firstn (List.length [x02; x01; x00; x00]) (skipn 0 (Writer._array w'))
           = [x02; x01; x00; x00]
        /\ skipn (0 + List.length [x02; x01; x00; x00]) (Writer._array w')
           = skipn (0 + List.length [x02; x01; x00; x00]) (Writer._array two_reservations))
    /\ (Writer.position two_reservations <= 0 ->
        Writer._array w' = Writer._array two_reservations ++ [x02; x01; x00; x00]).
Proof.
  apply (fill_writes_span two_reservations "a" None 0 "<i" (PInt 258) []
           [x02; x01; x00; x00]).
  - reflexivity.
  - vm_compute. reflexivity.
Defined.

(* ===================================================================== *)
(** * Reserving, then filling *)
(* ===================================================================== *)

Lemma le_bytes_length (k : nat) (z : Z) : List.length (Struct.le_bytes k z) = k.
Proof. revert z. induction k as [|k IH]; intros z; simpl; [reflexivity | now rewrite IH]. Qed.

Lemma int_bytes_length (e : Struct.endianness) (k : nat) (z : Z) :
  List.length (Struct.int_bytes e k z) = k.
Proof. destruct e; simpl; [|rewrite length_rev]; apply le_bytes_length. Qed.

Ltac table_cases H :=
  unfold Struct.code_entry in H;
  repeat match type of H with
         | (if ?b then _ else _) = _ => destruct b
         | match ?a with Struct.Native => _ | Struct.Standard => _ end = _ => destruct a
         end;
  try discriminate; injection H as <-.

Lemma pack_one_length (a : Struct.alignment) (c : ascii) (e : Struct.endianness)
  (en : Struct.entry) (v : pyval) (bs : list byte) :
  Struct.code_entry a c = Some en ->
  Struct.pack_one e en v = Ok bs -> List.length bs = Struct.e_size en.
Proof.
  intros Hc. unfold Struct.pack_one.
  destruct (Struct.e_kind en) eqn:Hk; try discriminate.
  - assert (Hs : Struct.e_size en = 1) by (table_cases Hc; simpl in *; congruence).
    destruct v as [| | |[|b [|]]| |]; try discriminate.
    intros H; inversion H. now rewrite Hs.
  - destruct (as_index v) as [z|]; [|discriminate].
    destruct (Struct.in_range signed (Struct.e_size en) z); [|discriminate].
    intros H; inversion H. apply int_bytes_length.
  - assert (Hs : Struct.e_size en = 1) by (table_cases Hc; simpl in *; congruence).
    intros H; inversion H. now rewrite Hs.
Qed.

Lemma pack_many_length (a : Struct.alignment) (c : ascii) (e : Struct.endianness)
  (en : Struct.entry) (n : nat) :
  Struct.code_entry a c = Some en ->
  forall vs r, Struct.pack_many e en n vs = Ok r ->
               List.length (fst r) = n * Struct.e_size en.
Proof.
  intros Hc. induction n as [|n IH]; intros vs r; simpl.
  - intros H; inversion H. reflexivity.
  - destruct vs as [|v vs]; [discriminate|].
    destruct (Struct.pack_one e en v) as [b|] eqn:H1; [|discriminate]. simpl.
    destruct (Struct.pack_many e en n vs) as [r'|] eqn:H2; [|discriminate]. simpl.
    intros H; inversion H. simpl. rewrite length_app.
    rewrite (pack_one_length a c e en v b Hc H1), (IH vs r' H2). reflexivity.
Qed.

Lemma zeros_length (n : nat) : List.length (zeros n) = n.
Proof. apply repeat_length. Qed.

Lemma pack_tokens_layout (a : Struct.alignment) (e : Struct.endianness)
  (ts : list Struct.token) :
  forall vs off bs,
    Struct.pack_tokens a e ts vs off = Ok bs ->
    Struct.layout a ts off = Ok (off + List.length bs).
Proof.
  induction ts as [|[n c] ts IH]; intros vs off bs; simpl.
  - intros H; inversion H. simpl. now rewrite Nat.add_0_r.
  - destruct (Struct.code_entry a c) as [en|] eqn:Hc; [|discriminate].
    destruct (Struct.e_kind en) eqn:Hk.
    + destruct (Struct.pack_tokens a e ts vs _) as [rest|] eqn:Hr; [|discriminate].
      simpl. intros H; inversion H. rewrite (IH _ _ _ Hr).
      assert (Hs : Struct.e_size en = 1) by (table_cases Hc; simpl in *; congruence).
      rewrite !length_app, !zeros_length, Hs. f_equal. lia.
    + destruct (Struct.pack_many e en n vs) as [r|] eqn:Hm; [|discriminate]. simpl.
      destruct (Struct.pack_tokens a e ts (snd r) _) as [rest|] eqn:Hr; [|discriminate].
      simpl. intros H; inversion H. rewrite (IH _ _ _ Hr).
      rewrite !length_app, zeros_length, (pack_many_length a c e en n Hc vs r Hm).
      f_equal. lia.
    + destruct (Struct.pack_many e en n vs) as [r|] eqn:Hm; [|discriminate]. simpl.
      destruct (Struct.pack_tokens a e ts (snd r) _) as [rest|] eqn:Hr; [|discriminate].
      simpl. intros H; inversion H. rewrite (IH _ _ _ Hr).
      rewrite !length_app, zeros_length, (pack_many_length a c e en n Hc vs r Hm).
      f_equal. lia.
    + destruct (Struct.pack_many e en n vs) as [r|] eqn:Hm; [|discriminate]. simpl.
      destruct (Struct.pack_tokens a e ts (snd r) _) as [rest|] eqn:Hr; [|discriminate].
      simpl. intros H; inversion H. rewrite (IH _ _ _ Hr).
      rewrite !length_app, zeros_length, (pack_many_length a c e en n Hc vs r Hm).
      f_equal. lia.
    + destruct (Struct.pack_many e en n vs) as [r|] eqn:Hm; [|discriminate]. simpl.
      destruct (Struct.pack_tokens a e ts (snd r) _) as [rest|] eqn:Hr; [|discriminate].
      simpl. intros H; inversion H. rewrite (IH _ _ _ Hr).
      rewrite !length_app, zeros_length, (pack_many_length a c e en n Hc vs r Hm).
      f_equal. lia.
    + destruct vs as [|[| | |bs0| |] vs]; try discriminate.
      destruct (Struct.pack_tokens a e ts vs _) as [rest|] eqn:Hr; [|discriminate].
      simpl. intros H; inversion H. rewrite (IH _ _ _ Hr).
      assert (Hs : Struct.e_size en = 1) by (table_cases Hc; simpl in *; congruence).
      rewrite !length_app, !zeros_length, length_firstn, Hs. f_equal. lia.
    + discriminate.
Qed.

(** The bytes [struct.pack] returns are as many as [struct.calcsize]
    says. *)
Lemma pack_length (fmt : string) (values : list pyval) (bs : list byte) :
  Struct.pack fmt values = Ok bs -> Struct.calcsize fmt = Ok (List.length bs).
Proof.
  unfold Struct.pack, Struct.calcsize.
  destruct (Struct.split_order fmt) as [[a e] body].
  destruct (Struct.tokenize body) as [ts|]; [|discriminate]. simpl.
  destruct (Struct.item_count a ts) as [k|]; [|discriminate]. simpl.
  destruct (negb (k =? List.length values)%nat); [discriminate|].
  intros H. now rewrite (pack_tokens_layout a e ts values 0 bs H).
Qed.

Lemma dict_get_none_mem {V : Type} (d : dict V) (k : string) :
  dict_mem d k = false -> dict_get d k = None.
Proof. unfold dict_mem. now destruct (dict_get d k). Qed.

Lemma dict_pop_set_absent {V : Type} (d : dict V) (k : string) (v : V) :
  dict_mem d k = false -> dict_pop (dict_set d k v) k = d.
Proof.
  unfold dict_mem. induction d as [|[k' v'] d IH]; simpl.
  - now rewrite String.eqb_refl.
  - destruct (String.eqb k k') eqn:E; [discriminate|]. simpl. rewrite E.
    intros H. now rewrite IH.
Qed.

Lemma slice_assign_tail {A : Type} (a z p : list A) :
  List.length z = List.length p -> slice_assign (a ++ z) (List.length a) p = a ++ p.
Proof.
  intros Hl. unfold slice_assign.
  rewrite firstn_app, Nat.sub_diag, firstn_all. simpl. rewrite app_nil_r.
  rewrite skipn_all2; [now rewrite app_nil_r | rewrite length_app; lia].
Qed.

(** X5.  [reserve] under a fresh key followed by [fill] of that key is
    [pack]: when the values pack under the parsed format, the reservation
    appends as many null bytes as the packed values are long, the fill
    overwrites exactly them, and the writer ends with the buffer and the
    ledger that a direct [pack] of the values leaves. *)
Theorem reserve_then_fill_is_pack (w : Writer.BinaryWriter) (name fmt : string)
  (obj : option pyobj) (v : pyval) (values : list pyval) (f : string)
  (packed : list byte) :
  dict_mem (Writer.reserved w) (Writer.reserve_name name obj) = false ->
  Writer.parse_fmt w fmt = Ok f ->
  Struct.pack f (v :: values) = Ok packed ->
  exists w1,
    Writer.reserve w name fmt obj = (Ok tt, w1)
    /\ Writer._array w1 = Writer._array w ++ zeros (List.length packed)
    /\ dict_get (Writer.reserved w1) (Writer.reserve_name name obj)
       = Some (Writer.position w, f)
    /\ Writer.fill w1 name (v :: values) obj = Writer.pack w fmt (v :: values)
    /\ Writer.pack w fmt (v :: values)
       = (Ok tt, Writer.with_array w (Writer._array w ++ packed)).
Proof.
  intros Hfresh Hparse Hpack.
  unfold Writer.reserve. rewrite Hfresh, Hparse, (pack_length f _ _ Hpack).
  eexists. split; [reflexivity|]. simpl. split; [reflexivity|].
  split; [apply dict_get_set_same|].
  unfold Writer.fill, Writer.pack. simpl.
  rewrite dict_get_set_same, Hparse. simpl. rewrite Hpack.
  rewrite dict_pop_set_absent by exact Hfresh.
  rewrite slice_assign_tail by apply zeros_length.
  split; [|reflexivity]. now destruct w.
Qed.

Lemma reserve_then_fill_is_pack_witness :
  exists w1,
    Writer.reserve two_reservations "n" "H" None = (Ok tt, w1)
    /\ Writer._array w1
       = Writer._array two_reservations ++ zeros (List.length [x07; x00])
    /\ dict_get (Writer.reserved w1) "n" = Some (Writer.position two_reservations, "<H")
    /\ Writer.fill w1 "n" [PInt 7] None = Writer.pack two_reservations "H" [PInt 7]
    /\ Writer.pack two_reservations "H" [PInt 7]
       = (Ok tt, Writer.with_array two_reservations
                   (Writer._array two_reservations ++ [x07; x00])).
Proof.
  apply (reserve_then_fill_is_pack two_reservations "n" "H" None (PInt 7) [] "<H"
           [x07; x00]); reflexivity.
Defined.

(* ===================================================================== *)
(** * Reading with the reader *)
(* ===================================================================== *)

Lemma seek_position (r : Reader.BinaryReader) : Reader.seek r (Reader.position r) = r.
Proof. now destruct r. Qed.

Lemma seek_seek (r : Reader.BinaryReader) (a b : nat) :
  Reader.seek (Reader.seek r a) b = Reader.seek r b.
Proof. reflexivity. Qed.

Lemma available_length (l : list byte) (p n : nat) :
  List.length (firstn n (skipn p l)) = Nat.min n (List.length l - p).
Proof. now rewrite length_firstn, length_skipn. Qed.

Lemma unpack_wrong_size (f : string) (n : nat) (data : list byte) :
  Struct.calcsize f = Ok n -> List.length data <> n ->
  exists msg, Struct.unpack f data = Raise (StructError msg).
Proof.
  unfold Struct.calcsize, Struct.unpack.
  destruct (Struct.split_order f) as [[a e] body].
  destruct (Struct.tokenize body) as [ts|]; [|discriminate]. simpl.
  intros -> Hne. simpl.
  destruct (n =? List.length data)%nat eqn:E; [apply Nat.eqb_eq in E; congruence|].
  simpl. eauto.
Qed.

(** X6.  [unpack] at the current offset, for a format that parses to [f]
    of size [n]: when [n] bytes are left it returns what [struct.unpack]
    makes of them and advances the position by [n], also when
    [struct.unpack] raises; when fewer are left it raises, having consumed
    the bytes that were left. *)
Theorem unpack_consumes (r : Reader.BinaryReader) (fmt f : string) (n : nat) :
  Reader.parse_fmt r fmt = Ok f ->
  Struct.calcsize f = Ok n ->
  (n <= List.length (Reader.buffer r) - Reader.position r ->
   Reader.unpack r fmt
   = (Struct.unpack f (firstn n (skipn (Reader.position r) (Reader.buffer r))),
      Reader.seek r (Reader.position r + n)))
  /\ (List.length (Reader.buffer r) - Reader.position r < n ->
      exists e,
        Reader.unpack r fmt
        = (Raise e,
           Reader.seek r (Reader.position r
                          + (List.length (Reader.buffer r) - Reader.position r)))).
Proof.
  intros Hparse Hsize. unfold Reader.unpack, Reader.unpack_at, Reader.buffer_read.
  rewrite Hparse, Hsize.
  set (raw := firstn n (skipn (Reader.position r) (Reader.buffer r))).
  assert (Hlen : List.length raw = Nat.min n (List.length (Reader.buffer r)
                                              - Reader.position r))
    by apply available_length.
  split.
  - intros Hin. assert (Hn : List.length raw = n) by lia. clear Hlen.
    destruct raw as [|b raw'] eqn:Eraw.
    + simpl in Hn. subst n. simpl. rewrite Nat.add_0_r.
      now destruct (Struct.unpack f []).
    + destruct n as [|n']; [discriminate|]. rewrite Hn.
      now destruct (Struct.unpack f (b :: raw')).
  - intros Hshort.
    assert (Hne : List.length raw <> n) by lia.
    replace (List.length (Reader.buffer r) - Reader.position r)
      with (List.length raw) by lia.
    destruct (unpack_wrong_size f n raw Hsize Hne) as [msg Hu].
    destruct raw as [|b raw'] eqn:Eraw.
    + destruct n as [|n']; [simpl in Hne; congruence|]. eauto.
    + destruct n as [|n']; rewrite Hu; eauto.
Qed.

Lemma unpack_consumes_witness :
  (3 <= 5 - 0 ->
   Reader.unpack (Reader.init [x01; x02; x03; x04; x05] BigEndian (Some true)) "HB"
   = (Struct.unpack ">HB" (firstn 3 (skipn 0 [x01; x02; x03; x04; x05])),
      Reader.seek (Reader.init [x01; x02; x03; x04; x05] BigEndian (Some true)) (0 + 3)))
  /\ (5 - 0 < 3 ->
      exists e,
        Reader.unpack (Reader.init [x01; x02; x03; x04; x05] BigEndian (Some true)) "HB"
        = (Raise e,
           Reader.seek (Reader.init [x01; x02; x03; x04; x05] BigEndian (Some true))
             (0 + (5 - 0)))).
Proof.
  apply (unpack_consumes (Reader.init [x01; x02; x03; x04; x05] BigEndian (Some true))
           "HB" ">HB" 3); reflexivity.
Defined.

(** X7.  Peeking does not move the reader: [peek] with a size returns
    the bytes found ahead and the reader as it was, and so do
    [long_varints_from_reader_peek] and [ByteOrder.from_reader_peek]
    whatever they return; [peek] with a format that succeeds returns the
    reader as it was. *)
Theorem peek_keeps_offset (r : Reader.BinaryReader) (size bytes_ahead : nat) :
  Reader.peek_bytes r size bytes_ahead
  = (firstn size (skipn (Reader.position r + bytes_ahead) (Reader.buffer r)), r)
  /\ (forall t f, snd (Utilities.long_varints_from_reader_peek r size bytes_ahead t f) = r)
  /\ (forall b l, snd (Utilities.from_reader_peek r size bytes_ahead b l) = r)
  /\ (forall fmt data r',
        Reader.peek r fmt bytes_ahead = (Ok data, r') -> r' = r).
Proof.
  assert (Hp : Reader.peek_bytes r size bytes_ahead
               = (firstn size (skipn (Reader.position r + bytes_ahead) (Reader.buffer r)),
                  r)).
  { now destruct r. }
  split; [exact Hp|]. split; [|split].
  - intros t f. unfold Utilities.long_varints_from_reader_peek. rewrite Hp.
    now repeat break_match.
  - intros b l. unfold Utilities.from_reader_peek. rewrite Hp. now repeat break_match.
  - intros fmt data r'. unfold Reader.peek, Reader.unpack_at.
    destruct (Reader.parse_fmt r fmt) as [f|]; [|discriminate].
    destruct (Struct.calcsize f) as [n|]; [|discriminate].
    unfold Reader.buffer_read. simpl.
    repeat (break_match; try discriminate);
      intros H; inversion H; now destruct r.
Qed.

Lemma mod_succ_nonzero (p a : Z) :
  (0 < a)%Z -> (p mod a <> 0)%Z ->
  ((a - (p + 1) mod a) mod a = (a - p mod a) mod a - 1)%Z.
Proof.
  intros Ha Hp.
  pose proof (Z.mod_pos_bound p a Ha) as Hb.
  rewrite (Z.mod_small (a - p mod a) a) by lia.
  destruct (Z.eq_dec (p mod a + 1) a) as [E|E].
  - assert (H0 : ((p + 1) mod a = 0)%Z).
    { rewrite Z.add_mod by lia.
      destruct (Z.eq_dec a 1) as [->|Ha1]; [now rewrite Z.mod_1_r|].
      rewrite (Z.mod_small 1 a) by lia. rewrite E. apply Z.mod_same. lia. }
    rewrite H0, Z.sub_0_r, Z.mod_same by lia. lia.
  - assert (H1 : ((p + 1) mod a = p mod a + 1)%Z).
    { rewrite Z.add_mod by lia.
      assert (Ha1 : (1 < a)%Z) by lia.
      rewrite (Z.mod_small 1 a) by lia. apply Z.mod_small. lia. }
    rewrite H1. rewrite Z.mod_small by lia. lia.
Qed.

Lemma align_unfold (fuel : nat) (r : Reader.BinaryReader) (alignment : Z) :
  Reader.align (S fuel) r alignment
  = if (alignment =? 0)%Z then
      Some (Raise (ZeroDivisionError "integer modulo by zero"), r)
    else if (Z.of_nat (Reader.position r) mod alignment =? 0)%Z then Some (Ok tt, r)
    else Reader.align fuel (snd (Reader.buffer_read r 1)) alignment.
Proof. reflexivity. Qed.

Lemma align_steps (alignment : Z) :
  (0 < alignment)%Z ->
  forall k r,
    Z.of_nat k = ((alignment - Z.of_nat (Reader.position r) mod alignment) mod alignment)%Z ->
    Reader.position r + k <= List.length (Reader.buffer r) ->
    Reader.align (S k) r alignment = Some (Ok tt, Reader.seek r (Reader.position r + k)).
Proof.
  intros Ha. induction k as [|k IH]; intros r Hk Hin.
  - rewrite align_unfold. destruct (alignment =? 0)%Z eqn:E0; [apply Z.eqb_eq in E0; lia|].
    pose proof (Z.mod_pos_bound (Z.of_nat (Reader.position r)) alignment Ha) as Hb.
    assert (Hz : (Z.of_nat (Reader.position r) mod alignment = 0)%Z).
    { destruct (Z.eq_dec (Z.of_nat (Reader.position r) mod alignment) 0) as [E|E];
        [exact E|].
      rewrite Z.mod_small in Hk by lia. lia. }
    rewrite Hz. cbn. now rewrite Nat.add_0_r, seek_position.
  - rewrite align_unfold. destruct (alignment =? 0)%Z eqn:E0; [apply Z.eqb_eq in E0; lia|].
    pose proof (Z.mod_pos_bound (Z.of_nat (Reader.position r)) alignment Ha) as Hb.
    destruct (Z.of_nat (Reader.position r) mod alignment =? 0)%Z eqn:Ez.
    + apply Z.eqb_eq in Ez. rewrite Ez, Z.sub_0_r, Z.mod_same in Hk by lia. lia.
    + apply Z.eqb_neq in Ez.
      assert (Hread : snd (Reader.buffer_read r 1) = Reader.seek r (Reader.position r + 1)).
      { unfold Reader.buffer_read. cbn [snd]. rewrite available_length.
        f_equal. lia. }
      rewrite Hread.
      rewrite (IH (Reader.seek r (Reader.position r + 1))).
      * replace (Reader.position r + S k) with (Reader.position r + 1 + k) by lia.
        reflexivity.
      * simpl. rewrite Nat2Z.inj_add. simpl (Z.of_nat 1).
        rewrite mod_succ_nonzero by assumption. lia.
      * simpl. lia.
Qed.

Lemma align_stuck (alignment : Z) (r : Reader.BinaryReader) :
  (0 < alignment)%Z ->
  List.length (Reader.buffer r) <= Reader.position r ->
  (Z.of_nat (Reader.position r) mod alignment <> 0)%Z ->
  forall fuel, Reader.align fuel r alignment = None.
Proof.
  intros Ha Hend Hne fuel. induction fuel as [|fuel IH]; [reflexivity|].
  rewrite align_unfold. destruct (alignment =? 0)%Z eqn:E0; [apply Z.eqb_eq in E0; lia|].
  apply Z.eqb_neq in Hne. rewrite Hne.
  assert (Hread : snd (Reader.buffer_read r 1) = r).
  { unfold Reader.buffer_read. cbn [snd]. rewrite available_length.
    replace (Nat.min 1 (List.length (Reader.buffer r) - Reader.position r)) with 0 by lia.
    now rewrite Nat.add_0_r, seek_position. }
  rewrite Hread. exact IH.
Qed.

(** X8.  [align] with a positive alignment moves the reader forward to
    the next multiple of the alignment, by fewer than [alignment] bytes,
    when the buffer reaches that far.  When the position is not aligned
    and the buffer has ended, the loop of [align] never ends: no number of
    rounds gives a result. *)
Theorem align_reaches_boundary (r : Reader.BinaryReader) (alignment : Z) :
  (0 < alignment)%Z ->
  (forall k,
     Z.of_nat k
     = ((alignment - Z.of_nat (Reader.position r) mod alignment) mod alignment)%Z ->
     Reader.position r + k <= List.length (Reader.buffer r) ->
     Reader.align (S k) r alignment = Some (Ok tt, Reader.seek r (Reader.position r + k))
     /\ (Z.of_nat (Reader.position r + k) mod alignment = 0)%Z
     /\ (Z.of_nat k < alignment)%Z)
  /\ (List.length (Reader.buffer r) <= Reader.position r ->
      (Z.of_nat (Reader.position r) mod alignment <> 0)%Z ->
      forall fuel, Reader.align fuel r alignment = None).
Proof.
  intros Ha. split.
  - intros k Hk Hin. split; [now apply align_steps|].
    set (p := Z.of_nat (Reader.position r)) in *.
    pose proof (Z.mod_pos_bound p alignment Ha) as Hb.
    pose proof (Z.mod_pos_bound (alignment - p mod alignment) alignment Ha) as Hb2.
    split; [|lia].
    rewrite Nat2Z.inj_add, Hk. fold p.
    rewrite Z.add_mod_idemp_r by lia.
    replace (p + (alignment - p mod alignment))%Z
      with (p - p mod alignment + 1 * alignment)%Z by lia.
    rewrite Z.mod_add by lia. rewrite Zminus_mod, Zmod_mod, Z.sub_diag. reflexivity.
  - intros Hend Hne. now apply align_stuck.
Qed.

Lemma align_reaches_boundary_witness :
  Reader.align 4 (Reader.seek (Reader.init (zeros 8) LittleEndian (Some true)) 5) 4
  = Some (Ok tt, Reader.seek (Reader.init (zeros 8) LittleEndian (Some true)) 8)
  /\ forall fuel,
       Reader.align fuel (Reader.seek (Reader.init (zeros 6) LittleEndian (Some true)) 6) 4
       = None.
Proof.
  destruct (align_reaches_boundary
              (Reader.seek (Reader.init (zeros 8) LittleEndian (Some true)) 5) 4)
    as [H1 _]; [lia|].
  destruct (align_reaches_boundary
              (Reader.seek (Reader.init (zeros 6) LittleEndian (Some true)) 6) 4)
    as [_ H2]; [lia|].
  split.
  - apply (H1 3); [reflexivity | simpl; lia].
  - apply H2; [simpl; lia | discriminate].
Defined.

(* ===================================================================== *)
(** * Reading null-terminated text *)
(* ===================================================================== *)

Lemma bytes_eqb_refl (a : list byte) : bytes_eqb a a = true.
Proof.
  unfold bytes_eqb. rewrite Nat.eqb_refl. simpl.
  induction a as [|b a IH]; simpl; [reflexivity|].
  rewrite IH, andb_true_r. now destruct b.
Qed.

Lemma bytes_eqb_length (a b : list byte) :
  List.length a <> List.length b -> bytes_eqb a b = false.
Proof.
  intros H. unfold bytes_eqb. apply Nat.eqb_neq in H. now rewrite H.
Qed.

Lemma take_chunk (pre c tail : list byte) :
  firstn (List.length c) (skipn (List.length pre) (pre ++ c ++ tail)) = c.
Proof.
  rewrite skipn_app, Nat.sub_diag, skipn_all. simpl.
  rewrite firstn_app, Nat.sub_diag, firstn_all. simpl. apply app_nil_r.
Qed.

Lemma take_short (pre tail : list byte) (n : nat) :
  List.length tail <= n -> firstn n (skipn (List.length pre) (pre ++ tail)) = tail.
Proof.
  intros H. rewrite skipn_app, Nat.sub_diag, skipn_all. simpl.
  now apply firstn_all2.
Qed.

Lemma read_null_loop_unfold (fuel : nat) (reader : Reader.BinaryReader)
  (chars : list (list byte)) (bpc : nat) (encoding : option string) :
  Utilities.read_null_loop (S fuel) reader chars bpc encoding
  = let '(c, reader1) := Reader.read reader bpc in
    match c with
    | [] => Some (Raise Utilities.ran_out, reader1)
    | _ =>
        if bytes_eqb c (zeros bpc) then
          Some (Utilities.decoded encoding (List.concat chars), reader1)
        else Utilities.read_null_loop fuel reader1 (chars ++ [c]) bpc encoding
    end.
Proof. reflexivity. Qed.

Lemma read_null_loop_text (bpc : nat) (encoding : option string) (bo : ByteOrder)
  (lv : option bool) (tail : list byte) :
  0 < bpc ->
  forall chunks pre chars fuel,
    text_chunks bpc chunks ->
    List.length chunks < fuel ->
    Utilities.read_null_loop fuel
      (Reader.mkReader (pre ++ List.concat chunks ++ zeros bpc ++ tail)
         (List.length pre) bo lv) chars bpc encoding
    = Some (Utilities.decoded encoding (List.concat (chars ++ chunks)),
            Reader.mkReader (pre ++ List.concat chunks ++ zeros bpc ++ tail)
              (List.length pre + List.length (List.concat chunks) + bpc) bo lv).
Proof.
  intros Hpos. induction chunks as [|c chunks IH]; intros pre chars fuel Hchunks Hfuel.
  - destruct fuel as [|fuel]; [inversion Hfuel|].
    rewrite read_null_loop_unfold. unfold Reader.read, Reader.buffer_read.
    cbn [Reader.buffer Reader.position List.concat app].
    pose proof (take_chunk pre (zeros bpc) tail) as Ht.
    rewrite zeros_length in Ht. rewrite Ht, zeros_length, bytes_eqb_refl.
    rewrite app_nil_r, Nat.add_0_r.
    destruct bpc as [|bpc']; [inversion Hpos|]. reflexivity.
  - destruct fuel as [|fuel]; [inversion Hfuel|].
    inversion Hchunks as [|? ? [Hlen Hnz] Hrest]; subst.
    rewrite read_null_loop_unfold. unfold Reader.read, Reader.buffer_read.
    cbn [Reader.buffer Reader.position List.concat].
    rewrite <- (app_assoc c).
    pose proof (take_chunk pre c (List.concat chunks ++ zeros (List.length c) ++ tail))
      as Ht.
    rewrite Ht, Hnz.
    destruct c as [|b c']; [simpl in Hpos; inversion Hpos|].
    unfold Reader.seek. cbn [Reader.buffer Reader.position Reader.default_byte_order
                             Reader.long_varints].
    rewrite <- (length_app pre (b :: c')).
    rewrite (app_assoc pre (b :: c')).
    rewrite (IH (pre ++ b :: c') (chars ++ [b :: c']) fuel Hrest) by (simpl in Hfuel; lia).
    rewrite <- !app_assoc. cbn [app]. do 3 f_equal.
    rewrite !length_app. simpl. rewrite length_app. lia.
Qed.

Lemma read_null_loop_runs_out (bpc : nat) (encoding : option string) (bo : ByteOrder)
  (lv : option bool) (tail : list byte) :
  0 < bpc -> List.length tail < bpc ->
  forall chunks pre chars fuel,
    text_chunks bpc chunks ->
    List.length chunks + 1 < fuel ->
    Utilities.read_null_loop fuel
      (Reader.mkReader (pre ++ List.concat chunks ++ tail) (List.length pre) bo lv)
      chars bpc encoding
    = Some (Raise Utilities.ran_out,
            Reader.mkReader (pre ++ List.concat chunks ++ tail)
              (List.length (pre ++ List.concat chunks ++ tail)) bo lv).
Proof.
  intros Hpos Htail. induction chunks as [|c chunks IH]; intros pre chars fuel Hchunks Hfuel.
  - destruct fuel as [|fuel]; [inversion Hfuel|].
    rewrite read_null_loop_unfold. unfold Reader.read, Reader.buffer_read.
    cbn [Reader.buffer Reader.position List.concat app].
    rewrite (take_short pre tail bpc) by lia.
    destruct tail as [|b tail'].
    + unfold Reader.seek. simpl. now rewrite app_nil_r, Nat.add_0_r.
    + rewrite bytes_eqb_length by (rewrite zeros_length; lia).
      destruct fuel as [|fuel]; [simpl in Hfuel; lia|].
      rewrite read_null_loop_unfold. unfold Reader.read, Reader.buffer_read, Reader.seek.
      cbn [Reader.buffer Reader.position Reader.default_byte_order Reader.long_varints].
      rewrite <- (length_app pre (b :: tail')).
      rewrite skipn_all. simpl. rewrite firstn_nil. simpl.
      now rewrite Nat.add_0_r.
  - destruct fuel as [|fuel]; [inversion Hfuel|].
    inversion Hchunks as [|? ? [Hlen Hnz] Hrest]; subst.
    rewrite read_null_loop_unfold. unfold Reader.read, Reader.buffer_read.
    cbn [Reader.buffer Reader.position List.concat].
    rewrite <- (app_assoc c).
    pose proof (take_chunk pre c (List.concat chunks ++ tail)) as Ht.
    rewrite Ht, Hnz.
    destruct c as [|b c']; [simpl in Hpos; inversion Hpos|].
    unfold Reader.seek. cbn [Reader.buffer Reader.position Reader.default_byte_order
                             Reader.long_varints].
    rewrite <- (length_app pre (b :: c')).
    rewrite (app_assoc pre (b :: c')).
    rewrite (IH (pre ++ b :: c') (chars ++ [b :: c']) fuel Hrest) by (simpl in Hfuel; lia).
    reflexivity.
Qed.

Lemma char_width_pos (encoding : option string) : 0 < char_width encoding.
Proof. unfold char_width. destruct (Utilities.encoding_starts encoding "utf16"); lia. Qed.

(** X9.  [read_null_terminated_bytes] on a reader standing at the start
    of a text of whole characters, none of them null, followed by a null
    character: it returns the bytes of the text (decoded when an encoding
    is given) and leaves the reader just after the terminator, one byte
    wide, or two for an encoding whose name starts with ["utf16"] once
    hyphens are removed.  When the buffer ends before any terminator it
    raises [ValueError] with the reader at the end of the buffer. *)
Theorem read_null_terminated_text (encoding : option string) (bo : ByteOrder)
  (lv : option bool) (pre tail : list byte) (chunks : list (list byte)) (fuel : nat) :
  text_chunks (char_width encoding) chunks ->
  List.length chunks + 1 < fuel ->
  Utilities.read_null_terminated_bytes fuel
    (Reader.mkReader (pre ++ List.concat chunks ++ zeros (char_width encoding) ++ tail)
       (List.length pre) bo lv) encoding
  = Some (Utilities.decoded encoding (List.concat chunks),
          Reader.mkReader (pre ++ List.concat chunks ++ zeros (char_width encoding) ++ tail)
            (List.length pre + List.length (List.concat chunks) + char_width encoding)
            bo lv)
  /\ (List.length tail < char_width encoding ->
      Utilities.read_null_terminated_bytes fuel
        (Reader.mkReader (pre ++ List.concat chunks ++ tail) (List.length pre) bo lv)
        encoding
      = Some (Raise Utilities.ran_out,
              Reader.mkReader (pre ++ List.concat chunks ++ tail)
                (List.length (pre ++ List.concat chunks ++ tail)) bo lv)).
Proof.
  intros Hchunks Hfuel. unfold Utilities.read_null_terminated_bytes.
  fold (char_width encoding). split.
  - rewrite (read_null_loop_text (char_width encoding) encoding bo lv tail
               (char_width_pos encoding) chunks pre [] fuel Hchunks) by lia.
    reflexivity.
  - intros Htail.
    apply (read_null_loop_runs_out (char_width encoding) encoding bo lv tail
             (char_width_pos encoding) Htail chunks pre [] fuel Hchunks Hfuel).
Qed.

Lemma read_null_terminated_text_witness :
  Utilities.read_null_terminated_bytes 5
    (Reader.mkReader ([xff] ++ List.concat [[x00; x41]; [x00; x42]]
                      ++ zeros (char_width (Some "utf-16-be")) ++ [x07])
       (List.length [xff]) LittleEndian None) (Some "utf-16-be")
  = Some (Ok (PStr "AB"),
          Reader.mkReader [xff; x00; x41; x00; x42; x00; x00; x07] 7 LittleEndian None).
Proof.
  destruct (read_null_terminated_text (Some "utf-16-be") LittleEndian None [xff] [x07]
              [[x00; x41]; [x00; x42]] 5) as [H _].
  - repeat constructor.
  - simpl. lia.
  - rewrite H. reflexivity.
Defined.

(** X10.  What [pack_z_string] appends, [read_null_terminated_bytes]
    reads back: when the encoded text is made of whole characters none of
    which is null, reading from where the writer stood returns the encoded
    bytes, decoded with the same encoding, and stops where the writer now
    stands. *)
Theorem z_string_round_trip (w : Writer.BinaryWriter) (value encoding : string)
  (chunks : list (list byte)) (bo : ByteOrder) (lv : option bool) (fuel : nat) :
  Codec.encode encoding value = Ok (List.concat chunks) ->
  text_chunks (char_width (Some encoding)) chunks ->
  List.length chunks + 1 < fuel ->
  exists w',
    Writer.pack_z_string w value encoding = (Ok tt, w')
    /\ Utilities.read_null_terminated_bytes fuel
         (Reader.mkReader (Writer._array w') (Writer.position w) bo lv) (Some encoding)
       = Some (Utilities.decoded (Some encoding) (List.concat chunks),
               Reader.mkReader (Writer._array w') (Writer.position w') bo lv).
Proof.
  intros Henc Hchunks Hfuel. unfold Writer.pack_z_string. rewrite Henc.
  eexists. split; [reflexivity|].
  unfold Utilities.read_null_terminated_bytes, Writer.position, Writer.with_array.
  cbn [Writer._array]. fold (char_width (Some encoding)).
  assert (Hterm : (if startswith (remove_char "-" encoding) "utf16"
                   then [x00; x00] else [x00])
                  = zeros (char_width (Some encoding)) ++ []).
  { unfold char_width, Utilities.encoding_starts.
    now destruct (startswith (remove_char "-" encoding) "utf16"). }
  rewrite Hterm.
  rewrite (read_null_loop_text (char_width (Some encoding)) (Some encoding) bo lv []
             (char_width_pos (Some encoding)) chunks (Writer._array w) [] fuel Hchunks)
    by lia.
  do 3 f_equal. rewrite !length_app, zeros_length. simpl. lia.
Qed.

Lemma z_string_round_trip_witness :
  exists w',
    Writer.pack_z_string two_reservations "AB" "utf-16-le" = (Ok tt, w')
    /\ Utilities.read_null_terminated_bytes 5
         (Reader.mkReader (Writer._array w') (Writer.position two_reservations)
            BigEndian None) (Some "utf-16-le")
       = Some (Utilities.decoded (Some "utf-16-le")
                 (List.concat [[x41; x00]; [x42; x00]]),
               Reader.mkReader (Writer._array w') (Writer.position w') BigEndian None).
Proof.
  apply (z_string_round_trip two_reservations "AB" "utf-16-le" [[x41; x00]; [x42; x00]]
           BigEndian None 5).
  - reflexivity.
  - repeat constructor.
  - simpl. lia.
Defined.

Lemma read_chars_loop_unfold (fuel : nat) (buffer : Utilities.Stream)
  (chars : list (list byte)) (bpc : nat) (old_offset : option nat)
  (reset_old_offset : bool) (encoding : option string) (strip : bool) :
  Utilities.read_chars_loop (S fuel) buffer chars None bpc old_offset reset_old_offset
    encoding strip
  = let '(c, buffer1) := Utilities.stream_read buffer bpc in
    match c with
    | [] => Some (Raise Utilities.ran_out, buffer1)
    | _ =>
        if bytes_eqb c (zeros bpc) then
          Some (Utilities.decoded encoding (List.concat chars),
                Utilities.restore reset_old_offset old_offset buffer1)
        else
          Utilities.read_chars_loop fuel buffer1 (chars ++ [c]) None bpc old_offset
            reset_old_offset encoding strip
    end.
Proof.
  cbn [Utilities.read_chars_loop].
  destruct (Utilities.stream_read buffer bpc) as [c buffer1].
  now destruct c.
Qed.

Lemma read_chars_loop_text (bpc : nat) (encoding : option string)
  (old_offset : option nat) (reset strip : bool) (tail : list byte) :
  0 < bpc ->
  forall chunks pre chars fuel,
    text_chunks bpc chunks ->
    List.length chunks < fuel ->
    Utilities.read_chars_loop fuel
      (Utilities.mkStream (pre ++ List.concat chunks ++ zeros bpc ++ tail)
         (List.length pre)) chars None bpc old_offset reset encoding strip
    = Some (Utilities.decoded encoding (List.concat (chars ++ chunks)),
            Utilities.restore reset old_offset
              (Utilities.mkStream (pre ++ List.concat chunks ++ zeros bpc ++ tail)
                 (List.length pre + List.length (List.concat chunks) + bpc))).
Proof.
  intros Hpos. induction chunks as [|c chunks IH]; intros pre chars fuel Hchunks Hfuel.
  - destruct fuel as [|fuel]; [inversion Hfuel|].
    rewrite read_chars_loop_unfold. unfold Utilities.stream_read.
    cbn [Utilities.data Utilities.pos List.concat app].
    pose proof (take_chunk pre (zeros bpc) tail) as Ht.
    rewrite zeros_length in Ht. rewrite Ht, zeros_length, bytes_eqb_refl.
    rewrite app_nil_r, Nat.add_0_r.
    destruct bpc as [|bpc']; [inversion Hpos|]. reflexivity.
  - destruct fuel as [|fuel]; [inversion Hfuel|].
    inversion Hchunks as [|? ? [Hlen Hnz] Hrest]; subst.
    rewrite read_chars_loop_unfold. unfold Utilities.stream_read.
    cbn [Utilities.data Utilities.pos List.concat].
    rewrite <- (app_assoc c).
    pose proof (take_chunk pre c (List.concat chunks ++ zeros (List.length c) ++ tail))
      as Ht.
    rewrite Ht, Hnz.
    destruct c as [|b c']; [simpl in Hpos; inversion Hpos|].
    rewrite <- (length_app pre (b :: c')).
    rewrite (app_assoc pre (b :: c')).
    rewrite (IH (pre ++ b :: c') (chars ++ [b :: c']) fuel Hrest) by (simpl in Hfuel; lia).
    rewrite <- !app_assoc. cbn [app]. do 4 f_equal.
    rewrite !length_app. simpl. rewrite length_app. lia.
Qed.

Lemma buffer_char_width_pos (encoding : option string) : 0 < buffer_char_width encoding.
Proof.
  unfold buffer_char_width. destruct (Utilities.encoding_starts encoding "utf16le"); lia.
Qed.

(** X11.  [read_chars_from_buffer] without a length, on a stream holding
    at [offset] a text of whole characters, none of them null, followed by
    a null character (one byte wide, or two for an encoding whose name
    starts with ["utf16le"] once hyphens are removed): it returns the
    bytes of the text, decoded when an encoding is given, whatever [strip]
    is; the stream is put back where it was when [reset_old_offset] is
    true and left just after the terminator otherwise. *)
Theorem read_chars_null_terminated (encoding : option string) (pre tail : list byte)
  (chunks : list (list byte)) (start fuel : nat) (reset strip : bool) :
  text_chunks (buffer_char_width encoding) chunks ->
  List.length chunks + 1 < fuel ->
  Utilities.read_chars_from_buffer fuel
    (inr (Utilities.mkStream
            (pre ++ List.concat chunks ++ zeros (buffer_char_width encoding) ++ tail) start))
    (Some (List.length pre)) None reset encoding strip
  = Some (Utilities.decoded encoding (List.concat chunks),
          Utilities.mkStream
            (pre ++ List.concat chunks ++ zeros (buffer_char_width encoding) ++ tail)
            (if reset then start
             else List.length pre + List.length (List.concat chunks)
                  + buffer_char_width encoding)).
Proof.
  intros Hchunks Hfuel. unfold Utilities.read_chars_from_buffer, Utilities.stream_seek.
  cbv beta iota. cbn [Utilities.pos Utilities.data].
  fold (buffer_char_width encoding).
  rewrite (read_chars_loop_text (buffer_char_width encoding) encoding (Some start)
             reset strip tail (buffer_char_width_pos encoding) chunks pre [] fuel Hchunks)
    by lia.
  now destruct reset.
Qed.

Lemma read_chars_null_terminated_witness :
  Utilities.read_chars_from_buffer 5
    (inr (Utilities.mkStream
            ([xff] ++ List.concat [[x41; x00]; [x42; x00]]
             ++ zeros (buffer_char_width (Some "utf-16-le")) ++ [x07]) 0))
    (Some (List.length [xff])) None true (Some "utf-16-le") true
  = Some (Ok (PStr "AB"),
          Utilities.mkStream [xff; x41; x00; x42; x00; x00; x00; x07] 0).
Proof.
  rewrite (read_chars_null_terminated (Some "utf-16-le") [xff] [x07]
             [[x41; x00]; [x42; x00]] 0 5 true true).
  - reflexivity.
  - repeat constructor.
  - simpl. lia.
Defined.

(* ===================================================================== *)
(** * Round trips of the field codecs *)
(* ===================================================================== *)

Lemma pop_n_rev (ws : list pyval) :
  forall rest, Metadata.pop_n (List.length ws) (rest ++ rev ws) = (Ok ws, rest).
Proof.
  induction ws as [|w ws IH]; intros rest; simpl.
  - now rewrite app_nil_r.
  - rewrite app_assoc, list_pop_snoc, IH. reflexivity.
Qed.

Lemma exec_return (m : Metadata.BinaryMetadata) (io : list pyval) (v : pyval) :
  Metadata.exec m [Metadata.Return] io v = (Ok v, io).
Proof. reflexivity. Qed.

Lemma pack_plain (m : Metadata.BinaryMetadata) (io : list pyval) (v : pyval) :
  Metadata.meta_kind m = Metadata.Plain ->
  Metadata.pack m io v
  = if Metadata.has_asserted m && negb (py_in v (Metadata.asserted m)) then
      (Raise (Metadata.not_asserted m false), io)
    else match through (Metadata.pack_func m) v with
         | Ok wire => (Ok tt, io ++ [wire])
         | Raise e => (Raise e, io)
         end.
Proof.
  destruct m as [fmt asserted uf pf bc sk fn k].
  cbn -[py_in py_iter list_pop Metadata.pop_n rev]. intros ->.
  unfold Metadata.pack, Metadata.get_packer.
  destruct asserted as [|a0 al], pf as [g|]; cbn -[py_in];
    try (destruct (py_in v (a0 :: al)); cbn -[py_in]; [|reflexivity]);
    try (now destruct (g v)); reflexivity.
Qed.

Lemma unpack_plain (m : Metadata.BinaryMetadata) (io : list pyval) (wire : pyval) :
  Metadata.meta_kind m = Metadata.Plain ->
  Metadata.unpack m (io ++ [wire])
  = match through (Metadata.unpack_func m) wire with
    | Ok v =>
        if Metadata.has_asserted m && negb (py_in v (Metadata.asserted m)) then
          (Raise (Metadata.not_asserted m true), io)
        else (Ok v, io)
    | Raise e => (Raise e, io)
    end.
Proof.
  destruct m as [fmt asserted uf pf bc sk fn k].
  cbn -[py_in py_iter list_pop Metadata.pop_n rev]. intros ->.
  unfold Metadata.unpack, Metadata.get_unpacker.
  destruct asserted as [|a0 al], uf as [f|]; cbn -[py_in list_pop];
    rewrite list_pop_snoc; cbn -[py_in];
    try (destruct (f wire) as [v|]; cbn -[py_in]; [|reflexivity]);
    try (now destruct (py_in _ (a0 :: al))); reflexivity.
Qed.

Lemma pack_array (m : Metadata.BinaryMetadata) (n : nat) (io : list pyval) (v : pyval) :
  Metadata.meta_kind m = Metadata.ArrayMeta n ->
  Metadata.pack m io v
  = if Metadata.has_asserted m && negb (py_in v (Metadata.asserted m)) then
      (Raise (Metadata.not_asserted m false), io)
    else match through (Metadata.pack_func m) v with
         | Ok wire =>
             match py_iter wire with
             | Ok ws => (Ok tt, io ++ ws)
             | Raise e => (Raise e, io)
             end
         | Raise e => (Raise e, io)
         end.
Proof.
  destruct m as [fmt asserted uf pf bc sk fn k].
  cbn -[py_in py_iter list_pop Metadata.pop_n rev]. intros ->.
  unfold Metadata.pack, Metadata.get_packer.
  destruct asserted as [|a0 al], pf as [g|]; cbn -[py_in py_iter];
    try (destruct (py_in v (a0 :: al)); cbn -[py_in py_iter]; [|reflexivity]);
    try (destruct (g v) as [wire|]; cbn -[py_in py_iter]; [|reflexivity]);
    try (now destruct (py_iter _)); reflexivity.
Qed.

Lemma unpack_array (m : Metadata.BinaryMetadata) (io ws : list pyval) :
  Metadata.meta_kind m = Metadata.ArrayMeta (List.length ws) ->
  Metadata.unpack m (io ++ rev ws)
  = match through (Metadata.unpack_func m) (PList ws) with
    | Ok v =>
        if Metadata.has_asserted m && negb (py_in v (Metadata.asserted m)) then
          (Raise (Metadata.not_asserted m true), io)
        else (Ok v, io)
    | Raise e => (Raise e, io)
    end.
Proof.
  destruct m as [fmt asserted uf pf bc sk fn k].
  cbn -[py_in py_iter list_pop Metadata.pop_n rev]. intros ->.
  unfold Metadata.unpack, Metadata.get_unpacker.
  destruct asserted as [|a0 al], uf as [f|]; cbn -[py_in Metadata.pop_n];
    rewrite pop_n_rev; cbn -[py_in];
    try (destruct (f (PList ws)) as [v|]; cbn -[py_in]; [|reflexivity]);
    try (now destruct (py_in _ (a0 :: al))); reflexivity.
Qed.

(** X12.  The generated packer and unpacker of a field are inverse on
    every value the packer accepts, provided the hooks are: if [pack]
    succeeds on [v] and [unpack_func] undoes [pack_func] on [v], then for
    [BinaryMetadata] the packer appends one value and [unpack] on the
    resulting list returns [v] and the list as it was; for
    [BinaryArrayMetadata] the packer appends the elements and [unpack] on
    a list ending with those elements in reverse order, as [from_bytes]
    prepares it, returns [v]. *)
Theorem codec_round_trip (m : Metadata.BinaryMetadata) (io : list pyval) (v : pyval)
  (io' : list pyval) :
  Metadata.pack m io v = (Ok tt, io') ->
  (forall wire, through (Metadata.pack_func m) v = Ok wire ->
                through (Metadata.unpack_func m) wire = Ok v) ->
  (Metadata.meta_kind m = Metadata.Plain ->
   exists wire, io' = io ++ [wire] /\ Metadata.unpack m io' = (Ok v, io))
  /\ (forall ws, Metadata.meta_kind m = Metadata.ArrayMeta (List.length ws) ->
                 through (Metadata.pack_func m) v = Ok (PList ws) ->
                 io' = io ++ ws /\ Metadata.unpack m (io ++ rev ws) = (Ok v, io)).
Proof.
  intros Hpack Hinv. split.
  - intros Hk. rewrite (pack_plain m io v Hk) in Hpack.
    destruct (Metadata.has_asserted m && negb (py_in v (Metadata.asserted m))) eqn:Ha;
      [discriminate|].
    destruct (through (Metadata.pack_func m) v) as [wire|] eqn:Hw; [|discriminate].
    injection Hpack as <-. exists wire. split; [reflexivity|].
    rewrite (unpack_plain m io wire Hk), (Hinv wire eq_refl). now rewrite Ha.
  - intros ws Hk Hws. rewrite (pack_array m _ io v Hk) in Hpack.
    destruct (Metadata.has_asserted m && negb (py_in v (Metadata.asserted m))) eqn:Ha;
      [discriminate|].
    rewrite Hws in Hpack. cbn [py_iter] in Hpack. injection Hpack as <-.
    split; [reflexivity|].
    rewrite (unpack_array m io ws Hk), (Hinv (PList ws) Hws). now rewrite Ha.
Qed.

Lemma codec_round_trip_witness :
  (Metadata.meta_kind doubled_meta = Metadata.Plain ->
   exists wire,
     [PInt 1; PInt 10] = [PInt 1] ++ [wire]
     /\ Metadata.unpack doubled_meta [PInt 1; PInt 10] = (Ok (PInt 5), [PInt 1]))
  /\ (forall ws,
        Metadata.meta_kind doubled_meta = Metadata.ArrayMeta (List.length ws) ->
        through (Metadata.pack_func doubled_meta) (PInt 5) = Ok (PList ws) ->
        [PInt 1; PInt 10] = [PInt 1] ++ ws
        /\ Metadata.unpack doubled_meta ([PInt 1] ++ rev ws) = (Ok (PInt 5), [PInt 1])).
Proof.
  apply (codec_round_trip doubled_meta [PInt 1] (PInt 5) [PInt 1; PInt 10]).
  - reflexivity.
  - intros wire H. injection H as <-. reflexivity.
Defined.

(** X13.  The unpacker of an array field pops its elements off the end
    of the list it is given: on a list ending with the elements in reverse
    order, which is how [from_bytes] prepares the bulk values, it returns
    them in wire order; on the elements in wire order, which is what it is
    given when fields are unpacked one at a time, it returns them
    reversed. *)
Theorem array_unpacker_pops (fmt : string) (data rest : list pyval) :
  Metadata.unpack (plain_array fmt (List.length data)) (rest ++ rev data)
  = (Ok (PList data), rest)
  /\ Metadata.unpack (plain_array fmt (List.length data)) data
     = (Ok (PList (rev data)), []).
Proof.
  unfold Metadata.unpack, Metadata.get_unpacker, plain_array.
  cbn [Metadata.meta_kind Metadata.unpack_func Metadata.has_asserted Metadata.asserted
       Metadata.opt Metadata.is_some app Metadata.exec Metadata.exec_stmt].
  split.
  - now rewrite pop_n_rev.
  - pose proof (pop_n_rev (rev data) []) as H.
    rewrite rev_involutive, length_rev in H. simpl in H. now rewrite H.
Qed.

(* ===================================================================== *)
(** * The full format of a record *)
(* ===================================================================== *)

Lemma full_fmt_loop_ordinary (lv : option bool) (vals : option (dict pyval))
  (fields : list BinaryStruct.Field) :
  forallb is_ordinary fields = true ->
  forall st,
    exists u b,
      BinaryStruct.full_fmt_loop lv vals fields st
      = Ok (BinaryStruct.mkFmtState
              (BinaryStruct.fs_full_fmt st
               ++ str_concat (map (fun f => Metadata.fmt (BinaryStruct.metadata f))
                                  (filter (kept lv vals) fields)))
              u b).
Proof.
  induction fields as [|f fields IH]; intros Hall st.
  - destruct st as [s u b]. exists u, b. simpl. now rewrite str_app_nil_r.
  - simpl in Hall. apply andb_true_iff in Hall. destruct Hall as [Hf Hall].
    unfold is_ordinary in Hf.
    cbn [BinaryStruct.full_fmt_loop filter]. unfold BinaryStruct.full_fmt_step, kept.
    destruct vals as [vals|].
    + destruct (BinaryStruct.skips (BinaryStruct.metadata f) lv vals); cbn [negb bind].
      * apply (IH Hall).
      * rewrite Hf. cbn [bind].
        destruct (IH Hall (BinaryStruct.mkFmtState
                    (BinaryStruct.fs_full_fmt st ++ Metadata.fmt (BinaryStruct.metadata f))
                    0 0)) as (u & b & E).
        exists u, b. unfold kept in E. rewrite E. cbn [map str_concat BinaryStruct.fs_full_fmt].
        now rewrite str_app_assoc.
    + rewrite Hf. cbn [bind].
      destruct (IH Hall (BinaryStruct.mkFmtState
                  (BinaryStruct.fs_full_fmt st ++ Metadata.fmt (BinaryStruct.metadata f))
                  0 0)) as (u & b & E).
      exists u, b. unfold kept in E. rewrite E. cbn [map str_concat BinaryStruct.fs_full_fmt].
      now rewrite str_app_assoc.
Qed.

(** X14.  For a class without bit fields [get_full_fmt] never raises
    and returns the formats of the fields, in schema order, joined
    together; when field values are given, the fields whose skip
    predicate answers true on the flag and those values are left out. *)
Theorem full_fmt_of_ordinary_fields (c : BinaryStruct.StructClass) (lv : option bool)
  (vals : option (dict pyval)) :
  forallb is_ordinary (BinaryStruct._FIELDS c) = true ->
  BinaryStruct.get_full_fmt c lv vals
  = Ok (str_concat (map (fun f => Metadata.fmt (BinaryStruct.metadata f))
                        (filter (kept lv vals) (BinaryStruct._FIELDS c)))).
Proof.
  intros Hall. unfold BinaryStruct.get_full_fmt.
  destruct (full_fmt_loop_ordinary lv vals (BinaryStruct._FIELDS c) Hall
              (BinaryStruct.mkFmtState "" 0 0)) as (u & b & E).
  rewrite E. reflexivity.
Qed.

Lemma full_fmt_of_ordinary_fields_witness :
  BinaryStruct.get_full_fmt Opt None None = Ok "Bi"
  /\ BinaryStruct.get_full_fmt Opt None (Some [("a", PInt 0)]) = Ok "B".
Proof.
  split.
  - exact (full_fmt_of_ordinary_fields Opt None None eq_refl).
  - exact (full_fmt_of_ordinary_fields Opt None (Some [("a", PInt 0)]) eq_refl).
Defined.

Lemma write_rejects_large_witness :
  Bits.write_to_buffer Bits.init [] (PInt 8) 3 "B" = (Raise (Bits.too_large 3), Bits.init, [])
  /\ Bits.write Bits.init two_reservations (PInt 8) 3 "B"
     = (Raise (Bits.too_large 3), Bits.init, two_reservations).
Proof.
  apply (write_rejects_large Bits.init [] two_reservations 8 3 "B"); [lia | simpl; lia].
Defined.

(* ===================================================================== *)
(** * The reservations [to_writer] leaves *)
(* ===================================================================== *)

Ltac break_hyp H :=
  repeat match type of H with
         | context [match ?x with _ => _ end] => destruct x eqn:?; try discriminate H
         end.

Lemma mark_reserved_keys (w : Writer.BinaryWriter) (name fmt : string) (offset : nat)
  (obj : option pyobj) (u : unit) (w' : Writer.BinaryWriter) :
  Writer.mark_reserved_offset w name fmt offset obj = (Ok u, w') ->
  dict_keys (Writer.reserved w')
  = dict_keys (Writer.reserved w) ++ [Writer.reserve_name name obj]
  /\ Writer._array w' = Writer._array w
  /\ Writer.default_byte_order w' = Writer.default_byte_order w
  /\ Writer.long_varints w' = Writer.long_varints w.
Proof.
  unfold Writer.mark_reserved_offset. intros H.
  destruct (dict_mem (Writer.reserved w) (Writer.reserve_name name obj)) eqn:Hm;
    [discriminate|].
  destruct (Writer.parse_fmt w fmt); [|discriminate].
  injection H as _ <-. simpl. rewrite dict_keys_set, Hm. auto.
Qed.

Lemma pack_field_ledger (c : BinaryStruct.StructClass) (lv : option bool)
  (fv : dict pyval) (start : nat) (bo : ByteOrder) (obj : pyobj)
  (st st' : BinaryStruct.PackState) (f : BinaryStruct.Field) :
  BinaryStruct.pack_field c lv fv start bo obj st f (value_for fv f) = (Ok tt, st') ->
  dict_keys (Writer.reserved (BinaryStruct.ps_writer st'))
  = dict_keys (Writer.reserved (BinaryStruct.ps_writer st))
    ++ (if left_reserved lv fv f
        then [Writer.reserve_name (BinaryStruct.name f) (Some obj)] else [])
  /\ Writer._array (BinaryStruct.ps_writer st') = Writer._array (BinaryStruct.ps_writer st)
  /\ Writer.default_byte_order (BinaryStruct.ps_writer st')
     = Writer.default_byte_order (BinaryStruct.ps_writer st)
  /\ Writer.long_varints (BinaryStruct.ps_writer st')
     = Writer.long_varints (BinaryStruct.ps_writer st).
Proof.
  unfold BinaryStruct.pack_field, left_reserved, is_ordinary.
  destruct (BinaryStruct.NOT_BINARY f).
  { intros H; injection H as <-. simpl. now rewrite app_nil_r. }
  destruct (BinaryStruct.skips (BinaryStruct.metadata f) lv fv).
  { intros H; injection H as <-. simpl. now rewrite app_nil_r. }
  cbn [negb andb].
  destruct (Metadata.bit_count (BinaryStruct.metadata f) =? -1)%Z eqn:Hbit;
    cbn [negb andb].
  - intros H.
    destruct (negb (Bits.empty (BinaryStruct.ps_bit_writer st)) && true) eqn:Hflush.
    + destruct (Bits.finish_field_buffer (BinaryStruct.ps_bit_writer st)
                  (BinaryStruct.ps_struct_input st)) as [[[added|e] b] input];
        [|discriminate].
      cbn [BinaryStruct.ps_writer BinaryStruct.ps_bit_writer BinaryStruct.ps_full_fmt
           BinaryStruct.ps_struct_input] in H.
      destruct (is_none (value_for fv f)
                && is_none (Metadata.single_asserted (BinaryStruct.metadata f))) eqn:Hres.
      * break_hyp H. injection H as <-.
        cbn [BinaryStruct.ps_writer].
        match goal with
        | Hm : Writer.mark_reserved_offset _ _ _ _ _ = _ |- _ =>
            apply mark_reserved_keys in Hm; exact Hm
        end.
      * break_hyp H; injection H as <-; simpl; now rewrite app_nil_r.
    + destruct (is_none (value_for fv f)
                && is_none (Metadata.single_asserted (BinaryStruct.metadata f))) eqn:Hres.
      * break_hyp H. injection H as <-.
        cbn [BinaryStruct.ps_writer].
        match goal with
        | Hm : Writer.mark_reserved_offset _ _ _ _ _ = _ |- _ =>
            apply mark_reserved_keys in Hm; exact Hm
        end.
      * break_hyp H; injection H as <-; simpl; now rewrite app_nil_r.
  - rewrite andb_false_r. cbn [andb]. intros H.
    break_hyp H; injection H as <-; simpl; now rewrite app_nil_r.
Qed.

Lemma pack_fields_ledger (c : BinaryStruct.StructClass) (lv : option bool)
  (fv : dict pyval) (start : nat) (bo : ByteOrder) (obj : pyobj)
  (fields : list BinaryStruct.Field) :
  forall st st',
    BinaryStruct.pack_fields c lv fv start bo obj fields st = (Ok tt, st') ->
    dict_keys (Writer.reserved (BinaryStruct.ps_writer st'))
    = dict_keys (Writer.reserved (BinaryStruct.ps_writer st))
      ++ map (fun f => Writer.reserve_name (BinaryStruct.name f) (Some obj))
             (filter (left_reserved lv fv) fields)
    /\ Writer._array (BinaryStruct.ps_writer st') = Writer._array (BinaryStruct.ps_writer st)
    /\ Writer.default_byte_order (BinaryStruct.ps_writer st')
       = Writer.default_byte_order (BinaryStruct.ps_writer st)
    /\ Writer.long_varints (BinaryStruct.ps_writer st')
       = Writer.long_varints (BinaryStruct.ps_writer st).
Proof.
  induction fields as [|f fields IH]; intros st st'.
  - intros H; injection H as <-. simpl. now rewrite app_nil_r.
  - cbn [BinaryStruct.pack_fields]. fold (value_for fv f).
    destruct (BinaryStruct.pack_field c lv fv start bo obj st f (value_for fv f))
      as [[u|e] st1] eqn:Hstep; [|discriminate].
    destruct u. intros Hrest.
    destruct (pack_field_ledger c lv fv start bo obj st st1 f Hstep)
      as (Hk & Ha & Hb & Hl).
    destruct (IH st1 st' Hrest) as (Hk' & Ha' & Hb' & Hl').
    rewrite Hk', Hk, Ha', Ha, Hb', Hb, Hl', Hl. repeat split.
    cbn [filter]. destruct (left_reserved lv fv f); cbn [map];
      now rewrite <- app_assoc.
Qed.

Lemma pack_keeps_ledger (w : Writer.BinaryWriter) (fmt : string) (values : list pyval)
  (u : unit) (w' : Writer.BinaryWriter) :
  Writer.pack w fmt values = (Ok u, w') ->
  Writer.reserved w' = Writer.reserved w
  /\ (exists packed, Writer._array w' = Writer._array w ++ packed)
  /\ Writer.default_byte_order w' = Writer.default_byte_order w
  /\ Writer.long_varints w' = Writer.long_varints w.
Proof.
  unfold Writer.pack. intros H.
  destruct (f <- Writer.parse_fmt w fmt ;; Struct.pack f values) as [packed|e];
    [|discriminate].
  injection H as _ <-. simpl. repeat split. now exists packed.
Qed.

(** What the end of [to_writer] leaves, for the writer [w0] the loop
    started on. *)
Lemma to_writer_tail (c : BinaryStruct.StructClass) (lv : option bool)
  (fv : dict pyval) (start : nat) (bo bo' : ByteOrder) (obj : pyobj)
  (fields : list BinaryStruct.Field) (w0 : Writer.BinaryWriter)
  (old : option ByteOrder) (w' : Writer.BinaryWriter) :
  match BinaryStruct.pack_fields c lv fv start bo obj fields
          (BinaryStruct.mkPackState w0 Bits.init "" []) with
  | (Raise e, st) => (Raise e, BinaryStruct.ps_writer st)
  | (Ok _, st) =>
      match Writer.pack (BinaryStruct.ps_writer st) (BinaryStruct.ps_full_fmt st)
              (BinaryStruct.ps_struct_input st) with
      | (Raise e, w) => (Raise e, w)
      | (Ok _, w) =>
          match old with
          | Some _ => (Ok tt, Writer.with_byte_order w bo')
          | None => (Ok tt, w)
          end
      end
  end = (Ok tt, w') ->
  dict_keys (Writer.reserved w')
  = dict_keys (Writer.reserved w0)
    ++ map (fun f => Writer.reserve_name (BinaryStruct.name f) (Some obj))
           (filter (left_reserved lv fv) fields)
  /\ (exists packed, Writer._array w' = Writer._array w0 ++ packed)
  /\ Writer.long_varints w' = Writer.long_varints w0
  /\ Writer.default_byte_order w'
     = match old with Some _ => bo' | None => Writer.default_byte_order w0 end.
Proof.
  destruct (BinaryStruct.pack_fields c lv fv start bo obj fields
              (BinaryStruct.mkPackState w0 Bits.init "" [])) as [[u|e] st] eqn:Hloop;
    [|discriminate].
  destruct u.
  destruct (pack_fields_ledger c lv fv start bo obj fields _ _ Hloop)
    as (Hk & Ha & Hb & Hl).
  cbn [BinaryStruct.ps_writer] in Hk, Ha, Hb, Hl.
  destruct (Writer.pack (BinaryStruct.ps_writer st) (BinaryStruct.ps_full_fmt st)
              (BinaryStruct.ps_struct_input st)) as [[u|e] w1] eqn:Hpack; [|discriminate].
  destruct (pack_keeps_ledger _ _ _ _ _ Hpack) as (Hr & (packed & Hp) & Hb1 & Hl1).
  intros H.
  destruct old as [o|]; injection H as <-; cbn [Writer.with_byte_order Writer.reserved
    Writer._array Writer.long_varints Writer.default_byte_order];
    (split; [now rewrite Hr, Hk|]); (split; [exists packed; now rewrite Hp, Ha|]);
    (split; [now rewrite Hl1, Hl|]); [reflexivity | now rewrite Hb1, Hb].
Qed.

(** The writer [to_writer] works on, its ledger, and the byte order it is
    left with. *)
Lemma to_writer_shape (self : BinaryStruct.Instance)
  (writer : option Writer.BinaryWriter) (reserve_obj : option pyobj)
  (byte_order : option ByteOrder) (w' : Writer.BinaryWriter) :
  BinaryStruct.to_writer self writer reserve_obj byte_order = (Ok tt, w') ->
  dict_keys (Writer.reserved w')
  = dict_keys (match writer with Some w => Writer.reserved w | None => [] end)
    ++ keys_left self writer
         (match reserve_obj with Some o => o | None => BinaryStruct.as_obj self end)
  /\ (exists packed,
        Writer._array w'
        = match writer with Some w => Writer._array w | None => [] end ++ packed)
  /\ match writer with
     | Some w =>
         Writer.long_varints w' = Writer.long_varints w
         /\ Writer.default_byte_order w'
            = match byte_order, BinaryStruct.byte_order self with
              | None, Some b => b
              | _, _ => Writer.default_byte_order w
              end
     | None => True
     end.
Proof.
  unfold BinaryStruct.to_writer, keys_left, flag_for, values_of.
  destruct byte_order as [b|]; [|destruct writer as [w|]];
    [destruct writer as [w|] | |]; cbv beta iota zeta.
  - intros H.
    destruct (to_writer_tail _ _ _ _ _ b _ _ _ None _ H) as (Hk & Ha & Hl & Hb).
    repeat split; assumption.
  - intros H.
    destruct (to_writer_tail _ _ _ _ _ b _ _ _ None _ H) as (Hk & Ha & Hl & Hb).
    repeat split; assumption.
  - set (bo := match BinaryStruct.byte_order self with
               | Some b => b
               | None => Writer.default_byte_order w
               end).
    destruct (negb (ByteOrderM.eqb (Writer.default_byte_order w) bo)) eqn:Hne;
      cbv beta iota zeta; intros H.
    + destruct (to_writer_tail _ _ _ _ _ bo _ _ _
                  (Some (Writer.default_byte_order w)) _ H) as (Hk & Ha & Hl & Hb).
      cbn [Writer.with_byte_order Writer.reserved Writer._array Writer.long_varints]
        in Hk, Ha, Hl.
      split; [assumption|]. split; [assumption|]. split; [assumption|].
      rewrite Hb. subst bo. now destruct (BinaryStruct.byte_order self).
    + destruct (to_writer_tail _ _ _ _ _ bo _ _ _ None _ H) as (Hk & Ha & Hl & Hb).
      split; [assumption|]. split; [assumption|]. split; [assumption|].
      rewrite Hb. apply negb_false_iff in Hne. subst bo.
      destruct (BinaryStruct.byte_order self) as [b|]; [|reflexivity].
      now destruct (Writer.default_byte_order w), b.
  - intros H.
    destruct (to_writer_tail _ _ _ _ _
                match BinaryStruct.byte_order self with
                | Some b => b
                | None => BinaryStruct.get_default_byte_order self
                end _ _ _ None _ H) as (Hk & Ha & Hl & Hb).
    repeat split; assumption.
Qed.

Lemma mark_reserved_array (w : Writer.BinaryWriter) (name fmt : string) (offset : nat)
  (obj : option pyobj) (r : result unit) (w' : Writer.BinaryWriter) :
  Writer.mark_reserved_offset w name fmt offset obj = (r, w') ->
  Writer._array w' = Writer._array w.
Proof.
  unfold Writer.mark_reserved_offset. intros H.
  break_hyp H; injection H as _ <-; reflexivity.
Qed.

Lemma pack_field_array (c : BinaryStruct.StructClass) (lv : option bool)
  (fv : dict pyval) (start : nat) (bo : ByteOrder) (obj : pyobj)
  (st st' : BinaryStruct.PackState) (f : BinaryStruct.Field) (v : pyval)
  (r : result unit) :
  BinaryStruct.pack_field c lv fv start bo obj st f v = (r, st') ->
  Writer._array (BinaryStruct.ps_writer st') = Writer._array (BinaryStruct.ps_writer st).
Proof.
  unfold BinaryStruct.pack_field.
  destruct (BinaryStruct.NOT_BINARY f).
  { intros H; now injection H as _ <-. }
  destruct (BinaryStruct.skips (BinaryStruct.metadata f) lv fv).
  { intros H; now injection H as _ <-. }
  destruct (negb (Bits.empty (BinaryStruct.ps_bit_writer st))
            && (Metadata.bit_count (BinaryStruct.metadata f) =? -1)%Z).
  - destruct (Bits.finish_field_buffer (BinaryStruct.ps_bit_writer st)
                (BinaryStruct.ps_struct_input st)) as [[[added|e] b] input];
      cbn [BinaryStruct.ps_writer BinaryStruct.ps_bit_writer BinaryStruct.ps_full_fmt
           BinaryStruct.ps_struct_input]; intros H.
    + break_hyp H; injection H as _ <-; cbn [BinaryStruct.ps_writer];
        try reflexivity;
        match goal with
        | Hm : Writer.mark_reserved_offset _ _ _ _ _ = _ |- _ =>
            apply mark_reserved_array in Hm; exact Hm
        end.
    + now injection H as _ <-.
  - intros H.
    break_hyp H; injection H as _ <-; cbn [BinaryStruct.ps_writer];
      try reflexivity;
      match goal with
      | Hm : Writer.mark_reserved_offset _ _ _ _ _ = _ |- _ =>
          apply mark_reserved_array in Hm; exact Hm
      end.
Qed.

Lemma pack_fields_array (c : BinaryStruct.StructClass) (lv : option bool)
  (fv : dict pyval) (start : nat) (bo : ByteOrder) (obj : pyobj)
  (fields : list BinaryStruct.Field) :
  forall st st' r,
    BinaryStruct.pack_fields c lv fv start bo obj fields st = (r, st') ->
    Writer._array (BinaryStruct.ps_writer st') = Writer._array (BinaryStruct.ps_writer st).
Proof.
  induction fields as [|f fields IH]; intros st st' r.
  - intros H; now injection H as _ <-.
  - cbn [BinaryStruct.pack_fields].
    destruct (BinaryStruct.pack_field c lv fv start bo obj st f
                match dict_get fv (BinaryStruct.name f) with
                | Some v => v
                | None => PNone
                end) as [[u|e] st1] eqn:Hstep.
    + intros Hrest. rewrite (IH _ _ _ Hrest). exact (pack_field_array _ _ _ _ _ _ _ _ _ _ _ Hstep).
    + intros H. injection H as _ <-. exact (pack_field_array _ _ _ _ _ _ _ _ _ _ _ Hstep).
Qed.

Lemma to_writer_tail_raise (c : BinaryStruct.StructClass) (lv : option bool)
  (fv : dict pyval) (start : nat) (bo bo' : ByteOrder) (obj : pyobj)
  (fields : list BinaryStruct.Field) (w0 : Writer.BinaryWriter)
  (old : option ByteOrder) (e : exn) (w' : Writer.BinaryWriter) :
  match BinaryStruct.pack_fields c lv fv start bo obj fields
          (BinaryStruct.mkPackState w0 Bits.init "" []) with
  | (Raise e, st) => (Raise e, BinaryStruct.ps_writer st)
  | (Ok _, st) =>
      match Writer.pack (BinaryStruct.ps_writer st) (BinaryStruct.ps_full_fmt st)
              (BinaryStruct.ps_struct_input st) with
      | (Raise e, w) => (Raise e, w)
      | (Ok _, w) =>
          match old with
          | Some _ => (Ok tt, Writer.with_byte_order w bo')
          | None => (Ok tt, w)
          end
      end
  end = (Raise e, w') ->
  Writer._array w' = Writer._array w0.
Proof.
  destruct (BinaryStruct.pack_fields c lv fv start bo obj fields
              (BinaryStruct.mkPackState w0 Bits.init "" [])) as [[u|e0] st] eqn:Hloop.
  - apply pack_fields_array in Hloop. cbn [BinaryStruct.ps_writer] in Hloop.
    unfold Writer.pack.
    destruct (f <- Writer.parse_fmt (BinaryStruct.ps_writer st) (BinaryStruct.ps_full_fmt st) ;;
              Struct.pack f (BinaryStruct.ps_struct_input st)) as [packed|e1].
    + destruct old; discriminate.
    + intros H. now injection H as _ <-.
  - apply pack_fields_array in Hloop. cbn [BinaryStruct.ps_writer] in Hloop.
    intros H. now injection H as _ <-.
Qed.

Lemma to_writer_raise_array (self : BinaryStruct.Instance)
  (writer : option Writer.BinaryWriter) (reserve_obj : option pyobj)
  (byte_order : option ByteOrder) (e : exn) (w' : Writer.BinaryWriter) :
  BinaryStruct.to_writer self writer reserve_obj byte_order = (Raise e, w') ->
  Writer._array w' = match writer with Some w => Writer._array w | None => [] end.
Proof.
  unfold BinaryStruct.to_writer.
  destruct byte_order as [b|]; [|destruct writer as [w|]];
    [destruct writer as [w|] | |]; cbv beta iota zeta.
  - intros H. exact (to_writer_tail_raise _ _ _ _ _ b _ _ _ None _ _ H).
  - intros H. exact (to_writer_tail_raise _ _ _ _ _ b _ _ _ None _ _ H).
  - set (bo := match BinaryStruct.byte_order self with
               | Some b => b
               | None => Writer.default_byte_order w
               end).
    destruct (negb (ByteOrderM.eqb (Writer.default_byte_order w) bo));
      cbv beta iota zeta; intros H.
    + exact (to_writer_tail_raise _ _ _ _ _ bo _ _ _
               (Some (Writer.default_byte_order w)) _ _ H).
    + exact (to_writer_tail_raise _ _ _ _ _ bo _ _ _ None _ _ H).
  - intros H.
    exact (to_writer_tail_raise _ _ _ _ _
             match BinaryStruct.byte_order self with
             | Some b => b
             | None => BinaryStruct.get_default_byte_order self
             end _ _ _ None _ _ H).
Qed.

(** X15.  After a successful [to_writer] the ledger of the writer holds the
    keys it held before the call (none for a writer started by the call),
    followed by one key for each field left to the caller, in field order
    and under the owner's name: the binary fields that are not skipped,
    are not bit fields, whose value is [None] and that have no single
    asserted value.  Nothing else is reserved and nothing is released. *)
Theorem to_writer_ledger (self : BinaryStruct.Instance)
  (writer : option Writer.BinaryWriter) (reserve_obj : option pyobj)
  (byte_order : option ByteOrder) (w' : Writer.BinaryWriter) :
  BinaryStruct.to_writer self writer reserve_obj byte_order = (Ok tt, w') ->
  dict_keys (Writer.reserved w')
  = dict_keys (match writer with Some w => Writer.reserved w | None => [] end)
    ++ keys_left self writer
         (match reserve_obj with Some o => o | None => BinaryStruct.as_obj self end).
Proof. intros H. exact (proj1 (to_writer_shape _ _ _ _ _ H)). Qed.

Lemma to_writer_ledger_witness :
  dict_keys (Writer.reserved
               (snd (BinaryStruct.to_writer (hdr PNone) (Some two_reservations) None None)))
  = dict_keys (Writer.reserved two_reservations)
    ++ keys_left (hdr PNone) (Some two_reservations) (BinaryStruct.as_obj (hdr PNone)).
Proof.
  apply (to_writer_ledger (hdr PNone) (Some two_reservations) None None).
  vm_compute. reflexivity.
Defined.

Lemma byte_order_eqb_eq (a b : ByteOrder) : ByteOrderM.eqb a b = true <-> a = b.
Proof. destruct a, b; vm_compute; split; congruence. Qed.

Lemma with_byte_order_same (w : Writer.BinaryWriter) :
  Writer.with_byte_order w (Writer.default_byte_order w) = w.
Proof. now destruct w. Qed.

(** The bytes the end of [to_writer] appends, for the writer [w0] the
    loop started on. *)
Lemma to_writer_tail_packed (c : BinaryStruct.StructClass) (lv : option bool)
  (fv : dict pyval) (start : nat) (bo bo' : ByteOrder) (obj : pyobj)
  (fields : list BinaryStruct.Field) (w0 : Writer.BinaryWriter)
  (old : option ByteOrder) (w' : Writer.BinaryWriter) :
  match BinaryStruct.pack_fields c lv fv start bo obj fields
          (BinaryStruct.mkPackState w0 Bits.init "" []) with
  | (Raise e, st) => (Raise e, BinaryStruct.ps_writer st)
  | (Ok _, st) =>
      match Writer.pack (BinaryStruct.ps_writer st) (BinaryStruct.ps_full_fmt st)
              (BinaryStruct.ps_struct_input st) with
      | (Raise e, w) => (Raise e, w)
      | (Ok _, w) =>
          match old with
          | Some _ => (Ok tt, Writer.with_byte_order w bo')
          | None => (Ok tt, w)
          end
      end
  end = (Ok tt, w') ->
  exists st f packed,
    BinaryStruct.pack_fields c lv fv start bo obj fields
      (BinaryStruct.mkPackState w0 Bits.init "" []) = (Ok tt, st)
    /\ Writer.parse_fmt (BinaryStruct.ps_writer st) (BinaryStruct.ps_full_fmt st) = Ok f
    /\ Struct.pack f (BinaryStruct.ps_struct_input st) = Ok packed
    /\ Writer._array w' = Writer._array w0 ++ packed.
Proof.
  destruct (BinaryStruct.pack_fields c lv fv start bo obj fields
              (BinaryStruct.mkPackState w0 Bits.init "" [])) as [[u|e] st] eqn:Hloop;
    [|discriminate].
  destruct u.
  destruct (pack_fields_ledger c lv fv start bo obj fields _ _ Hloop)
    as (_ & Ha & _ & _).
  cbn [BinaryStruct.ps_writer] in Ha.
  unfold Writer.pack.
  destruct (Writer.parse_fmt (BinaryStruct.ps_writer st) (BinaryStruct.ps_full_fmt st))
    as [f|e] eqn:Hparse; cbn [bind]; [|discriminate].
  destruct (Struct.pack f (BinaryStruct.ps_struct_input st)) as [packed|e] eqn:Hpack;
    [|discriminate].
  intros H. exists st, f, packed.
  split; [reflexivity|]. split; [exact Hparse|]. split; [exact Hpack|].
  destruct old; injection H as <-;
    cbn [Writer.with_byte_order Writer.with_array Writer._array]; now rewrite Ha.
Qed.

(** X16.  [to_writer] only appends to the writer it is given.  When it
    returns, the bytes the writer held are followed by the bytes of one
    [struct.pack] call: that of the format and the values its loop over
    the fields has collected, the format being parsed with the byte
    order and the width flag of the writer; nothing else is written.
    When it raises, the writer holds the bytes it held before. *)
Theorem to_writer_only_appends (self : BinaryStruct.Instance)
  (w : Writer.BinaryWriter) (reserve_obj : option pyobj)
  (byte_order : option ByteOrder) (r : result unit) (w' : Writer.BinaryWriter) :
  BinaryStruct.to_writer self (Some w) reserve_obj byte_order = (r, w') ->
  match r with
  | Ok _ =>
      exists st f packed,
        BinaryStruct.pack_fields (BinaryStruct.cls self) (flag_for self (Some w))
          (values_of self) (Writer.position w) (order_for self w byte_order)
          (match reserve_obj with Some o => o | None => BinaryStruct.as_obj self end)
          (BinaryStruct._FIELDS (BinaryStruct.cls self))
          (BinaryStruct.mkPackState (writer_during self w byte_order) Bits.init "" [])
        = (Ok tt, st)
        /\ Writer.parse_fmt (BinaryStruct.ps_writer st) (BinaryStruct.ps_full_fmt st) = Ok f
        /\ Struct.pack f (BinaryStruct.ps_struct_input st) = Ok packed
        /\ Writer._array w' = Writer._array w ++ packed
  | Raise _ => Writer._array w' = Writer._array w
  end.
Proof.
  intros H. destruct r as [[]|e]; [|exact (to_writer_raise_array _ _ _ _ _ _ H)].
  revert H.
  unfold BinaryStruct.to_writer, flag_for, values_of, order_for, writer_during.
  destruct byte_order as [b|]; cbv beta iota zeta.
  - intros H. exact (to_writer_tail_packed _ _ _ _ _ b _ _ _ None _ H).
  - destruct (BinaryStruct.byte_order self) as [b0|].
    + destruct (negb (ByteOrderM.eqb (Writer.default_byte_order w) b0)) eqn:Hne;
        cbv beta iota zeta; intros H.
      * exact (to_writer_tail_packed _ _ _ _ _ b0 _ _ _
                 (Some (Writer.default_byte_order w)) _ H).
      * assert (Heq : Writer.default_byte_order w = b0)
          by (apply byte_order_eqb_eq; now apply negb_false_iff).
        subst b0. rewrite with_byte_order_same.
        exact (to_writer_tail_packed _ _ _ _ _ (Writer.default_byte_order w) _ _ _
                 None _ H).
    + rewrite (proj2 (byte_order_eqb_eq _ _) eq_refl). cbn [negb].
      cbv beta iota zeta. intros H.
      exact (to_writer_tail_packed _ _ _ _ _ (Writer.default_byte_order w) _ _ _
                 None _ H).
Qed.

Lemma to_writer_only_appends_witness :
  (exists st f packed,
     BinaryStruct.pack_fields Hdr (flag_for (hdr (PInt 3)) (Some two_reservations))
       (values_of (hdr (PInt 3))) (Writer.position two_reservations)
       (order_for (hdr (PInt 3)) two_reservations None)
       (BinaryStruct.as_obj (hdr (PInt 3)))
       (BinaryStruct._FIELDS Hdr)
       (BinaryStruct.mkPackState (writer_during (hdr (PInt 3)) two_reservations None)
          Bits.init "" [])
     = (Ok tt, st)
     /\ Writer.parse_fmt (BinaryStruct.ps_writer st) (BinaryStruct.ps_full_fmt st) = Ok f
     /\ Struct.pack f (BinaryStruct.ps_struct_input st) = Ok packed
     /\ Writer._array (snd (BinaryStruct.to_writer (hdr (PInt 3)) (Some two_reservations)
                              None None))
        = Writer._array two_reservations ++ packed)
  /\ Writer._array (snd (BinaryStruct.to_writer (hdr (PInt 2147483648)) (Some two_reservations)
                           None None))
     = Writer._array two_reservations.
Proof.
  split.
  - refine (to_writer_only_appends (hdr (PInt 3)) two_reservations None None (Ok tt) _ _).
    vm_compute. reflexivity.
  - refine (to_writer_only_appends (hdr (PInt 2147483648)) two_reservations None None
              (Raise (StructError "argument out of range")) _ _).
    vm_compute. reflexivity.
Defined.

(** X17.  [to_writer] does not put the byte order of the writer back:
    called on a writer without a byte order argument, it leaves the writer
    with the byte order of the struct when the struct has one; called with
    a byte order, or for a struct without one, it leaves the writer's byte
    order as it was.  The writer's width flag is never changed. *)
Theorem to_writer_byte_order (self : BinaryStruct.Instance)
  (w : Writer.BinaryWriter) (reserve_obj : option pyobj)
  (byte_order : option ByteOrder) (w' : Writer.BinaryWriter) :
  BinaryStruct.to_writer self (Some w) reserve_obj byte_order = (Ok tt, w') ->
  Writer.default_byte_order w'
  = match byte_order, BinaryStruct.byte_order self with
    | None, Some b => b
    | _, _ => Writer.default_byte_order w
    end
  /\ Writer.long_varints w' = Writer.long_varints w.
Proof.
  intros H. destruct (to_writer_shape _ _ _ _ _ H) as (_ & _ & Hl & Hb).
  split; assumption.
Qed.

Lemma to_writer_byte_order_witness :
  Writer.default_byte_order
    (snd (BinaryStruct.to_writer
            (BinaryStruct.mkInstance Hdr 7 [("a", PInt 1); ("b", PInt 2); ("c", PInt 3)]
               (Some BigEndian) None)
            (Some (Writer.init LittleEndian (Some true))) None None))
  = BigEndian
  /\ Writer.long_varints
       (snd (BinaryStruct.to_writer
               (BinaryStruct.mkInstance Hdr 7 [("a", PInt 1); ("b", PInt 2); ("c", PInt 3)]
                  (Some BigEndian) None)
               (Some (Writer.init LittleEndian (Some true))) None None))
     = Some true.
Proof.
  apply (to_writer_byte_order
           (BinaryStruct.mkInstance Hdr 7 [("a", PInt 1); ("b", PInt 2); ("c", PInt 3)]
              (Some BigEndian) None)
           (Writer.init LittleEndian (Some true)) None None).
  vm_compute. reflexivity.
Defined.

(** X18.  [to_bytes] returns bytes only for an instance that leaves
    nothing to the caller: every binary field that is not skipped and is
    not a bit field has a value or a single asserted value. *)
Theorem to_bytes_leaves_nothing (self : BinaryStruct.Instance)
  (byte_order : option ByteOrder) (long_varints : option bool) (packed : list byte)
  (f : BinaryStruct.Field) :
  BinaryStruct.to_bytes self byte_order long_varints = Ok packed ->
  In f (BinaryStruct._FIELDS (BinaryStruct.cls self)) ->
  left_reserved (flag_for (BinaryStruct.set_flags self byte_order long_varints) None)
    (values_of self) f = false.
Proof.
  unfold BinaryStruct.to_bytes. intros H Hin.
  destruct (BinaryStruct.to_writer (BinaryStruct.set_flags self byte_order long_varints)
              None None None) as [[[]|e] w] eqn:Hw; [|discriminate].
  destruct (Writer.reserved w) eqn:Hr; [|discriminate].
  apply to_writer_shape in Hw. destruct Hw as (Hk & _).
  rewrite Hr in Hk. unfold keys_left in Hk. cbn [dict_keys map app] in Hk.
  symmetry in Hk. apply map_eq_nil in Hk.
  destruct (left_reserved
              (flag_for (BinaryStruct.set_flags self byte_order long_varints) None)
              (values_of self) f) eqn:Hf; [|reflexivity].
  assert (Hin' : In f (filter
                         (left_reserved
                            (flag_for (BinaryStruct.set_flags self byte_order long_varints)
                               None)
                            (values_of (BinaryStruct.set_flags self byte_order long_varints)))
                         (BinaryStruct._FIELDS
                            (BinaryStruct.cls
                               (BinaryStruct.set_flags self byte_order long_varints))))).
  { apply filter_In. split; [exact Hin | exact Hf]. }
  rewrite Hk in Hin'. destruct Hin'.
Qed.

Lemma to_bytes_leaves_nothing_witness :
  left_reserved (flag_for (BinaryStruct.set_flags (hdr (PInt 3)) None None) None)
    (values_of (hdr (PInt 3))) (int_field "c" "i") = false.
Proof.
  apply (to_bytes_leaves_nothing (hdr (PInt 3)) None None
           [x01; x02; x00; x00; x00; x03; x00; x00; x00]).
  - vm_compute. reflexivity.
  - simpl. auto.
Defined.
(* ===================================================================== *)
(** * Bit fields: what is written is what is read *)
(* ===================================================================== *)

Lemma str_len_app (a b : string) : str_len (a ++ b) = str_len a + str_len b.
Proof. unfold str_len. induction a as [|c a IH]; [reflexivity|]. simpl. now rewrite IH. Qed.

Lemma str_repeat_len (c : ascii) (n : nat) : str_len (str_repeat c n) = n.
Proof. unfold str_len. induction n as [|n IH]; [reflexivity|]. simpl. now rewrite IH. Qed.

Lemma str_repeat_app (c : ascii) (a b : nat) :
  (str_repeat c a ++ str_repeat c b)%string = str_repeat c (a + b).
Proof. induction a as [|a IH]; [reflexivity|]. simpl. now rewrite IH. Qed.

Lemma str_repeat_snoc (c : ascii) (n : nat) :
  (str_repeat c n ++ String c "")%string = str_repeat c (S n).
Proof. induction n as [|n IH]; [reflexivity|]. simpl. now rewrite IH. Qed.

Lemma str_rev_onto_app (s acc : string) :
  str_rev_onto s acc = (str_rev s ++ acc)%string.
Proof.
  unfold str_rev. revert acc.
  induction s as [|c s IH]; intros acc; [reflexivity|].
  simpl. rewrite IH, (IH (String c "")), str_app_assoc. reflexivity.
Qed.

Lemma str_rev_cons (c : ascii) (s : string) :
  str_rev (String c s) = (str_rev s ++ String c "")%string.
Proof. unfold str_rev at 1. simpl. apply str_rev_onto_app. Qed.

Lemma str_rev_app (a b : string) : str_rev (a ++ b) = (str_rev b ++ str_rev a)%string.
Proof.
  induction a as [|c a IH].
  - simpl. now rewrite str_app_nil_r.
  - simpl. rewrite !str_rev_cons, IH, str_app_assoc. reflexivity.
Qed.

Lemma str_rev_involutive (s : string) : str_rev (str_rev s) = s.
Proof.
  induction s as [|c s IH]; [reflexivity|].
  rewrite str_rev_cons, str_rev_app, IH. reflexivity.
Qed.

Lemma str_rev_len (s : string) : str_len (str_rev s) = str_len s.
Proof.
  induction s as [|c s IH]; [reflexivity|].
  rewrite str_rev_cons, str_len_app, IH. simpl. lia.
Qed.

Lemma str_rev_repeat (c : ascii) (n : nat) : str_rev (str_repeat c n) = str_repeat c n.
Proof.
  induction n as [|n IH]; [reflexivity|].
  simpl. rewrite str_rev_cons, IH. apply str_repeat_snoc.
Qed.

Lemma substring_prefix (a s : string) : substring 0 (str_len a) (a ++ s) = a.
Proof. unfold str_len. induction a as [|c a IH]; simpl; [now destruct s|]. now rewrite IH. Qed.

Lemma substring_skip (a s : string) (n : nat) :
  substring (str_len a) n (a ++ s) = substring 0 n s.
Proof. induction a as [|c a IH]; [reflexivity|]. simpl. exact IH. Qed.

Lemma substring_all (s : string) : substring 0 (str_len s) s = s.
Proof. rewrite <- (str_app_nil_r s) at 2. apply substring_prefix. Qed.

Lemma binary_app (a b : string) : binary (a ++ b) = binary a && binary b.
Proof.
  induction a as [|c a IH]; [reflexivity|].
  simpl. rewrite IH. now rewrite andb_assoc.
Qed.

Lemma binary_rev (s : string) : binary (str_rev s) = binary s.
Proof.
  induction s as [|c s IH]; [reflexivity|].
  rewrite str_rev_cons, binary_app, IH. simpl. rewrite andb_true_r. apply andb_comm.
Qed.

Lemma binary_zeros (n : nat) : binary (str_repeat "0" n) = true.
Proof. induction n as [|n IH]; [reflexivity|]. simpl. exact IH. Qed.

Lemma binary_digits_pos (p : positive) (acc : string) :
  binary (bin_digits_pos p acc) = binary acc.
Proof. revert acc. induction p as [p IH|p IH|]; intros acc; simpl; try rewrite IH; reflexivity. Qed.

Lemma binary_bin_digits (z : Z) : binary (bin_digits z) = true.
Proof. destruct z; try reflexivity. apply binary_digits_pos. Qed.

Lemma bin_value_app (s t : string) (acc : Z) :
  bin_value (s ++ t) acc
  = match bin_value s acc with Some z => bin_value t z | None => None end.
Proof.
  revert acc. induction s as [|c s IH]; intros acc; [reflexivity|].
  simpl. destruct (Ascii.eqb c "0"); [apply IH|].
  destruct (Ascii.eqb c "1"); [apply IH|reflexivity].
Qed.

Lemma bin_value_zeros (k : nat) (t : string) :
  bin_value (str_repeat "0" k ++ t) 0 = bin_value t 0.
Proof. induction k as [|k IH]; [reflexivity|]. exact IH. Qed.

Lemma bin_digits_pos_acc (p : positive) (acc : string) :
  bin_digits_pos p acc = (bin_digits_pos p "" ++ acc)%string.
Proof.
  revert acc. induction p as [p IH|p IH|]; intros acc; simpl; try reflexivity.
  - rewrite IH, (IH "1"), str_app_assoc. reflexivity.
  - rewrite IH, (IH "0"), str_app_assoc. reflexivity.
Qed.

Lemma bin_value_digits_pos (p : positive) :
  bin_value (bin_digits_pos p "") 0 = Some (Zpos p).
Proof.
  induction p as [p IH|p IH|]; simpl; try reflexivity.
  - rewrite bin_digits_pos_acc, bin_value_app, IH. reflexivity.
  - rewrite bin_digits_pos_acc, bin_value_app, IH. reflexivity.
Qed.

Lemma bin_value_bin_digits (z : Z) : (0 <= z)%Z -> bin_value (bin_digits z) 0 = Some z.
Proof. destruct z; try reflexivity; [intros _; apply bin_value_digits_pos | lia]. Qed.

Lemma bin_value_bound (s : string) :
  forall acc z, (0 <= acc)%Z -> bin_value s acc = Some z ->
    (acc * 2 ^ Z.of_nat (str_len s) <= z < (acc + 1) * 2 ^ Z.of_nat (str_len s))%Z.
Proof.
  induction s as [|c s IH]; intros acc z Hacc H.
  - simpl in *. injection H as <-. lia.
  - replace (str_len (String c s)) with (S (str_len s)) by reflexivity.
    rewrite Nat2Z.inj_succ, Z.pow_succ_r by lia.
    assert (HP : (0 < 2 ^ Z.of_nat (str_len s))%Z) by (apply Z.pow_pos_nonneg; lia).
    cbn [bin_value] in H.
    destruct (Ascii.eqb c "0").
    + apply IH in H; [|lia]. revert H HP.
      generalize (2 ^ Z.of_nat (str_len s))%Z. intros P H HP. nia.
    + destruct (Ascii.eqb c "1"); [|discriminate].
      apply IH in H; [|lia]. revert H HP.
      generalize (2 ^ Z.of_nat (str_len s))%Z. intros P H HP. nia.
Qed.

Lemma binary_value (s : string) :
  forall acc, binary s = true -> exists z, bin_value s acc = Some z.
Proof.
  induction s as [|c s IH]; intros acc H; [now exists acc|].
  simpl in *. apply andb_true_iff in H. destruct H as [Hc Hs].
  destruct (Ascii.eqb c "0"); [now apply IH|].
  destruct (Ascii.eqb c "1"); [now apply IH|discriminate].
Qed.

Lemma int_base2_value (s : string) (z : Z) :
  binary s = true -> s <> ""%string -> bin_value s 0 = Some z -> int_base2 s = Ok z.
Proof.
  intros Hb Hne Hv. destruct s as [|c s]; [congruence|].
  unfold int_base2. simpl in Hb. apply andb_true_iff in Hb. destruct Hb as [Hc _].
  apply orb_true_iff in Hc.
  assert (Hm : Ascii.eqb c "-" = false).
  { destruct Hc as [Hc|Hc]; apply Ascii.eqb_eq in Hc; now subst c. }
  assert (Hp : Ascii.eqb c "+" = false).
  { destruct Hc as [Hc|Hc]; apply Ascii.eqb_eq in Hc; now subst c. }
  rewrite Hm, Hp, Hv. reflexivity.
Qed.

Lemma digits_pos_head (p : positive) : exists t, bin_digits_pos p "" = String "1" t.
Proof.
  induction p as [p [t IH]|p [t IH]|]; simpl.
  - rewrite bin_digits_pos_acc, IH. now eexists.
  - rewrite bin_digits_pos_acc, IH. now eexists.
  - now exists ""%string.
Qed.

Lemma bin_digits_len (v n : Z) :
  (1 <= n)%Z -> (0 <= v < 2 ^ n)%Z -> str_len (bin_digits v) <= Z.to_nat n.
Proof.
  intros Hn Hv. destruct v as [|p|p]; simpl; try lia.
  destruct (digits_pos_head p) as [t Ht]. rewrite Ht.
  pose proof (bin_value_digits_pos p) as Hp. rewrite Ht in Hp. simpl in Hp.
  apply bin_value_bound in Hp; [|lia].
  cbn [str_len String.length]. fold (str_len t).
  assert (2 ^ Z.of_nat (str_len t) < 2 ^ n)%Z as Hlt by lia.
  apply Z.pow_lt_mono_r_iff in Hlt; lia.
Qed.

Lemma digits_len (v n : Z) :
  (1 <= n)%Z -> (0 <= v < 2 ^ n)%Z -> str_len (digits v n) = Z.to_nat n.
Proof.
  intros Hn Hv. unfold digits. rewrite str_len_app, str_repeat_len.
  pose proof (bin_digits_len v n Hn Hv). lia.
Qed.

Lemma digits_binary (v n : Z) : binary (digits v n) = true.
Proof. unfold digits. now rewrite binary_app, binary_zeros, binary_bin_digits. Qed.

Lemma digits_value (v n : Z) : (0 <= v)%Z -> bin_value (digits v n) 0 = Some v.
Proof. intros Hv. unfold digits. rewrite bin_value_zeros. now apply bin_value_bin_digits. Qed.

Lemma format_0b_digits (v n : Z) :
  (0 <= v)%Z -> (0 <= n)%Z -> format_0b v n = Ok (digits v n).
Proof.
  intros Hv Hn. unfold format_0b, digits.
  destruct (n <? 0)%Z eqn:E; [apply Z.ltb_lt in E; lia|].
  destruct (v <? 0)%Z eqn:E2; [apply Z.ltb_lt in E2; lia|].
  rewrite Z.abs_eq by lia. reflexivity.
Qed.

Lemma value_of_pos (s : string) :
  forall p, binary s = true ->
    exists q, bin_value s (Zpos p) = Some (Zpos q)
              /\ bin_digits_pos q "" = (bin_digits_pos p "" ++ s)%string.
Proof.
  induction s as [|c s IH]; intros p H.
  - exists p. now rewrite str_app_nil_r.
  - simpl in H. apply andb_true_iff in H. destruct H as [Hc Hs].
    simpl. destruct (Ascii.eqb c "0") eqn:E0.
    + apply Ascii.eqb_eq in E0. subst c.
      destruct (IH (xO p) Hs) as (q & Hq & Hd). exists q. split; [exact Hq|].
      rewrite Hd. simpl. rewrite bin_digits_pos_acc, str_app_assoc. reflexivity.
    + destruct (Ascii.eqb c "1") eqn:E1; [|discriminate].
      apply Ascii.eqb_eq in E1. subst c.
      destruct (IH (xI p) Hs) as (q & Hq & Hd). exists q. split; [exact Hq|].
      rewrite Hd. simpl. rewrite bin_digits_pos_acc, str_app_assoc. reflexivity.
Qed.

(** Formatting the value of a string of binary digits to a width that
    holds it pads the string with zeros on the left. *)
Lemma pad_digits_value (M : nat) (s : string) :
  forall z, binary s = true -> s <> ""%string -> str_len s <= M ->
    bin_value s 0 = Some z ->
    (str_repeat "0" (M - (0 + str_len (bin_digits z))) ++ bin_digits z)%string
    = (str_repeat "0" (M - str_len s) ++ s)%string.
Proof.
  induction s as [|c s IH]; intros z Hb Hne Hlen Hv; [congruence|].
  simpl in Hb. apply andb_true_iff in Hb. destruct Hb as [Hc Hs].
  cbn [str_len String.length] in Hlen. fold (str_len s) in Hlen.
  simpl in Hv. destruct (Ascii.eqb c "0") eqn:E0.
  - apply Ascii.eqb_eq in E0. subst c.
    destruct s as [|c' s'].
    + simpl in Hv. injection Hv as <-. reflexivity.
    + rewrite (IH z Hs ltac:(discriminate) ltac:(lia) Hv).
      cbn [str_len String.length]. fold (str_len s').
      replace (M - S (str_len s')) with (S (M - S (S (str_len s')))) by (simpl in Hlen; lia).
      rewrite <- str_repeat_snoc, str_app_assoc. reflexivity.
  - destruct (Ascii.eqb c "1") eqn:E1; [|discriminate].
    apply Ascii.eqb_eq in E1. subst c.
    destruct (value_of_pos s 1%positive Hs) as (q & Hq & Hd).
    change (2 * 0 + 1)%Z with 1%Z in Hv. rewrite Hq in Hv. injection Hv as <-.
    simpl bin_digits. rewrite Hd. simpl. reflexivity.
Qed.

Lemma substring_none (s : string) (a : nat) : substring a 0 s = ""%string.
Proof. revert a. induction s as [|c s IH]; intros [|a]; simpl; auto. Qed.

Lemma field_of_binary (items : list (Z * Z)) : binary (field_of items) = true.
Proof.
  induction items as [|[v n] items IH]; [reflexivity|].
  simpl. now rewrite binary_app, binary_rev, digits_binary, IH.
Qed.

Lemma sum_fits (items : list (Z * Z)) :
  Forall fits items -> (Z.of_nat (List.length items) <= sum_Z (map snd items))%Z.
Proof.
  induction 1 as [|[v n] items [Hn Hv] _ IH]; [simpl; lia|].
  cbn [List.length map sum_Z fold_right snd] in *. fold (sum_Z (map snd items)). lia.
Qed.

Lemma field_of_len (items : list (Z * Z)) :
  Forall fits items -> Z.of_nat (str_len (field_of items)) = sum_Z (map snd items).
Proof.
  induction 1 as [|[v n] items [Hn Hv] _ IH]; [reflexivity|].
  cbn [field_of map sum_Z fold_right snd fst] in *. fold (sum_Z (map snd items)).
  rewrite str_len_app, str_rev_len, digits_len by assumption. lia.
Qed.

Section BitUnit.

Variables (fmt : string) (size : nat).
Hypothesis Hsize : Struct.calcsize fmt = Ok size.

Lemma unit_fmt_not_empty : 0 < size -> String.eqb fmt "" = false.
Proof.
  intros Hpos. destruct (String.eqb fmt "") eqn:E; [|reflexivity].
  apply String.eqb_eq in E. pose proof Hsize as H. rewrite E in H.
  vm_compute in H. injection H as H. lia.
Qed.

(** The first bit field written to a fresh bit writer. *)
Lemma write_first (buffer : list pyval) (v n : Z) :
  fits (v, n) -> (n < Z.of_nat (8 * size))%Z ->
  Bits.write_to_buffer Bits.init buffer (PInt v) n fmt
  = (Ok ""%string, Bits.mkBits (str_rev (digits v n)) fmt 0, buffer).
Proof.
  intros [Hn Hv] Hlt. cbn [fst snd] in Hn, Hv.
  unfold Bits.write_to_buffer, Bits.exceeds, Bits.empty, Bits.init.
  cbn [as_index Bits._fmt Bits._field Bits._offset].
  destruct (n <? 0)%Z eqn:E; [apply Z.ltb_lt in E; lia|].
  destruct (2 ^ n <=? v)%Z eqn:E2; [apply Z.leb_le in E2; lia|].
  rewrite unit_fmt_not_empty by lia.
  cbn [negb andb Bits.str_is_empty Bits._fmt Bits._field Bits._offset format_0b_val].
  rewrite format_0b_digits by lia.
  cbn [Bits._fmt Bits._field Bits._offset append]. rewrite Hsize.
  destruct (8 * size <=? str_len (str_rev (digits v n)))%nat eqn:E3; [|reflexivity].
  apply Nat.leb_le in E3. rewrite str_rev_len, digits_len in E3 by lia. lia.
Qed.

(** A further bit field of the same unit format. *)
Lemma write_next (F : string) (off : Z) (buffer : list pyval) (v n : Z) :
  fits (v, n) ->
  Bits.write_to_buffer (Bits.mkBits F fmt off) buffer (PInt v) n fmt
  = if (8 * size <=? str_len (F ++ str_rev (digits v n)))%nat then
      match int_base2 (str_rev (str_slice (F ++ str_rev (digits v n)) 0 (8 * size))) with
      | Raise e => (Raise e, Bits.mkBits (F ++ str_rev (digits v n)) fmt off, buffer)
      | Ok unit =>
          (Ok fmt, Bits.mkBits (str_drop (F ++ str_rev (digits v n)) (8 * size)) fmt off,
           buffer ++ [PInt unit])
      end
    else (Ok ""%string, Bits.mkBits (F ++ str_rev (digits v n)) fmt off, buffer).
Proof.
  intros [Hn Hv]. cbn [fst snd] in Hn, Hv.
  unfold Bits.write_to_buffer, Bits.exceeds.
  cbn [as_index Bits._fmt Bits._field Bits._offset].
  destruct (n <? 0)%Z eqn:E; [apply Z.ltb_lt in E; lia|].
  destruct (2 ^ n <=? v)%Z eqn:E2; [apply Z.leb_le in E2; lia|].
  rewrite String.eqb_refl.
  cbn [negb format_0b_val]. rewrite format_0b_digits by lia.
  cbn [Bits._fmt Bits._field Bits._offset]. rewrite Hsize.
  destruct (8 * size <=? str_len (F ++ str_rev (digits v n)))%nat; [|reflexivity].
  destruct (int_base2 (str_rev (str_slice (F ++ str_rev (digits v n)) 0 (8 * size))));
    reflexivity.
Qed.

(** Bit fields that leave the unit open stay in the accumulator. *)
Lemma write_rest_open (buffer : list pyval) (items : list (Z * Z)) :
  forall F,
    Forall fits items ->
    (Z.of_nat (str_len F) + sum_Z (map snd items) < Z.of_nat (8 * size))%Z ->
    write_bits (Bits.mkBits F fmt 0) buffer items fmt
    = (Ok ""%string, Bits.mkBits (F ++ field_of items) fmt 0, buffer).
Proof.
  induction items as [|[v n] items IH]; intros F Hfits Hlen.
  - simpl. now rewrite str_app_nil_r.
  - inversion Hfits as [|x l Hfit Hrest]; subst.
    pose proof (sum_fits items Hrest) as Hsum.
    cbn [map sum_Z fold_right snd] in Hlen. fold (sum_Z (map snd items)) in Hlen.
    cbn [write_bits]. rewrite write_next by assumption.
    destruct Hfit as [Hn Hv]. cbn [fst snd] in Hn, Hv.
    destruct (8 * size <=? str_len (F ++ str_rev (digits v n)))%nat eqn:E.
    { apply Nat.leb_le in E. rewrite str_len_app, str_rev_len, digits_len in E by lia. lia. }
    rewrite IH; [|assumption|].
    + cbn [field_of]. now rewrite str_app_assoc.
    + rewrite str_len_app, str_rev_len, digits_len by lia. lia.
Qed.

(** The bit field that fills the unit completes it: the unit goes to the
    buffer and the accumulator is left empty. *)
Lemma write_rest_full (buffer : list pyval) (items : list (Z * Z)) :
  forall F,
    Forall fits items -> items <> [] -> binary F = true ->
    (Z.of_nat (str_len F) + sum_Z (map snd items) = Z.of_nat (8 * size))%Z ->
    exists unit,
      int_base2 (str_rev (F ++ field_of items)) = Ok unit
      /\ write_bits (Bits.mkBits F fmt 0) buffer items fmt
         = (Ok fmt, Bits.mkBits "" fmt 0, buffer ++ [PInt unit]).
Proof.
  induction items as [|[v n] items IH]; intros F Hfits Hne HF Hlen; [congruence|].
  inversion Hfits as [|x l Hfit Hrest]; subst.
  pose proof (sum_fits items Hrest) as Hsum.
  cbn [map sum_Z fold_right snd] in Hlen. fold (sum_Z (map snd items)) in Hlen.
  cbn [write_bits]. rewrite write_next by assumption.
  pose proof Hfit as [Hn Hv]. cbn [fst snd] in Hn, Hv.
  assert (Hl : str_len (F ++ str_rev (digits v n)) = str_len F + Z.to_nat n).
  { now rewrite str_len_app, str_rev_len, digits_len. }
  destruct items as [|item items].
  - cbn [map sum_Z fold_right] in Hlen.
    assert (Hfull : str_len (F ++ str_rev (digits v n)) = 8 * size) by lia.
    rewrite Hfull, Nat.leb_refl.
    unfold str_slice, str_drop. rewrite Nat.sub_0_r.
    fold (str_len (F ++ str_rev (digits v n))). rewrite Hfull, Nat.sub_diag, substring_none.
    assert (Hsub : substring 0 (8 * size) (F ++ str_rev (digits v n))
                   = (F ++ str_rev (digits v n))%string).
    { rewrite <- Hfull. apply substring_all. }
    rewrite Hsub.
    assert (Hb : binary (str_rev (F ++ str_rev (digits v n))) = true).
    { now rewrite binary_rev, binary_app, binary_rev, digits_binary, HF. }
    destruct (binary_value _ 0%Z Hb) as [unit Hunit].
    assert (Hi : int_base2 (str_rev (F ++ str_rev (digits v n))) = Ok unit).
    { apply int_base2_value; [exact Hb| |exact Hunit].
      intros Hempty. apply (f_equal str_len) in Hempty.
      rewrite str_rev_len, Hl in Hempty. simpl in Hempty. lia. }
    exists unit. cbn [field_of]. rewrite str_app_nil_r. split; [exact Hi|].
    rewrite Hi. cbn [write_bits]. now rewrite str_app_nil_r.
  - assert (Hsum' : (1 <= sum_Z (map snd (item :: items)))%Z).
    { cbn [List.length] in Hsum. lia. }
    destruct (8 * size <=? str_len (F ++ str_rev (digits v n)))%nat eqn:E.
    { apply Nat.leb_le in E. lia. }
    destruct (IH (F ++ str_rev (digits v n))%string Hrest ltac:(discriminate))
      as (unit & Hi & Hw).
    + now rewrite binary_app, binary_rev, digits_binary, HF.
    + lia.
    + exists unit. split.
      * cbn [field_of] in *. now rewrite <- str_app_assoc.
      * rewrite Hw. reflexivity.
Qed.

(** Padding out an open unit. *)
Lemma finish_open (F : string) (off : Z) (buffer : list pyval) :
  binary F = true -> F <> ""%string ->
  exists unit,
    int_base2 (str_rev (F ++ str_repeat "0" (size - str_len F))) = Ok unit
    /\ Bits.finish_field_buffer (Bits.mkBits F fmt off) buffer
       = (Ok fmt, Bits.init, buffer ++ [PInt unit]).
Proof.
  intros HF Hne.
  assert (Hb : binary (str_rev (F ++ str_repeat "0" (size - str_len F))) = true).
  { now rewrite binary_rev, binary_app, binary_zeros, HF. }
  destruct (binary_value _ 0%Z Hb) as [unit Hunit].
  assert (Hi : int_base2 (str_rev (F ++ str_repeat "0" (size - str_len F))) = Ok unit).
  { apply int_base2_value; [exact Hb| |exact Hunit].
    intros Hempty. apply (f_equal str_len) in Hempty.
    rewrite str_rev_len, str_len_app in Hempty.
    destruct F; [congruence|]. simpl in Hempty. lia. }
  exists unit. split; [exact Hi|].
  unfold Bits.finish_field_buffer, format_pad_right0.
  cbn [Bits._fmt Bits._field]. rewrite Hsize, Hi. reflexivity.
Qed.

(** The digits of a unit, reversed, are the accumulator it was made from,
    padded with zeros. *)
Lemma unit_digits (mx : Z) (P : string) (unit : Z) :
  (2 ^ Z.of_nat (8 * size) - 1 <= mx)%Z ->
  binary P = true -> P <> ""%string -> str_len P <= 8 * size ->
  int_base2 (str_rev P) = Ok unit ->
  (unit <= mx)%Z
  /\ exists D, format_0b unit (Z.of_nat (8 * size)) = Ok D
               /\ str_rev D = (P ++ str_repeat "0" (8 * size - str_len P))%string.
Proof.
  intros Hmx HP Hne Hlen Hi.
  assert (Hb : binary (str_rev P) = true) by now rewrite binary_rev.
  assert (Hne' : str_rev P <> ""%string).
  { intros Hempty. apply (f_equal str_len) in Hempty. rewrite str_rev_len in Hempty.
    destruct P; [congruence|discriminate]. }
  destruct (binary_value _ 0%Z Hb) as [z Hz].
  rewrite (int_base2_value _ _ Hb Hne' Hz) in Hi. injection Hi as <-.
  pose proof (bin_value_bound _ _ _ (Z.le_refl 0) Hz) as Hbound.
  rewrite str_rev_len in Hbound.
  assert (Hpow : (2 ^ Z.of_nat (str_len P) <= 2 ^ Z.of_nat (8 * size))%Z).
  { apply Z.pow_le_mono_r; lia. }
  split; [lia|].
  exists (digits z (Z.of_nat (8 * size))). split; [apply format_0b_digits; lia|].
  unfold digits. rewrite Nat2Z.id.
  rewrite (pad_digits_value (8 * size) (str_rev P) z Hb Hne') by
    (try rewrite str_rev_len; assumption).
  now rewrite str_rev_app, str_rev_involutive, str_rev_repeat, str_rev_len.
Qed.

(** Slicing one bit field out of a unit. *)
Lemma take_ok (A T : string) (v n : Z) :
  fits (v, n) ->
  str_len (A ++ str_rev (digits v n) ++ T) = 8 * size ->
  Bits.take_bits (Bits.mkBits (A ++ str_rev (digits v n) ++ T) fmt (Z.of_nat (str_len A)))
    n (8 * size)
  = (Ok v,
     if ((Z.of_nat (str_len A) + n) mod Z.of_nat (8 * size) =? 0)%Z
     then Bits.mkBits "" fmt 0
     else Bits.mkBits (A ++ str_rev (digits v n) ++ T) fmt (Z.of_nat (str_len A) + n)).
Proof.
  intros Hfit Hlen. pose proof Hfit as [Hn Hv]. cbn [fst snd] in Hn, Hv.
  pose proof (digits_len v n Hn Hv) as Hd.
  pose proof Hlen as Hlen'. rewrite !str_len_app, str_rev_len, Hd in Hlen'.
  unfold Bits.take_bits, str_slice_z, slice_index, str_slice.
  cbn [Bits._fmt Bits._field Bits._offset].
  fold (str_len (A ++ str_rev (digits v n) ++ T)). rewrite Hlen.
  destruct (Z.of_nat (str_len A) <? 0)%Z eqn:E; [apply Z.ltb_lt in E; lia|].
  destruct (Z.of_nat (str_len A) + n <? 0)%Z eqn:E2; [apply Z.ltb_lt in E2; lia|].
  rewrite Nat2Z.id.
  replace (Nat.min (str_len A) (8 * size)) with (str_len A) by lia.
  replace (Nat.min (Z.to_nat (Z.of_nat (str_len A) + n)) (8 * size) - str_len A)
    with (str_len (str_rev (digits v n))) by (rewrite str_rev_len, Hd; lia).
  rewrite substring_skip, substring_prefix, str_rev_involutive.
  assert (Hi : int_base2 (digits v n) = Ok v).
  { apply int_base2_value; [apply digits_binary| |apply digits_value; lia].
    intros Hempty. rewrite Hempty in Hd. simpl in Hd. lia. }
  rewrite Hi. destruct (8 * size) eqn:Es; [lia|]. reflexivity.
Qed.

(** Reading a bit field from a unit already taken off the buffer. *)
Lemma read_next (G : string) (off : Z) (buffer : list pyval) (n : Z) :
  G <> ""%string -> (off + n <= Z.of_nat (8 * size))%Z ->
  Bits.read_list_buffer (Bits.mkBits G fmt off) buffer n fmt
  = (let '(r, b') := Bits.take_bits (Bits.mkBits G fmt off) n (8 * size) in (r, b', buffer)).
Proof.
  intros Hne Hlen. unfold Bits.read_list_buffer, Bits.needs_new_unit.
  rewrite Hsize. cbn [Bits._fmt Bits._field Bits._offset].
  rewrite String.eqb_refl.
  destruct G; [congruence|]. cbn [Bits.str_is_empty negb orb].
  destruct (Z.of_nat (8 * size) <? off + n)%Z eqn:E; [apply Z.ltb_lt in E; lia|].
  reflexivity.
Qed.

(** Reading the first bit field takes the unit off the buffer. *)
Lemma read_first (mx : Z) (buffer : list pyval) (unit : Z) (D : string) (n : Z) :
  TypeInfo.fmt_max fmt = Ok mx ->
  (unit <= mx)%Z -> format_0b unit (Z.of_nat (8 * size)) = Ok D ->
  Bits.read_list_buffer Bits.init (buffer ++ [PInt unit]) n fmt
  = (let '(r, b') := Bits.take_bits (Bits.mkBits (str_rev D) fmt 0) n (8 * size) in
     (r, b', buffer)).
Proof.
  intros Hmax Hle HD. unfold Bits.read_list_buffer, Bits.needs_new_unit.
  unfold Bits.init.
  rewrite Hsize. cbn [Bits._fmt Bits._field Bits._offset Bits.str_is_empty orb].
  rewrite list_pop_snoc, Hmax. cbn [as_index format_0b_val].
  destruct (mx <? unit)%Z eqn:E; [apply Z.ltb_lt in E; lia|].
  rewrite HD. reflexivity.
Qed.

(** Reading the bit fields that follow in the unit. *)
Lemma read_rest (buffer : list pyval) (T : string) (items : list (Z * Z)) :
  forall A,
    Forall fits items ->
    str_len (A ++ field_of items ++ T) = 8 * size ->
    exists b',
      read_bits (Bits.mkBits (A ++ field_of items ++ T) fmt (Z.of_nat (str_len A)))
        buffer (map snd items) fmt
      = (Ok (map fst items), b', buffer).
Proof.
  induction items as [|[v n] items IH]; intros A Hfits Hlen.
  - eexists. reflexivity.
  - inversion Hfits as [|x l Hfit Hrest]; subst.
    pose proof Hfit as [Hn Hv]. cbn [fst snd] in Hn, Hv.
    pose proof (digits_len v n Hn Hv) as Hd.
    cbn [field_of] in *. rewrite str_app_assoc in *.
    pose proof Hlen as Hlen'. rewrite !str_len_app, str_rev_len, Hd in Hlen'.
    cbn [map fst snd read_bits].
    rewrite read_next.
    2:{ intros Hempty. rewrite Hempty in Hlen. simpl in Hlen. lia. }
    2:{ lia. }
    rewrite take_ok by assumption.
    destruct ((Z.of_nat (str_len A) + n) mod Z.of_nat (8 * size) =? 0)%Z eqn:Emod.
    + apply Z.eqb_eq in Emod.
      assert (Hfull : (Z.of_nat (str_len A) + n = Z.of_nat (8 * size))%Z).
      { destruct (Z.eq_dec (Z.of_nat (str_len A) + n) (Z.of_nat (8 * size))) as [|Hneq];
          [assumption|].
        rewrite Z.mod_small in Emod by lia. lia. }
      pose proof (sum_fits items Hrest) as Hsum.
      rewrite <- (field_of_len items Hrest) in Hsum.
      destruct items as [|item items]; [|cbn [List.length] in Hsum; lia].
      eexists. reflexivity.
    + destruct (IH (A ++ str_rev (digits v n))%string Hrest) as [b' Hb'].
      { now rewrite str_app_assoc. }
      rewrite str_app_assoc in Hb'.
      rewrite str_len_app, str_rev_len, Hd in Hb'.
      replace (Z.of_nat (str_len A + Z.to_nat n)) with (Z.of_nat (str_len A) + n)%Z in Hb'
        by lia.
      rewrite Hb'. eexists. reflexivity.
Qed.

(** One unit is written for bit fields that fit one unit: the unit is
    the value of the accumulator, reversed, padded with zeros or not. *)
Lemma write_unit_ok (buffer : list pyval) (v n : Z) (items : list (Z * Z)) :
  Forall fits ((v, n) :: items) ->
  (n < Z.of_nat (8 * size))%Z ->
  (sum_Z (map snd ((v, n) :: items)) <= Z.of_nat (8 * size))%Z ->
  exists unit j,
    write_unit buffer ((v, n) :: items) fmt = Ok (fmt, buffer ++ [PInt unit])
    /\ int_base2 (str_rev (field_of ((v, n) :: items) ++ str_repeat "0" j)) = Ok unit
    /\ str_len (field_of ((v, n) :: items)) + j <= 8 * size.
Proof.
  intros Hfits Hn Hsum.
  inversion Hfits as [|x l Hfit Hrest]; subst.
  pose proof Hfit as [Hn1 Hv]. cbn [fst snd] in Hn1, Hv.
  pose proof (digits_len v n Hn1 Hv) as Hd.
  pose proof (field_of_len _ Hfits) as Hlen.
  cbn [map sum_Z fold_right snd] in Hsum. fold (sum_Z (map snd items)) in Hsum.
  cbn [map sum_Z fold_right snd] in Hlen. fold (sum_Z (map snd items)) in Hlen.
  assert (HF : binary (str_rev (digits v n)) = true)
    by now rewrite binary_rev, digits_binary.
  unfold write_unit. cbn [write_bits]. rewrite write_first by assumption.
  destruct (Z.eq_dec (n + sum_Z (map snd items)) (Z.of_nat (8 * size))) as [Hfull|Hopen].
  - assert (Hne : items <> []).
    { intros ->. cbn [map sum_Z fold_right] in Hfull. lia. }
    destruct (write_rest_full buffer items (str_rev (digits v n)) Hrest Hne HF)
      as (unit & Hi & Hw).
    { rewrite str_rev_len, Hd. lia. }
    rewrite Hw. cbn [Bits.empty Bits._field append].
    exists unit, 0. split; [reflexivity|]. split.
    + cbn [field_of str_repeat]. now rewrite str_app_nil_r.
    + lia.
  - rewrite write_rest_open; [|assumption|rewrite str_rev_len, Hd; lia].
    assert (Hne : (str_rev (digits v n) ++ field_of items)%string <> ""%string).
    { intros Hempty. apply (f_equal str_len) in Hempty.
      rewrite str_len_app, str_rev_len, Hd in Hempty. simpl in Hempty. lia. }
    destruct (finish_open (str_rev (digits v n) ++ field_of items) 0 buffer) as (unit & Hi & Hw).
    { now rewrite binary_app, HF, field_of_binary. }
    { exact Hne. }
    assert (Hfalse : Bits.empty (Bits.mkBits (str_rev (digits v n) ++ field_of items) fmt 0)
                     = false).
    { unfold Bits.empty. cbn [Bits._field].
      now destruct (str_rev (digits v n) ++ field_of items)%string. }
    rewrite Hfalse, Hw. cbn [append].
    exists unit, (size - str_len (str_rev (digits v n) ++ field_of items)).
    split; [reflexivity|]. split; [exact Hi|].
    change (str_rev (digits v n) ++ field_of items)%string
      with (field_of ((v, n) :: items)).
    lia.
Qed.

End BitUnit.

(** X19.  Bit fields written into one unit are read back: for a unit
    format whose largest value has all the bits of the unit set, values
    that fit their bit counts (each of at least one bit, the first
    narrower than the unit, together no wider than the unit) are written
    by [write_to_buffer], with the unit padded out when it is left open,
    as exactly one integer of that format, and [read_list_buffer] with
    the same bit counts takes that integer off the list and returns the
    values. *)
Theorem bit_unit_round_trip (fmt : string) (size : nat) (mx : Z) (buffer : list pyval)
  (v n : Z) (items : list (Z * Z)) :
  Struct.calcsize fmt = Ok size ->
  TypeInfo.fmt_max fmt = Ok mx ->
  (2 ^ Z.of_nat (8 * size) - 1 <= mx)%Z ->
  Forall fits ((v, n) :: items) ->
  (n < Z.of_nat (8 * size))%Z ->
  (sum_Z (map snd ((v, n) :: items)) <= Z.of_nat (8 * size))%Z ->
  exists unit b',
    write_unit buffer ((v, n) :: items) fmt = Ok (fmt, buffer ++ [PInt unit])
    /\ read_bits Bits.init (buffer ++ [PInt unit]) (map snd ((v, n) :: items)) fmt
       = (Ok (map fst ((v, n) :: items)), b', buffer).
Proof.
  intros Hsize Hmax Hmx Hfits Hn Hsum.
  destruct (write_unit_ok fmt size Hsize buffer v n items Hfits Hn Hsum)
    as (unit & j & Hw & Hi & Hj).
  inversion Hfits as [|x l Hfit Hrest]; subst.
  pose proof Hfit as [Hn1 Hv]. cbn [fst snd] in Hn1, Hv.
  pose proof (digits_len v n Hn1 Hv) as Hd.
  set (P := (field_of ((v, n) :: items) ++ str_repeat "0" j)%string) in *.
  assert (HP : binary P = true).
  { subst P. now rewrite binary_app, field_of_binary, binary_zeros. }
  assert (HlenP : str_len P = str_len (field_of ((v, n) :: items)) + j).
  { subst P. now rewrite str_len_app, str_repeat_len. }
  assert (HneP : P <> ""%string).
  { intros Hempty. apply (f_equal str_len) in Hempty. rewrite HlenP in Hempty.
    cbn [field_of] in Hempty. rewrite str_len_app, str_rev_len, Hd in Hempty.
    simpl in Hempty. lia. }
  destruct (unit_digits size mx P unit Hmx HP HneP ltac:(lia) Hi)
    as (Hle & D & HD & Hrev).
  assert (HG : str_rev D
               = (str_rev (digits v n) ++ field_of items
                  ++ str_repeat "0" (j + (8 * size - str_len P)))%string).
  { rewrite Hrev. subst P. cbn [field_of].
    now rewrite !str_app_assoc, str_repeat_app. }
  assert (HlenG : str_len (str_rev (digits v n) ++ field_of items
                           ++ str_repeat "0" (j + (8 * size - str_len P))) = 8 * size).
  { rewrite !str_len_app, str_repeat_len, str_rev_len, Hd.
    rewrite HlenP in *. cbn [field_of] in Hj.
    rewrite str_len_app, str_rev_len, Hd in Hj. cbn [field_of].
    rewrite str_len_app, str_rev_len, Hd. lia. }
  destruct (read_rest fmt size Hsize buffer
              (str_repeat "0" (j + (8 * size - str_len P))) items
              (str_rev (digits v n)) Hrest HlenG) as [b' Hb'].
  exists unit, b'. split; [exact Hw|].
  cbn [map fst snd read_bits].
  rewrite (read_first fmt size Hsize mx buffer unit D n Hmax Hle HD), HG.
  pose proof (take_ok fmt size ""%string
                (field_of items ++ str_repeat "0" (j + (8 * size - str_len P)))
                v n Hfit) as Htake.
  cbn [append str_len String.length Z.of_nat Z.add] in Htake.
  rewrite Htake by exact HlenG.
  destruct (n mod Z.of_nat (8 * size) =? 0)%Z eqn:Emod.
  { apply Z.eqb_eq in Emod. rewrite Z.mod_small in Emod by lia. lia. }
  rewrite str_rev_len, Hd in Hb'.
  replace (Z.of_nat (Z.to_nat n)) with n in Hb' by lia.
  rewrite Hb'. reflexivity.
Qed.

Lemma bit_unit_round_trip_witness :
  exists unit b',
    write_unit [PInt 7] [(5, 3); (3, 3); (1, 2)]%Z "B" = Ok ("B", [PInt 7] ++ [PInt unit])
    /\ read_bits Bits.init ([PInt 7] ++ [PInt unit]) (map snd [(5, 3); (3, 3); (1, 2)]%Z) "B"
       = (Ok (map fst [(5, 3); (3, 3); (1, 2)]%Z), b', [PInt 7]).
Proof.
  apply (bit_unit_round_trip "B" 1 255 [PInt 7] 5 3 [(3, 3); (1, 2)]%Z).
  - reflexivity.
  - reflexivity.
  - vm_compute. discriminate.
  - repeat constructor; vm_compute; congruence.
  - vm_compute. reflexivity.
  - vm_compute. discriminate.
Defined.

(** X20.  A bit field at least as wide as its unit can never be the
    first one written in that unit format: on a fresh bit writer, [write]
    and [write_to_buffer] raise the error of an exceeded new bit field for
    a value that fits its bit count, leaving nothing written or appended
    but the bits of the value in the accumulator. *)
Theorem first_field_cannot_fill_unit (fmt : string) (size : nat) (buffer : list pyval)
  (w : Writer.BinaryWriter) (v n : Z) :
  Struct.calcsize fmt = Ok size -> 0 < size ->
  fits (v, n) -> (Z.of_nat (8 * size) <= n)%Z ->
  Bits.write_to_buffer Bits.init buffer (PInt v) n fmt
  = (Raise Bits.exceeded_new, Bits.mkBits (str_rev (digits v n)) fmt 0, buffer)
  /\ Bits.write Bits.init w (PInt v) n fmt
     = (Raise Bits.exceeded_new, Bits.mkBits (str_rev (digits v n)) fmt 0, w).
Proof.
  intros Hsize Hpos [Hn Hv] Hfull. cbn [fst snd] in Hn, Hv.
  pose proof (unit_fmt_not_empty fmt size Hsize Hpos) as Hfmt.
  assert (Hlen : (8 * size <=? str_len (str_rev (digits v n)))%nat = true).
  { apply Nat.leb_le. rewrite str_rev_len, digits_len by lia. lia. }
  split.
  - unfold Bits.write_to_buffer, Bits.exceeds, Bits.empty, Bits.init.
    cbn [as_index Bits._fmt Bits._field Bits._offset].
    destruct (n <? 0)%Z eqn:E; [apply Z.ltb_lt in E; lia|].
    destruct (2 ^ n <=? v)%Z eqn:E2; [apply Z.leb_le in E2; lia|].
    rewrite Hfmt.
    cbn [negb andb Bits.str_is_empty Bits._fmt Bits._field Bits._offset format_0b_val].
    rewrite format_0b_digits by lia.
    cbn [Bits._fmt Bits._field Bits._offset append]. rewrite Hsize, Hlen. reflexivity.
  - unfold Bits.write, Bits.exceeds, Bits.init.
    cbn [as_index Bits._fmt Bits._field Bits._offset].
    destruct (n <? 0)%Z eqn:E; [apply Z.ltb_lt in E; lia|].
    destruct (2 ^ n <=? v)%Z eqn:E2; [apply Z.leb_le in E2; lia|].
    rewrite Hfmt.
    cbn [negb andb Bits.str_is_empty Bits._fmt Bits._field Bits._offset format_0b_val].
    rewrite format_0b_digits by lia.
    cbn [Bits._fmt Bits._field Bits._offset append]. rewrite Hsize, Hlen. reflexivity.
Qed.

Lemma first_field_cannot_fill_unit_witness :
  Bits.write_to_buffer Bits.init [] (PInt 200) 8 "B"
  = (Raise Bits.exceeded_new, Bits.mkBits (str_rev (digits 200 8)) "B" 0, [])
  /\ Bits.write Bits.init (Writer.init LittleEndian (Some true)) (PInt 200) 8 "B"
     = (Raise Bits.exceeded_new, Bits.mkBits (str_rev (digits 200 8)) "B" 0,
        Writer.init LittleEndian (Some true)).
Proof.
  apply (first_field_cannot_fill_unit "B" 1 [] (Writer.init LittleEndian (Some true)) 200 8).
  - reflexivity.
  - lia.
  - split; simpl; lia.
  - simpl. lia.
Defined.

(* ===================================================================== *)
(** * The byte order arguments and a stream passed in *)
(* ===================================================================== *)

Lemma unpack_at_same (r : Reader.BinaryReader) (fmt : string) (offset : option nat)
  (relative_offset : bool) (asserted : option (list pyval))
  (res : result (list pyval)) (r' : Reader.BinaryReader) :
  Reader.unpack_at r fmt offset relative_offset asserted = (res, r') ->
  Reader.seek r' 0 = Reader.seek r 0.
Proof.
  unfold Reader.unpack_at, Reader.buffer_read. intros H.
  break_hyp H; injection H as _ <-; reflexivity.
Qed.

Lemma unpack_value_same (r : Reader.BinaryReader) (fmt : string)
  (res : result pyval) (r' : Reader.BinaryReader) :
  Reader.unpack_value r fmt = (res, r') -> Reader.seek r' 0 = Reader.seek r 0.
Proof.
  unfold Reader.unpack_value, Reader.unpack.
  destruct (Reader.unpack_at r fmt None false None) as [res0 r0] eqn:Hu.
  apply unpack_at_same in Hu. intros H.
  break_hyp H; injection H as _ <-; exact Hu.
Qed.

Lemma bits_read_same (b : Bits.BitField) (r : Reader.BinaryReader) (bit_count : Z)
  (fmt : string) (res : result Z) (b' : Bits.BitField) (r' : Reader.BinaryReader) :
  Bits.read b r bit_count fmt = (res, b', r') -> Reader.seek r' 0 = Reader.seek r 0.
Proof.
  unfold Bits.read, Reader.getitem. intros H.
  destruct (Struct.calcsize fmt) as [size|e]; [|now injection H as _ _ <-].
  destruct (Bits.needs_new_unit b bit_count fmt (8 * size)).
  - destruct (Reader.unpack_value r fmt) as [res0 r0] eqn:Hu.
    apply unpack_value_same in Hu.
    break_hyp H; injection H as _ _ <-; exact Hu.
  - break_hyp H; now injection H as _ _ <-.
Qed.

Lemma unpack_field_same (c : BinaryStruct.StructClass) (lv : option bool)
  (st st' : BinaryStruct.UnpackState) (f : BinaryStruct.Field) (res : result unit) :
  BinaryStruct.unpack_field c lv st f = (res, st') ->
  Reader.seek (BinaryStruct.us_reader st') 0 = Reader.seek (BinaryStruct.us_reader st) 0.
Proof.
  unfold BinaryStruct.unpack_field, BinaryStruct.finish_bit_value.
  set (st0 := if (Metadata.bit_count (BinaryStruct.metadata f) =? -1)%Z
                 && negb (Bits.empty (BinaryStruct.us_bit_reader st))
              then BinaryStruct.with_io st (BinaryStruct.us_reader st)
                     (Bits.clear (BinaryStruct.us_bit_reader st))
                     (BinaryStruct.us_struct_output st)
              else st).
  assert (H0 : BinaryStruct.us_reader st0 = BinaryStruct.us_reader st).
  { subst st0. now destruct (_ && _). }
  rewrite <- H0. clearbody st0. clear H0.
  destruct (BinaryStruct.skips (BinaryStruct.metadata f) lv
              (BinaryStruct.us_all_field_values st0)).
  { intros H; now injection H as _ <-. }
  destruct (negb (Metadata.bit_count (BinaryStruct.metadata f) =? -1)%Z).
  - destruct (BinaryStruct.us_struct_output st0) as [out|].
    + intros H. break_hyp H; injection H as _ <-; reflexivity.
    + destruct (Bits.read (BinaryStruct.us_bit_reader st0) (BinaryStruct.us_reader st0)
                  (Metadata.bit_count (BinaryStruct.metadata f))
                  (Metadata.fmt (BinaryStruct.metadata f))) as [[res0 b0] r0] eqn:Hr.
      apply bits_read_same in Hr. intros H.
      break_hyp H; injection H as _ <-; exact Hr.
  - destruct (BinaryStruct.us_struct_output st0) as [out|].
    + intros H. break_hyp H; injection H as _ <-; reflexivity.
    + unfold Reader.unpack.
      destruct (Reader.unpack_at (BinaryStruct.us_reader st0)
                  (Metadata.fmt (BinaryStruct.metadata f)) None false None)
        as [res0 r0] eqn:Hu.
      apply unpack_at_same in Hu. intros H.
      break_hyp H; injection H as _ <-; exact Hu.
Qed.

Lemma unpack_fields_same (c : BinaryStruct.StructClass) (lv : option bool)
  (fields : list BinaryStruct.Field) :
  forall st st' res,
    BinaryStruct.unpack_fields c lv fields st = (res, st') ->
    Reader.seek (BinaryStruct.us_reader st') 0 = Reader.seek (BinaryStruct.us_reader st) 0.
Proof.
  induction fields as [|f fields IH]; intros st st' res; cbn [BinaryStruct.unpack_fields].
  - intros H; now injection H as _ <-.
  - destruct (BinaryStruct.unpack_field c lv st f) as [[u|e] st1] eqn:Hstep;
      apply unpack_field_same in Hstep.
    + intros H. apply IH in H. congruence.
    + intros H. injection H as _ <-. exact Hstep.
Qed.

Lemma bulk_unpack_same (c : BinaryStruct.StructClass) (r r' : Reader.BinaryReader)
  (full_fmt : string) (res : result unit) (out : option (list pyval)) :
  BinaryStruct.bulk_unpack c r full_fmt = (res, r', out) ->
  Reader.seek r' 0 = Reader.seek r 0.
Proof.
  unfold BinaryStruct.bulk_unpack, Reader.unpack.
  destruct (negb (BinaryStruct.careful_unpack_mode c)).
  - destruct (Reader.unpack_at r full_fmt None false None) as [res0 r0] eqn:Hu.
    apply unpack_at_same in Hu. intros H.
    break_hyp H; injection H as _ <- _; exact Hu.
  - intros H; now injection H as _ <- _.
Qed.

Lemma byte_order_eqb_refl (b : ByteOrder) : ByteOrderM.eqb b b = true.
Proof. now destruct b. Qed.

Lemma same_byte_order (r r' : Reader.BinaryReader) :
  Reader.seek r' 0 = Reader.seek r 0 ->
  Reader.with_byte_order r' (Reader.default_byte_order r) = r'.
Proof.
  intros H. apply (f_equal Reader.default_byte_order) in H. simpl in H.
  rewrite <- H. now destruct r'.
Qed.

(** X22.  [from_bytes] does not apply its byte order argument to a reader
    passed in: the data is decoded with the reader's own default byte
    order, exactly as without the argument, and the reader is left the
    same; only the [byte_order] attribute of the instance returned is the
    one given. *)
Theorem from_bytes_ignores_byte_order (c : BinaryStruct.StructClass)
  (r : Reader.BinaryReader) (b : ByteOrder) (long_varints : option bool) (new_id : Z) :
  BinaryStruct.from_bytes c (inr r) (Some b) long_varints new_id
  = (match fst (BinaryStruct.from_bytes c (inr r) None long_varints new_id) with
     | Ok instance => Ok (BinaryStruct.set_flags instance (Some b) None)
     | Raise e => Raise e
     end,
     snd (BinaryStruct.from_bytes c (inr r) None long_varints new_id)).
Proof.
  unfold BinaryStruct.from_bytes, BinaryStruct.resolve_byte_order, BinaryStruct.open_reader.
  rewrite byte_order_eqb_refl. cbn [negb].
  destruct (BinaryStruct.get_full_fmt c None None) as [full_fmt|e]; [|reflexivity].
  destruct (BinaryStruct.bulk_unpack c r full_fmt) as [[[u|e] r0] out] eqn:Hbulk;
    [|reflexivity].
  apply bulk_unpack_same in Hbulk.
  destruct (BinaryStruct.unpack_fields c
              (BinaryStruct.resolve_long_varints long_varints (inr r))
              (BinaryStruct._FIELDS c)
              (BinaryStruct.mkUnpackState r0 Bits.init out [] [] [])) as [[u'|e] st] eqn:Hloop;
    [|reflexivity].
  apply unpack_fields_same in Hloop. cbn [BinaryStruct.us_reader] in Hloop.
  unfold BinaryStruct.finish_instance.
  destruct (BinaryStruct.construct c (BinaryStruct.us_init_values st) new_id)
    as [instance|e]; [|reflexivity].
  cbn [fst snd BinaryStruct.set_flags BinaryStruct.cls BinaryStruct.self_id
       BinaryStruct.attrs BinaryStruct.byte_order BinaryStruct.long_varints].
  f_equal.
  destruct (negb (ByteOrderM.eqb b (Reader.default_byte_order r))); [|reflexivity].
  apply same_byte_order. congruence.
Qed.

Lemma pack_field_byte_order (c : BinaryStruct.StructClass) (lv : option bool)
  (fv : dict pyval) (start : nat) (bo bo' : ByteOrder) (obj : pyobj)
  (st : BinaryStruct.PackState) (f : BinaryStruct.Field) :
  left_reserved lv fv f = false ->
  BinaryStruct.pack_field c lv fv start bo obj st f (value_for fv f)
  = BinaryStruct.pack_field c lv fv start bo' obj st f (value_for fv f).
Proof.
  unfold BinaryStruct.pack_field, left_reserved, is_ordinary. intros Hleft.
  destruct (BinaryStruct.NOT_BINARY f); [reflexivity|].
  destruct (BinaryStruct.skips (BinaryStruct.metadata f) lv fv); [reflexivity|].
  destruct (Metadata.bit_count (BinaryStruct.metadata f) =? -1)%Z;
    cbn [negb andb] in *.
  - rewrite Hleft. reflexivity.
  - reflexivity.
Qed.

Lemma pack_fields_byte_order (c : BinaryStruct.StructClass) (lv : option bool)
  (fv : dict pyval) (start : nat) (bo bo' : ByteOrder) (obj : pyobj)
  (fields : list BinaryStruct.Field) :
  Forall (fun f => left_reserved lv fv f = false) fields ->
  forall st,
    BinaryStruct.pack_fields c lv fv start bo obj fields st
    = BinaryStruct.pack_fields c lv fv start bo' obj fields st.
Proof.
  induction 1 as [|f fields Hf _ IH]; intros st; [reflexivity|].
  cbn [BinaryStruct.pack_fields]. fold (value_for fv f).
  rewrite (pack_field_byte_order c lv fv start bo bo' obj st f Hf).
  destruct (BinaryStruct.pack_field c lv fv start bo' obj st f (value_for fv f))
    as [[u|e] st1]; [apply IH|reflexivity].
Qed.

(** X23.  [to_writer] does not apply its byte order argument to a writer
    passed in: when no field is left reserved, the outcome and the writer
    are the same whatever byte order is given, the struct being packed
    with the writer's own default byte order. *)
Theorem to_writer_ignores_byte_order (self : BinaryStruct.Instance)
  (w : Writer.BinaryWriter) (reserve_obj : option pyobj) (b b' : ByteOrder) :
  Forall (fun f => left_reserved (flag_for self (Some w)) (values_of self) f = false)
    (BinaryStruct._FIELDS (BinaryStruct.cls self)) ->
  BinaryStruct.to_writer self (Some w) reserve_obj (Some b)
  = BinaryStruct.to_writer self (Some w) reserve_obj (Some b').
Proof.
  intros Hall. unfold BinaryStruct.to_writer, flag_for, values_of in *.
  cbv beta iota zeta.
  now rewrite (pack_fields_byte_order _ _ _ _ b b' _ _ Hall).
Qed.

Lemma to_writer_ignores_byte_order_witness :
  BinaryStruct.to_writer (hdr (PInt 3)) (Some (Writer.init LittleEndian (Some true)))
    None (Some BigEndian)
  = BinaryStruct.to_writer (hdr (PInt 3)) (Some (Writer.init LittleEndian (Some true)))
      None (Some LittleEndian).
Proof.
  apply (to_writer_ignores_byte_order (hdr (PInt 3))
           (Writer.init LittleEndian (Some true)) None BigEndian LittleEndian).
  repeat constructor.
Defined.

(* ===================================================================== *)
(** * Integers packed and unpacked *)
(* ===================================================================== *)

Lemma Z_of_byte_of_Z (z : Z) : Z_of_byte (byte_of_Z z) = (z mod 256)%Z.
Proof.
  unfold Z_of_byte, byte_of_Z.
  assert (Hr : (0 <= z mod 256 < 256)%Z) by (apply Z.mod_pos_bound; lia).
  destruct (Byte.of_N (Z.to_N (z mod 256))) as [b|] eqn:E.
  - apply Byte.to_of_N in E. rewrite E. lia.
  - apply Byte.of_N_None_iff in E. lia.
Qed.

Lemma le_bytes_len (k : nat) : forall z, List.length (Struct.le_bytes k z) = k.
Proof. induction k as [|k IH]; intros z; simpl; [reflexivity|now rewrite IH]. Qed.

Lemma le_value_le_bytes (k : nat) :
  forall z, Struct.le_value (Struct.le_bytes k z) = (z mod 2 ^ (8 * Z.of_nat k))%Z.
Proof.
  induction k as [|k IH]; intros z.
  - simpl. now rewrite Z.mod_1_r.
  - cbn [Struct.le_bytes Struct.le_value]. rewrite IH, Z_of_byte_of_Z.
    replace (8 * Z.of_nat (S k))%Z with (8 + 8 * Z.of_nat k)%Z by lia.
    rewrite Z.pow_add_r by lia. change (2 ^ 8)%Z with 256%Z.
    rewrite Z.rem_mul_r; [reflexivity|lia|apply Z.pow_pos_nonneg; lia].
Qed.

Lemma int_bytes_len (e : Struct.endianness) (k : nat) (z : Z) :
  List.length (Struct.int_bytes e k z) = k.
Proof. destruct e; simpl; [|rewrite length_rev]; apply le_bytes_len. Qed.

Lemma int_value_int_bytes (e : Struct.endianness) (signed : bool) (k : nat) (z : Z) :
  Struct.in_range signed k z = true ->
  Struct.int_value e signed (Struct.int_bytes e k z) = z.
Proof.
  unfold Struct.in_range, Struct.int_value. intros Hr.
  rewrite int_bytes_len.
  assert (Hu : Struct.le_value
                 (match e with
                  | Struct.LittleE => Struct.int_bytes e k z
                  | Struct.BigE => rev (Struct.int_bytes e k z)
                  end) = (z mod 2 ^ (8 * Z.of_nat k))%Z).
  { destruct e; simpl; [|rewrite rev_involutive]; apply le_value_le_bytes. }
  rewrite Hu. clear Hu.
  assert (Hm : (0 < 2 ^ (8 * Z.of_nat k))%Z) by (apply Z.pow_pos_nonneg; lia).
  revert Hr Hm. generalize (2 ^ (8 * Z.of_nat k))%Z. intros m Hr Hm.
  destruct signed; cbn [andb].
  - apply andb_true_iff in Hr. destruct Hr as [Hlo Hhi].
    apply Z.leb_le in Hlo. apply Z.ltb_lt in Hhi.
    destruct (Z_lt_le_dec z 0) as [Hneg|Hpos].
    + assert (Hmod : (z mod m = z + m)%Z).
      { symmetry. apply Z.mod_unique with (q := (-1)%Z); lia. }
      rewrite Hmod.
      destruct (m <=? 2 * (z + m))%Z eqn:E; [lia|apply Z.leb_gt in E; lia].
    + rewrite Z.mod_small by lia.
      destruct (m <=? 2 * z)%Z eqn:E; [apply Z.leb_le in E; lia|reflexivity].
  - apply andb_true_iff in Hr. destruct Hr as [Hlo Hhi].
    apply Z.leb_le in Hlo. apply Z.ltb_lt in Hhi.
    now rewrite Z.mod_small by lia.
Qed.

Lemma pad_code_size (a : Struct.alignment) (c : ascii) (en : Struct.entry) :
  Struct.code_entry a c = Some en -> Struct.e_kind en = Struct.KPad ->
  Struct.e_size en = 1.
Proof.
  unfold Struct.code_entry. intros H Hk.
  repeat match type of H with
         | (if ?b then _ else _) = _ => destruct b
         | match ?x with _ => _ end = _ => destruct x
         end;
    try discriminate H; injection H as <-; try discriminate Hk; reflexivity.
Qed.

Lemma zeros_len (n : nat) : List.length (zeros n) = n.
Proof. apply repeat_length. Qed.

Lemma skipn_app_exact {A : Type} (l1 l2 : list A) (n : nat) :
  List.length l1 = n -> skipn n (l1 ++ l2) = l2.
Proof. intros <-. rewrite skipn_app, skipn_all, Nat.sub_diag. reflexivity. Qed.

Lemma firstn_app_exact {A : Type} (l1 l2 : list A) (n : nat) :
  List.length l1 = n -> firstn n (l1 ++ l2) = l1.
Proof.
  intros <-. rewrite firstn_app, firstn_all, Nat.sub_diag. simpl. apply app_nil_r.
Qed.

(** Integers packed under an integer code are unpacked as they were. *)
Lemma pack_many_ints (e : Struct.endianness) (en : Struct.entry) (signed : bool) (n : nat) :
  Struct.e_kind en = Struct.KInt signed ->
  forall zs bs rest,
    Struct.pack_many e en n (map PInt zs) = Ok (bs, rest) ->
    List.length bs = n * Struct.e_size en
    /\ rest = map PInt (skipn n zs)
    /\ n <= List.length zs
    /\ forall tail,
         Struct.unpack_many e en n (bs ++ tail) = Ok (map PInt (firstn n zs)).
Proof.
  intros Hk. induction n as [|n IH]; intros zs bs rest H.
  - simpl in H. injection H as <- <-. repeat split; simpl; lia.
  - destruct zs as [|z zs]; [discriminate|].
    cbn [Struct.pack_many map] in H. unfold Struct.pack_one in H.
    rewrite Hk in H. cbn [as_index] in H.
    destruct (Struct.in_range signed (Struct.e_size en) z) eqn:Hr; [|discriminate].
    cbn [bind] in H.
    destruct (Struct.pack_many e en n (map PInt zs)) as [[bs' rest']|] eqn:Hm;
      [|discriminate].
    cbn [bind fst snd] in H. injection H as <- <-.
    destruct (IH zs bs' rest' Hm) as (Hlen & Hrest & Hn & Hun).
    repeat split.
    + rewrite length_app, int_bytes_len, Hlen. simpl. lia.
    + exact Hrest.
    + simpl. lia.
    + intros tail. cbn [Struct.unpack_many firstn map].
      rewrite <- app_assoc.
      rewrite (firstn_app_exact _ _ _ (int_bytes_len e (Struct.e_size en) z)).
      rewrite (skipn_app_exact _ _ _ (int_bytes_len e (Struct.e_size en) z)).
      unfold Struct.unpack_one. rewrite Hk. cbn [bind].
      rewrite (int_value_int_bytes e signed _ z Hr), Hun. reflexivity.
Qed.

Lemma pack_tokens_ints (a : Struct.alignment) (e : Struct.endianness)
  (ts : list Struct.token) :
  forallb (int_code a) ts = true ->
  forall zs off bs,
    Struct.item_count a ts = Ok (List.length zs) ->
    Struct.pack_tokens a e ts (map PInt zs) off = Ok bs ->
    Struct.unpack_tokens a e ts bs off = Ok (map PInt zs).
Proof.
  induction ts as [|[n c] ts IH]; intros Hall zs off bs Hcount Hpack.
  - simpl in *. injection Hcount as Hcount. now destruct zs.
  - cbn [forallb] in Hall. apply andb_true_iff in Hall. destruct Hall as [Hc Hall].
    unfold int_code in Hc. cbn [snd] in Hc.
    cbn [Struct.item_count Struct.pack_tokens Struct.unpack_tokens] in *.
    destruct (Struct.code_entry a c) as [en|] eqn:Hen; [|discriminate].
    destruct (Struct.item_count a ts) as [k|] eqn:Hk; [|discriminate].
    cbn [bind] in Hcount. injection Hcount as Hcount.
    destruct (Struct.e_kind en) eqn:Hkind; try discriminate.
    + (* padding *)
      destruct (Struct.pack_tokens a e ts (map PInt zs)
                  (off + Struct.align_pad a off (Struct.e_size en) + n * Struct.e_size en))
        as [rest|] eqn:Hrest; [|discriminate].
      cbn [bind] in Hpack. injection Hpack as <-.
      rewrite (skipn_app_exact _ _ _ (zeros_len _)).
      rewrite (pad_code_size a c en Hen Hkind), Nat.mul_1_r in *.
      rewrite (skipn_app_exact _ _ _ (zeros_len _)).
      apply (IH Hall zs _ rest); [|exact Hrest].
      f_equal. simpl in Hcount. exact Hcount.
    + (* integers *)
      destruct (Struct.pack_many e en n (map PInt zs)) as [[packed left]|] eqn:Hm;
        [|discriminate].
      cbn [bind fst snd] in Hpack.
      destruct (pack_many_ints e en signed n Hkind zs packed left Hm)
        as (Hlen & Hleft & Hn & Hun).
      subst left.
      destruct (Struct.pack_tokens a e ts (map PInt (skipn n zs))
                  (off + Struct.align_pad a off (Struct.e_size en) + n * Struct.e_size en))
        as [rest|] eqn:Hrest; [|discriminate].
      cbn [bind] in Hpack. injection Hpack as <-.
      rewrite (skipn_app_exact _ _ _ (zeros_len _)).
      rewrite Hun. cbn [bind].
      rewrite (skipn_app_exact _ _ _ Hlen).
      rewrite (IH Hall (skipn n zs) _ rest); [| |exact Hrest].
      * cbn [bind]. rewrite <- map_app, firstn_skipn. reflexivity.
      * f_equal. rewrite length_skipn. lia.
Qed.

(** [struct.unpack] undoes [struct.pack] on integers. *)
Lemma struct_round_trip (fmt : string) (zs : list Z) (bs : list byte) :
  int_format fmt = true ->
  Struct.pack fmt (map PInt zs) = Ok bs ->
  Struct.unpack fmt bs = Ok (map PInt zs).
Proof.
  unfold int_format, Struct.pack, Struct.unpack.
  destruct (Struct.split_order fmt) as [[a e] body].
  destruct (Struct.tokenize body) as [ts|]; [|discriminate].
  intros Hall. cbn [bind].
  destruct (Struct.item_count a ts) as [k|] eqn:Hk; [|discriminate]. cbn [bind].
  destruct (negb (k =? List.length (map PInt zs))%nat) eqn:Hcount; [discriminate|].
  apply negb_false_iff, Nat.eqb_eq in Hcount. rewrite length_map in Hcount. subst k.
  intros Hpack.
  rewrite (pack_tokens_layout a e ts _ 0 bs Hpack). cbn [bind].
  rewrite Nat.add_0_l, Nat.eqb_refl. cbn [negb].
  now apply pack_tokens_ints.
Qed.

Lemma pack_then_unpack (w w' : Writer.BinaryWriter) (fmt f : string)
  (zs : list Z) (post : list byte) :
  Writer.parse_fmt w fmt = Ok f -> int_format f = true ->
  Writer.pack w fmt (map PInt zs) = (Ok tt, w') ->
  Reader.unpack
    (Reader.mkReader (Writer._array w' ++ post) (Writer.position w)
       (Writer.default_byte_order w) (Writer.long_varints w)) fmt
  = (Ok (map PInt zs),
     Reader.mkReader (Writer._array w' ++ post) (Writer.position w')
       (Writer.default_byte_order w) (Writer.long_varints w)).
Proof.
  intros Hf Hint. unfold Writer.pack. rewrite Hf. cbn [bind].
  destruct (Struct.pack f (map PInt zs)) as [packed|e] eqn:Hpack; [|discriminate].
  intros H. injection H as <-.
  pose proof (struct_round_trip f zs packed Hint Hpack) as Hun.
  pose proof (pack_length f _ packed Hpack) as Hsize.
  unfold Reader.unpack, Reader.unpack_at, Reader.parse_fmt, Reader.buffer_read,
    Writer.position, Writer.with_array.
  unfold Writer.parse_fmt in Hf.
  cbn [Reader.default_byte_order Reader.long_varints Reader.position Reader.buffer
       Writer._array].
  rewrite Hf, Hsize.
  rewrite <- !app_assoc, (skipn_app_exact _ _ _ eq_refl),
    (firstn_app_exact _ _ _ eq_refl).
  rewrite Hun. unfold Reader.seek.
  cbn [Reader.default_byte_order Reader.long_varints Reader.position Reader.buffer].
  rewrite length_app.
  destruct packed; reflexivity.
Qed.

(** X24.  What [BinaryWriter.pack] appends for integers is read back by
    [BinaryReader.unpack]: for a format that parses to one of integer
    and padding codes only, a reader with the writer's byte order and
    width flag, standing where the writer stood over the bytes written
    (whatever follows them), unpacks the integers packed and stops where
    the writer stopped. *)
Theorem pack_unpack_round_trip (w w' : Writer.BinaryWriter) (fmt f : string)
  (zs : list Z) (post : list byte) :
  Writer.parse_fmt w fmt = Ok f -> int_format f = true ->
  Writer.pack w fmt (map PInt zs) = (Ok tt, w') ->
  Reader.unpack
    (Reader.mkReader (Writer._array w' ++ post) (Writer.position w)
       (Writer.default_byte_order w) (Writer.long_varints w)) fmt
  = (Ok (map PInt zs),
     Reader.mkReader (Writer._array w' ++ post) (Writer.position w')
       (Writer.default_byte_order w) (Writer.long_varints w)).
Proof. apply pack_then_unpack. Qed.

Lemma pack_unpack_round_trip_witness :
  Reader.unpack
    (Reader.mkReader
       (Writer._array
          (snd (Writer.pack (Writer.init BigEndian (Some false)) "Bhxv"
                  (map PInt [200; -2; 70000]%Z))) ++ [x07])
       (Writer.position (Writer.init BigEndian (Some false)))
       (Writer.default_byte_order (Writer.init BigEndian (Some false)))
       (Writer.long_varints (Writer.init BigEndian (Some false)))) "Bhxv"
  = (Ok (map PInt [200; -2; 70000]%Z),
     Reader.mkReader
       (Writer._array
          (snd (Writer.pack (Writer.init BigEndian (Some false)) "Bhxv"
                  (map PInt [200; -2; 70000]%Z))) ++ [x07])
       (Writer.position
          (snd (Writer.pack (Writer.init BigEndian (Some false)) "Bhxv"
                  (map PInt [200; -2; 70000]%Z))))
       (Writer.default_byte_order (Writer.init BigEndian (Some false)))
       (Writer.long_varints (Writer.init BigEndian (Some false)))).
Proof.
  apply (pack_unpack_round_trip (Writer.init BigEndian (Some false)) _ "Bhxv" ">Bhxi").
  - vm_compute. reflexivity.
  - vm_compute. reflexivity.
  - vm_compute. reflexivity.
Defined.

(* ===================================================================== *)
(** * Records of integers packed and unpacked *)
(* ===================================================================== *)

Lemma dict_set_absent {V : Type} (d : dict V) (k : string) (v : V) :
  ~ In k (dict_keys d) -> dict_set d k v = d ++ [(k, v)].
Proof.
  induction d as [|[k' v'] d IH]; simpl; intros Hin; [reflexivity|].
  destruct (String.eqb_spec k k') as [->|Hne]; [tauto|].
  rewrite IH; tauto.
Qed.

Lemma dict_get_named {V : Type} (val : BinaryStruct.Field -> V)
  (fields : list BinaryStruct.Field) (f : BinaryStruct.Field) :
  NoDup (map BinaryStruct.name fields) -> In f fields ->
  dict_get (map (fun g => (BinaryStruct.name g, val g)) fields) (BinaryStruct.name f)
  = Some (val f).
Proof.
  induction fields as [|g fields IH]; simpl; intros Hnd Hin; [tauto|].
  inversion Hnd as [|? ? Hg Hrest]; subst.
  destruct Hin as [->|Hin]; [now rewrite String.eqb_refl|].
  destruct (String.eqb_spec (BinaryStruct.name f) (BinaryStruct.name g)) as [E|_].
  - exfalso. apply Hg. rewrite <- E. now apply in_map.
  - now apply IH.
Qed.

Lemma setattrs_fresh (updates : dict pyval) :
  forall attrs,
    NoDup (dict_keys attrs ++ dict_keys updates) ->
    BinaryStruct.setattrs attrs updates = attrs ++ updates.
Proof.
  induction updates as [|[k v] updates IH]; intros attrs Hnd; simpl.
  - now rewrite app_nil_r.
  - simpl in Hnd.
    rewrite dict_set_absent.
    + rewrite IH; [now rewrite <- app_assoc|].
      unfold dict_keys in *. rewrite map_app, <- app_assoc. exact Hnd.
    + apply NoDup_remove_2 in Hnd. intros Hin. apply Hnd.
      apply in_or_app. now left.
Qed.

Lemma plain_single_asserted (f : BinaryStruct.Field) :
  plain_field f ->
  Metadata.single_asserted (BinaryStruct.metadata f) = PNone
  /\ Metadata.has_asserted (BinaryStruct.metadata f) = false
  /\ BinaryStruct.skips (BinaryStruct.metadata f) = fun _ _ => false.
Proof.
  intros (_ & _ & _ & _ & Hs & Ha & _).
  unfold Metadata.single_asserted, Metadata.has_asserted, BinaryStruct.skips.
  now rewrite Ha, Hs.
Qed.

(** What the loop of [to_writer] collects for fields packed as they are:
    their formats and their values. *)
Lemma pack_fields_plain (c : BinaryStruct.StructClass) (lv : option bool)
  (fv : dict pyval) (start : nat) (bo : ByteOrder) (obj : pyobj)
  (fields : list BinaryStruct.Field) :
  Forall plain_field fields ->
  Forall (fun f => is_none (value_for fv f) = false) fields ->
  forall w full_fmt input,
    BinaryStruct.pack_fields c lv fv start bo obj fields
      (BinaryStruct.mkPackState w Bits.init full_fmt input)
    = (Ok tt,
       BinaryStruct.mkPackState w Bits.init
         (full_fmt
          ++ str_concat (map (fun f => Metadata.fmt (BinaryStruct.metadata f)) fields))
         (input ++ map (value_for fv) fields)).
Proof.
  induction 1 as [|f fields Hf _ IH]; intros Hvals w full_fmt input.
  - simpl. now rewrite str_app_nil_r, app_nil_r.
  - inversion Hvals as [|? ? Hv Hrest]; subst.
    destruct (plain_single_asserted f Hf) as (Hsingle & Hhas & Hskip).
    destruct Hf as (Hnb & Hinit & Hkind & Hbits & Hss & Ha & Hu & Hp).
    cbn [BinaryStruct.pack_fields]. fold (value_for fv f).
    unfold BinaryStruct.pack_field.
    rewrite Hnb, Hskip, Hbits, Hv, Z.eqb_refl.
    cbn [BinaryStruct.ps_writer BinaryStruct.ps_bit_writer BinaryStruct.ps_full_fmt
         BinaryStruct.ps_struct_input Bits.empty Bits._field Bits.init negb andb].
    rewrite (pack_plain _ _ _ Hkind), Hhas, Hp. cbn [andb through].
    rewrite (IH Hrest). cbn [map str_concat].
    now rewrite str_app_assoc, <- app_assoc.
Qed.

Lemma values_of_named (self : BinaryStruct.Instance) (f : BinaryStruct.Field) :
  NoDup (map BinaryStruct.name (BinaryStruct._FIELDS (BinaryStruct.cls self))) ->
  In f (BinaryStruct._FIELDS (BinaryStruct.cls self)) ->
  value_for (values_of self) f = BinaryStruct.getattr self (BinaryStruct.name f).
Proof.
  intros Hnd Hin. unfold value_for, values_of.
  now rewrite (dict_get_named
                 (fun g => BinaryStruct.getattr self (BinaryStruct.name g)) _ f Hnd Hin).
Qed.

(** What the loop of [from_bytes] does with the reversed values of a bulk
    unpack, for fields unpacked as they are. *)
Lemma unpack_fields_plain (c : BinaryStruct.StructClass) (lv : option bool)
  (fields : list BinaryStruct.Field) :
  Forall plain_field fields ->
  forall vals r rest iv niv av,
    List.length vals = List.length fields ->
    BinaryStruct.unpack_fields c lv fields
      (BinaryStruct.mkUnpackState r Bits.init (Some (rest ++ rev vals)) iv niv av)
    = (Ok tt,
       BinaryStruct.mkUnpackState r Bits.init (Some rest)
         (BinaryStruct.setattrs iv (combine (map BinaryStruct.name fields) vals))
         niv
         (BinaryStruct.setattrs av (combine (map BinaryStruct.name fields) vals))).
Proof.
  induction 1 as [|f fields Hf _ IH]; intros vals r rest iv niv av Hlen.
  - destruct vals; [|discriminate]. simpl. now rewrite app_nil_r.
  - destruct vals as [|v vals]; [discriminate|].
    destruct (plain_single_asserted f Hf) as (Hsingle & Hhas & Hskip).
    destruct Hf as (Hnb & Hinit & Hkind & Hbits & Hss & Ha & Hu & Hp).
    cbn [BinaryStruct.unpack_fields]. unfold BinaryStruct.unpack_field.
    rewrite Hbits, Hskip, Z.eqb_refl.
    cbn [BinaryStruct.us_bit_reader BinaryStruct.us_struct_output BinaryStruct.us_reader
         BinaryStruct.us_all_field_values Bits.empty Bits._field Bits.init negb andb
         rev].
    rewrite app_assoc, (unpack_plain _ _ _ Hkind), Hu, Hhas. cbn [through andb].
    unfold BinaryStruct.record_value, BinaryStruct.with_io. rewrite Hinit.
    cbn [BinaryStruct.us_bit_reader BinaryStruct.us_struct_output BinaryStruct.us_reader
         BinaryStruct.us_all_field_values BinaryStruct.us_init_values
         BinaryStruct.us_non_init_values].
    rewrite IH by (simpl in Hlen; lia). reflexivity.
Qed.

Lemma dataclass_init_named (all : list BinaryStruct.Field) (val : BinaryStruct.Field -> pyval)
  (fields : list BinaryStruct.Field) :
  NoDup (map BinaryStruct.name all) ->
  Forall (fun f => In f all /\ BinaryStruct.init f = true) fields ->
  BinaryStruct.dataclass_init fields (map (fun g => (BinaryStruct.name g, val g)) all)
  = Ok (map (fun g => (BinaryStruct.name g, val g)) fields).
Proof.
  intros Hnd. induction 1 as [|f fields [Hin Hinit] _ IH]; [reflexivity|].
  cbn [BinaryStruct.dataclass_init]. rewrite IH. cbn [bind].
  now rewrite Hinit, (dict_get_named val all f Hnd Hin).
Qed.

Lemma post_init_plain (fields : list BinaryStruct.Field) :
  Forall plain_field fields ->
  forall attrs, BinaryStruct.post_init fields attrs = attrs.
Proof.
  induction 1 as [|f fields Hf _ IH]; intros attrs; [reflexivity|].
  cbn [BinaryStruct.post_init].
  destruct (plain_single_asserted f Hf) as (Hsingle & _).
  rewrite Hsingle. cbn [is_none]. apply IH.
Qed.

Lemma combine_names (val : BinaryStruct.Field -> pyval) (fields : list BinaryStruct.Field) :
  combine (map BinaryStruct.name fields) (map val fields)
  = map (fun g => (BinaryStruct.name g, val g)) fields.
Proof. induction fields as [|f fields IH]; simpl; [reflexivity|now rewrite IH]. Qed.

Lemma careful_plain (c : BinaryStruct.StructClass) :
  Forall plain_field (BinaryStruct._FIELDS c) -> BinaryStruct.careful_unpack_mode c = false.
Proof.
  unfold BinaryStruct.careful_unpack_mode.
  induction 1 as [|f fields Hf _ IH]; [reflexivity|].
  destruct Hf as (_ & _ & _ & _ & Hs & _).
  cbn [existsb]. now rewrite Hs, IH.
Qed.

Lemma ordinary_plain (fields : list BinaryStruct.Field) :
  Forall plain_field fields -> forallb is_ordinary fields = true.
Proof.
  induction 1 as [|f fields Hf _ IH]; [reflexivity|].
  destruct Hf as (_ & _ & _ & Hb & _).
  cbn [forallb]. unfold is_ordinary at 1. now rewrite Hb, IH.
Qed.

Lemma filter_kept_all (lv : option bool) (fields : list BinaryStruct.Field) :
  filter (kept lv None) fields = fields.
Proof. induction fields as [|f fields IH]; simpl; [reflexivity|now rewrite IH]. Qed.

Lemma map_ints_not_none {A : Type} (g : A -> pyval) (l : list A) :
  forall zs, map g l = map PInt zs -> Forall (fun x => is_none (g x) = false) l.
Proof.
  induction l as [|x l IH]; intros zs H; [constructor|].
  destruct zs as [|z zs]; [discriminate|]. simpl in H. injection H as Hx Hl.
  constructor; [now rewrite Hx|now apply (IH zs)].
Qed.

Lemma map_on_members {A B : Type} (g h : A -> B) (l : list A) :
  (forall x, In x l -> g x = h x) -> map g l = map h l.
Proof.
  induction l as [|x l IH]; intros H; [reflexivity|].
  simpl. rewrite (H x (or_introl eq_refl)), IH; [reflexivity|].
  intros y Hy. apply H. now right.
Qed.

(** [to_writer] on a writer of its own, for a record of integers: one
    [pack] of the joined formats and the values. *)
Lemma to_writer_plain (self : BinaryStruct.Instance) (b : ByteOrder) (zs : list Z) :
  BinaryStruct.byte_order self = Some b ->
  Forall plain_field (BinaryStruct._FIELDS (BinaryStruct.cls self)) ->
  NoDup (map BinaryStruct.name (BinaryStruct._FIELDS (BinaryStruct.cls self))) ->
  map (fun f => BinaryStruct.getattr self (BinaryStruct.name f))
      (BinaryStruct._FIELDS (BinaryStruct.cls self)) = map PInt zs ->
  BinaryStruct.to_writer self None None None
  = match Writer.pack (Writer.init_default b) (joined_fmt (BinaryStruct.cls self))
            (map PInt zs) with
    | (Raise e, w) => (Raise e, w)
    | (Ok _, w) => (Ok tt, w)
    end.
Proof.
  intros Hb Hplain Hnd Hvals.
  unfold BinaryStruct.to_writer. rewrite Hb. cbv beta iota zeta.
  fold (values_of self).
  assert (Hmap : map (value_for (values_of self))
                     (BinaryStruct._FIELDS (BinaryStruct.cls self)) = map PInt zs).
  { rewrite <- Hvals. apply map_on_members. intros f Hin.
    now apply values_of_named. }
  rewrite pack_fields_plain; [|exact Hplain|].
  - cbn [BinaryStruct.ps_writer BinaryStruct.ps_full_fmt BinaryStruct.ps_struct_input
         append app].
    rewrite Hmap. reflexivity.
  - apply (map_ints_not_none _ _ zs). exact Hmap.
Qed.

Lemma get_full_fmt_plain (c : BinaryStruct.StructClass) :
  Forall plain_field (BinaryStruct._FIELDS c) ->
  BinaryStruct.get_full_fmt c None None = Ok (joined_fmt c).
Proof.
  intros Hplain. unfold BinaryStruct.get_full_fmt, joined_fmt.
  destruct (full_fmt_loop_ordinary None None (BinaryStruct._FIELDS c)
              (ordinary_plain _ Hplain) (BinaryStruct.mkFmtState "" 0 0)) as (u & b & E).
  rewrite E. cbn [bind BinaryStruct.fs_full_fmt append].
  now rewrite filter_kept_all.
Qed.

(** X25.  A record of integers is decoded as it was encoded: for a class
    whose fields, of distinct names, are all packed as they are (no bit
    field, skip predicate, assertion or hook) with formats of integer
    codes, [from_bytes] on the bytes [to_bytes] returns for an instance
    holding integers, under the same byte order, returns an instance with
    the same field values and reads the bytes to the end. *)
Theorem plain_struct_round_trip (self : BinaryStruct.Instance) (b : ByteOrder)
  (long_varints long_varints' : option bool) (zs : list Z) (f : string)
  (bs : list byte) (new_id : Z) :
  Forall plain_field (BinaryStruct._FIELDS (BinaryStruct.cls self)) ->
  NoDup (map BinaryStruct.name (BinaryStruct._FIELDS (BinaryStruct.cls self))) ->
  map (fun fd => BinaryStruct.getattr self (BinaryStruct.name fd))
      (BinaryStruct._FIELDS (BinaryStruct.cls self)) = map PInt zs ->
  BinaryBase.parse_fmt b (Some true) (joined_fmt (BinaryStruct.cls self)) = Ok f ->
  int_format f = true ->
  BinaryStruct.to_bytes self (Some b) long_varints = Ok bs ->
  BinaryStruct.from_bytes (BinaryStruct.cls self) (inl bs) (Some b) long_varints' new_id
  = (Ok (BinaryStruct.mkInstance (BinaryStruct.cls self) new_id (values_of self)
           (Some b) long_varints'),
     Reader.mkReader bs (List.length bs) b (Some true)).
Proof.
  intros Hplain Hnd Hvals Hf Hint Hto.
  (* encoding *)
  unfold BinaryStruct.to_bytes in Hto.
  rewrite (to_writer_plain (BinaryStruct.set_flags self (Some b) long_varints) b zs
             eq_refl Hplain Hnd Hvals) in Hto.
  change (BinaryStruct.cls (BinaryStruct.set_flags self (Some b) long_varints))
    with (BinaryStruct.cls self) in Hto.
  destruct (Writer.pack (Writer.init_default b) (joined_fmt (BinaryStruct.cls self))
              (map PInt zs)) as [[[]|e] w'] eqn:Hpack; [|discriminate].
  destruct (pack_keeps_ledger _ _ _ _ _ Hpack) as (Hr & _).
  rewrite Hr in Hto. cbn [Writer.reserved Writer.init_default Writer.init] in Hto.
  unfold Writer.to_bytes in Hto. rewrite Hr in Hto.
  cbn [Writer.reserved Writer.init_default Writer.init] in Hto.
  injection Hto as Hbs.
  pose proof (pack_then_unpack (Writer.init_default b) w'
                (joined_fmt (BinaryStruct.cls self)) f zs [] Hf Hint Hpack) as Hun.
  rewrite Hbs, app_nil_r in Hun.
  change (Reader.mkReader bs (Writer.position (Writer.init_default b))
            (Writer.default_byte_order (Writer.init_default b))
            (Writer.long_varints (Writer.init_default b)))
    with (Reader.init_default bs b) in Hun.
  cbn [Writer.default_byte_order Writer.long_varints Writer.init_default Writer.init] in Hun.
  unfold Writer.position in Hun. rewrite Hbs in Hun.
  (* decoding *)
  unfold BinaryStruct.from_bytes, BinaryStruct.resolve_byte_order,
    BinaryStruct.open_reader.
  rewrite (get_full_fmt_plain _ Hplain).
  unfold BinaryStruct.bulk_unpack. rewrite (careful_plain _ Hplain). cbn [negb].
  rewrite Hun.
  assert (Hlen : List.length (map PInt zs)
                 = List.length (BinaryStruct._FIELDS (BinaryStruct.cls self))).
  { rewrite <- Hvals. now rewrite !length_map. }
  rewrite <- (app_nil_l (rev (map PInt zs))).
  rewrite (unpack_fields_plain _ _ _ Hplain _ _ _ _ _ _ Hlen).
  cbn [BinaryStruct.us_reader BinaryStruct.us_init_values BinaryStruct.us_non_init_values].
  rewrite setattrs_fresh.
  2:{ cbn [dict_keys map app]. unfold dict_keys.
      rewrite <- Hvals, combine_names, map_map. cbn [fst]. exact Hnd. }
  cbn [app]. rewrite <- Hvals, combine_names.
  unfold BinaryStruct.finish_instance, BinaryStruct.construct.
  rewrite (dataclass_init_named _ _ _ Hnd).
  2:{ apply Forall_forall. intros g Hg. split; [exact Hg|].
      rewrite Forall_forall in Hplain. now destruct (Hplain g Hg) as (_ & Hi & _). }
  cbn [bind]. rewrite (post_init_plain _ Hplain).
  now destruct long_varints'.
Qed.

Lemma plain_struct_round_trip_witness :
  BinaryStruct.from_bytes Hdr (inl [x01; x00; x00; x00; x02; xff; xff; xff; xfd])
    (Some BigEndian) None 9
  = (Ok (BinaryStruct.mkInstance Hdr 9 [("a", PInt 1); ("b", PInt 2); ("c", PInt (-3))]
           (Some BigEndian) None),
     Reader.mkReader [x01; x00; x00; x00; x02; xff; xff; xff; xfd] 9 BigEndian (Some true)).
Proof.
  apply (plain_struct_round_trip (hdr (PInt (-3))) BigEndian None None [1; 2; -3]%Z
           ">Bii" [x01; x00; x00; x00; x02; xff; xff; xff; xfd] 9).
  - repeat constructor.
  - repeat constructor; simpl; intuition discriminate.
  - reflexivity.
  - vm_compute. reflexivity.
  - vm_compute. reflexivity.
  - vm_compute. reflexivity.
Defined.

(** What [to_bytes] returns for a record of integers: the bytes of one
    [struct.pack] of the parsed joined format. *)
Lemma to_bytes_plain (self : BinaryStruct.Instance) (b : ByteOrder)
  (long_varints : option bool) (zs : list Z) (bs : list byte) :
  Forall plain_field (BinaryStruct._FIELDS (BinaryStruct.cls self)) ->
  NoDup (map BinaryStruct.name (BinaryStruct._FIELDS (BinaryStruct.cls self))) ->
  map (fun fd => BinaryStruct.getattr self (BinaryStruct.name fd))
      (BinaryStruct._FIELDS (BinaryStruct.cls self)) = map PInt zs ->
  BinaryStruct.to_bytes self (Some b) long_varints = Ok bs ->
  exists f,
    BinaryBase.parse_fmt b (Some true) (joined_fmt (BinaryStruct.cls self)) = Ok f
    /\ Struct.pack f (map PInt zs) = Ok bs.
Proof.
  intros Hplain Hnd Hvals Hto.
  unfold BinaryStruct.to_bytes in Hto.
  rewrite (to_writer_plain (BinaryStruct.set_flags self (Some b) long_varints) b zs
             eq_refl Hplain Hnd Hvals) in Hto.
  change (BinaryStruct.cls (BinaryStruct.set_flags self (Some b) long_varints))
    with (BinaryStruct.cls self) in Hto.
  unfold Writer.pack, Writer.parse_fmt in Hto.
  cbn [Writer.default_byte_order Writer.long_varints Writer.init_default Writer.init] in Hto.
  destruct (BinaryBase.parse_fmt b (Some true) (joined_fmt (BinaryStruct.cls self)))
    as [f|e]; [|discriminate].
  cbn [bind] in Hto.
  destruct (Struct.pack f (map PInt zs)) as [packed|e] eqn:Hpack; [|discriminate].
  unfold Writer.to_bytes, Writer.with_array, Writer.init_default, Writer.init in Hto.
  cbn [Writer.reserved Writer._array app] in Hto.
  injection Hto as <-. exists f. split; [reflexivity|exact Hpack].
Qed.

(** X26.  The bytes [to_bytes] returns for a record of integers are as many
    as [get_size] says for the same byte order with the width flag true,
    and, when no field is a varint, for any width flag (the joined format
    not starting with a byte order character). *)
Theorem to_bytes_length_is_get_size (self : BinaryStruct.Instance) (b : ByteOrder)
  (long_varints : option bool) (zs : list Z) (bs : list byte) (c0 : ascii)
  (rest : string) :
  Forall plain_field (BinaryStruct._FIELDS (BinaryStruct.cls self)) ->
  NoDup (map BinaryStruct.name (BinaryStruct._FIELDS (BinaryStruct.cls self))) ->
  map (fun fd => BinaryStruct.getattr self (BinaryStruct.name fd))
      (BinaryStruct._FIELDS (BinaryStruct.cls self)) = map PInt zs ->
  joined_fmt (BinaryStruct.cls self) = String c0 rest ->
  contains_char c0 "@=><!" = false ->
  BinaryStruct.to_bytes self (Some b) long_varints = Ok bs ->
  BinaryStruct.get_size (BinaryStruct.cls self) b (Some true) = Ok (List.length bs)
  /\ (BinaryStruct.has_varint (joined_fmt (BinaryStruct.cls self)) = false ->
      forall flag,
        BinaryStruct.get_size (BinaryStruct.cls self) b flag = Ok (List.length bs)).
Proof.
  intros Hplain Hnd Hvals Hjoined Hc0 Hto.
  destruct (to_bytes_plain self b long_varints zs bs Hplain Hnd Hvals Hto)
    as (f & Hf & Hpack).
  apply pack_length in Hpack.
  rewrite Hjoined, parse_fmt_resolved, Hc0, <- Hjoined in Hf. injection Hf as <-.
  unfold BinaryStruct.get_size. rewrite (get_full_fmt_plain _ Hplain). cbn [bind].
  unfold resolved in Hpack.
  split.
  - destruct (BinaryStruct.has_varint
                (String (value b) (joined_fmt (BinaryStruct.cls self)))) eqn:Hv;
      [exact Hpack|].
    unfold BinaryStruct.has_varint in Hv. apply orb_false_iff in Hv.
    destruct Hv as [Hv HV].
    rewrite (replace_char_absent "v") in Hpack by exact Hv.
    now rewrite replace_char_absent in Hpack.
  - intros Hno flag. rewrite has_varint_with_order, Hno.
    assert (Hv : BinaryStruct.has_varint
                   (String (value b) (joined_fmt (BinaryStruct.cls self))) = false)
      by now rewrite has_varint_with_order.
    unfold BinaryStruct.has_varint in Hv. apply orb_false_iff in Hv.
    destruct Hv as [Hv HV].
    rewrite (replace_char_absent "v") in Hpack by exact Hv.
    now rewrite replace_char_absent in Hpack.
Qed.

Lemma to_bytes_length_is_get_size_witness :
  BinaryStruct.get_size Hdr BigEndian (Some true) = Ok 9
  /\ (BinaryStruct.has_varint (joined_fmt Hdr) = false ->
      forall flag, BinaryStruct.get_size Hdr BigEndian flag = Ok 9).
Proof.
  apply (to_bytes_length_is_get_size (hdr (PInt (-3))) BigEndian None [1; 2; -3]%Z
           [x01; x00; x00; x00; x02; xff; xff; xff; xfd] "B" "ii").
  - repeat constructor.
  - repeat constructor; simpl; intuition discriminate.
  - reflexivity.
  - reflexivity.
  - reflexivity.
  - vm_compute. reflexivity.
Defined.

(* ===================================================================== *)
(** * Asserted values and consumed fields *)
(* ===================================================================== *)

Lemma dict_get_set_other {V : Type} (d : dict V) (k k' : string) (v : V) :
  k <> k' -> dict_get (dict_set d k' v) k = dict_get d k.
Proof.
  intros Hne. induction d as [|[k0 v0] d IH]; simpl.
  - destruct (String.eqb_spec k k'); [congruence|reflexivity].
  - destruct (String.eqb_spec k' k0) as [->|Hk0]; simpl.
    + destruct (String.eqb_spec k k0); [congruence|reflexivity].
    + destruct (String.eqb k k0); [reflexivity|exact IH].
Qed.

Lemma post_init_other (fields : list BinaryStruct.Field) (k : string) :
  ~ In k (map BinaryStruct.name fields) ->
  forall attrs, dict_get (BinaryStruct.post_init fields attrs) k = dict_get attrs k.
Proof.
  induction fields as [|f fields IH]; intros Hin attrs; [reflexivity|].
  cbn [BinaryStruct.post_init]. simpl in Hin. rewrite IH by tauto.
  destruct (is_none (Metadata.single_asserted (BinaryStruct.metadata f)));
    [reflexivity|].
  apply dict_get_set_other. intros ->. tauto.
Qed.

Lemma post_init_sets (fields : list BinaryStruct.Field) (f : BinaryStruct.Field) :
  NoDup (map BinaryStruct.name fields) -> In f fields ->
  is_none (Metadata.single_asserted (BinaryStruct.metadata f)) = false ->
  forall attrs,
    dict_get (BinaryStruct.post_init fields attrs) (BinaryStruct.name f)
    = Some (Metadata.single_asserted (BinaryStruct.metadata f)).
Proof.
  induction fields as [|g fields IH]; intros Hnd Hin Hf attrs; [destruct Hin|].
  simpl in Hnd. inversion Hnd as [|? ? Hg Hrest]; subst.
  cbn [BinaryStruct.post_init]. destruct Hin as [->|Hin].
  - rewrite post_init_other by exact Hg. rewrite Hf. apply dict_get_set_same.
  - now apply IH.
Qed.

(** X27.  A field with a single asserted value holds that value in every
    instance the class constructs, whatever argument is passed for it
    (field names being distinct). *)
Theorem construct_sets_single_asserted (c : BinaryStruct.StructClass)
  (kwargs : dict pyval) (new_id : Z) (instance : BinaryStruct.Instance)
  (f : BinaryStruct.Field) :
  NoDup (map BinaryStruct.name (BinaryStruct._FIELDS c)) ->
  In f (BinaryStruct._FIELDS c) ->
  is_none (Metadata.single_asserted (BinaryStruct.metadata f)) = false ->
  BinaryStruct.construct c kwargs new_id = Ok instance ->
  BinaryStruct.getattr instance (BinaryStruct.name f)
  = Metadata.single_asserted (BinaryStruct.metadata f).
Proof.
  intros Hnd Hin Hf. unfold BinaryStruct.construct.
  destruct (BinaryStruct.dataclass_init (BinaryStruct._FIELDS c) kwargs) as [attrs|e];
    [|discriminate].
  cbn [bind]. intros H. injection H as <-.
  unfold BinaryStruct.getattr. cbn [BinaryStruct.attrs].
  now rewrite (post_init_sets _ f Hnd Hin Hf).
Qed.

Lemma construct_sets_single_asserted_witness :
  BinaryStruct.getattr
    (BinaryStruct.mkInstance Magic 3 [("magic", PInt 7)] None None) "magic"
  = PInt 7.
Proof.
  apply (construct_sets_single_asserted Magic [("magic", PInt 5)] 3
           (BinaryStruct.mkInstance Magic 3 [("magic", PInt 7)] None None)
           (BinaryStruct.mkField "magic" true None false py_int
              (Metadata.mkMeta "i" [PInt 7] None None (-1) None "magic" Metadata.Plain))).
  - repeat constructor. simpl. tauto.
  - simpl. auto.
  - reflexivity.
  - reflexivity.
Defined.

(** X28.  [pop] hands a field over to the caller: it returns the value of
    the field, which is not [None], and a second [pop] of the field
    raises; and when the field is an ordinary binary field with no skip
    predicate and no single asserted value, a [to_writer] that succeeds
    afterwards leaves the field reserved in the ledger of the writer under
    the owner's name. *)
Theorem pop_reserves (self self' : BinaryStruct.Instance) (f : BinaryStruct.Field)
  (v : pyval) (writer : option Writer.BinaryWriter) (reserve_obj : option pyobj)
  (byte_order : option ByteOrder) (w' : Writer.BinaryWriter) :
  NoDup (map BinaryStruct.name (BinaryStruct._FIELDS (BinaryStruct.cls self))) ->
  In f (BinaryStruct._FIELDS (BinaryStruct.cls self)) ->
  BinaryStruct.NOT_BINARY f = false ->
  is_ordinary f = true ->
  Metadata.should_skip_func (BinaryStruct.metadata f) = None ->
  is_none (Metadata.single_asserted (BinaryStruct.metadata f)) = true ->
  BinaryStruct.pop self (BinaryStruct.name f) = (Ok v, self') ->
  BinaryStruct.to_writer self' writer reserve_obj byte_order = (Ok tt, w') ->
  v = BinaryStruct.getattr self (BinaryStruct.name f)
  /\ is_none v = false
  /\ BinaryStruct.pop self' (BinaryStruct.name f)
     = (Raise (BinaryStruct.no_value_to_consume self' (BinaryStruct.name f)), self')
  /\ In (Writer.reserve_name (BinaryStruct.name f)
           (Some (match reserve_obj with
                  | Some o => o
                  | None => BinaryStruct.as_obj self'
                  end)))
        (dict_keys (Writer.reserved w')).
Proof.
  intros Hnd Hin Hnb Hord Hskip Hsingle Hpop Hto.
  unfold BinaryStruct.pop in Hpop.
  destruct (is_none (BinaryStruct.getattr self (BinaryStruct.name f))) eqn:Hv;
    [discriminate|].
  injection Hpop as <- <-.
  set (popped := BinaryStruct.mkInstance (BinaryStruct.cls self)
                   (BinaryStruct.self_id self)
                   (dict_set (BinaryStruct.attrs self) (BinaryStruct.name f) PNone)
                   (BinaryStruct.byte_order self) (BinaryStruct.long_varints self)) in *.
  assert (Hnone : BinaryStruct.getattr popped (BinaryStruct.name f) = PNone).
  { unfold BinaryStruct.getattr, popped. cbn [BinaryStruct.attrs].
    now rewrite dict_get_set_same. }
  split; [reflexivity|]. split; [exact Hv|]. split.
  - unfold BinaryStruct.pop. now rewrite Hnone.
  - destruct (to_writer_shape _ _ _ _ _ Hto) as (Hkeys & _).
    rewrite Hkeys. apply in_or_app. right. unfold keys_left.
    apply (in_map (fun g => Writer.reserve_name (BinaryStruct.name g) _)).
    apply filter_In. split; [exact Hin|].
    unfold left_reserved, BinaryStruct.skips.
    rewrite Hnb, Hskip, Hord, Hsingle.
    rewrite (values_of_named popped f Hnd Hin), Hnone. reflexivity.
Qed.

Lemma pop_reserves_witness :
  PInt 3 = BinaryStruct.getattr (hdr (PInt 3)) "c"
  /\ is_none (PInt 3) = false
  /\ BinaryStruct.pop (hdr PNone) "c"
     = (Raise (BinaryStruct.no_value_to_consume (hdr PNone) "c"), hdr PNone)
  /\ In (Writer.reserve_name "c" (Some (BinaryStruct.as_obj (hdr PNone))))
        (dict_keys (Writer.reserved
                      (snd (BinaryStruct.to_writer (hdr PNone) None None None)))).
Proof.
  apply (pop_reserves (hdr (PInt 3)) (hdr PNone) (int_field "c" "i") (PInt 3)
           None None None).
  - repeat constructor; simpl; intuition discriminate.
  - simpl. auto.
  - reflexivity.
  - reflexivity.
  - reflexivity.
  - reflexivity.
  - reflexivity.
  - vm_compute. reflexivity.
Defined.

(* ===================================================================== *)
(** * Bit fields on streams *)
(* ===================================================================== *)

Section BitStream.

Variables (fmt : string) (size : nat).
Hypothesis Hsize : Struct.calcsize fmt = Ok size.

Lemma stream_write_first (w : Writer.BinaryWriter) (v n : Z) :
  fits (v, n) -> (n < Z.of_nat (8 * size))%Z ->
  Bits.write Bits.init w (PInt v) n fmt
  = (Ok tt, Bits.mkBits (str_rev (digits v n)) fmt 0, w).
Proof.
  intros [Hn Hv] Hlt. cbn [fst snd] in Hn, Hv.
  unfold Bits.write, Bits.exceeds, Bits.init.
  cbn [as_index Bits._fmt Bits._field Bits._offset].
  destruct (n <? 0)%Z eqn:E; [apply Z.ltb_lt in E; lia|].
  destruct (2 ^ n <=? v)%Z eqn:E2; [apply Z.leb_le in E2; lia|].
  rewrite (unit_fmt_not_empty fmt size Hsize) by lia.
  cbn [negb andb Bits.str_is_empty Bits._fmt Bits._field Bits._offset format_0b_val].
  rewrite format_0b_digits by lia.
  cbn [Bits._fmt Bits._field Bits._offset append]. rewrite Hsize.
  destruct (8 * size <=? str_len (str_rev (digits v n)))%nat eqn:E3; [|reflexivity].
  apply Nat.leb_le in E3. rewrite str_rev_len, digits_len in E3 by lia. lia.
Qed.

Lemma stream_write_next (F : string) (off : Z) (w : Writer.BinaryWriter) (v n : Z) :
  fits (v, n) ->
  Bits.write (Bits.mkBits F fmt off) w (PInt v) n fmt
  = if (8 * size <=? str_len (F ++ str_rev (digits v n)))%nat then
      match int_base2 (str_rev (str_slice (F ++ str_rev (digits v n)) 0 (8 * size))) with
      | Raise e => (Raise e, Bits.mkBits (F ++ str_rev (digits v n)) fmt off, w)
      | Ok unit =>
          match Writer.pack w fmt [PInt unit] with
          | (Raise e, w1) => (Raise e, Bits.mkBits (F ++ str_rev (digits v n)) fmt off, w1)
          | (Ok _, w1) =>
              (Ok tt, Bits.mkBits (str_drop (F ++ str_rev (digits v n)) (8 * size)) fmt off,
               w1)
          end
      end
    else (Ok tt, Bits.mkBits (F ++ str_rev (digits v n)) fmt off, w).
Proof.
  intros [Hn Hv]. cbn [fst snd] in Hn, Hv.
  unfold Bits.write, Bits.exceeds.
  cbn [as_index Bits._fmt Bits._field Bits._offset].
  destruct (n <? 0)%Z eqn:E; [apply Z.ltb_lt in E; lia|].
  destruct (2 ^ n <=? v)%Z eqn:E2; [apply Z.leb_le in E2; lia|].
  rewrite String.eqb_refl.
  cbn [negb format_0b_val]. rewrite format_0b_digits by lia.
  cbn [Bits._fmt Bits._field Bits._offset]. rewrite Hsize.
  destruct (8 * size <=? str_len (F ++ str_rev (digits v n)))%nat; [|reflexivity].
  destruct (int_base2 (str_rev (str_slice (F ++ str_rev (digits v n)) 0 (8 * size))))
    as [unit|e]; [|reflexivity].
  destruct (Writer.pack w fmt [PInt unit]) as [[u|e] w1]; reflexivity.
Qed.

Lemma stream_write_open (w : Writer.BinaryWriter) (items : list (Z * Z)) :
  forall F,
    Forall fits items ->
    (Z.of_nat (str_len F) + sum_Z (map snd items) < Z.of_nat (8 * size))%Z ->
    write_stream_bits (Bits.mkBits F fmt 0) w items fmt
    = (Ok tt, Bits.mkBits (F ++ field_of items) fmt 0, w).
Proof.
  induction items as [|[v n] items IH]; intros F Hfits Hlen.
  - simpl. now rewrite str_app_nil_r.
  - inversion Hfits as [|x l Hfit Hrest]; subst.
    pose proof (sum_fits items Hrest) as Hsum.
    cbn [map sum_Z fold_right snd] in Hlen. fold (sum_Z (map snd items)) in Hlen.
    cbn [write_stream_bits]. rewrite stream_write_next by assumption.
    destruct Hfit as [Hn Hv]. cbn [fst snd] in Hn, Hv.
    destruct (8 * size <=? str_len (F ++ str_rev (digits v n)))%nat eqn:E.
    { apply Nat.leb_le in E. rewrite str_len_app, str_rev_len, digits_len in E by lia. lia. }
    rewrite IH; [|assumption|].
    + cbn [field_of]. now rewrite str_app_assoc.
    + rewrite str_len_app, str_rev_len, digits_len by lia. lia.
Qed.

Lemma stream_write_full (items : list (Z * Z)) :
  forall F w b' w',
    Forall fits items -> items <> [] -> binary F = true ->
    (Z.of_nat (str_len F) + sum_Z (map snd items) = Z.of_nat (8 * size))%Z ->
    write_stream_bits (Bits.mkBits F fmt 0) w items fmt = (Ok tt, b', w') ->
    exists unit,
      int_base2 (str_rev (F ++ field_of items)) = Ok unit
      /\ Writer.pack w fmt [PInt unit] = (Ok tt, w')
      /\ b' = Bits.mkBits "" fmt 0.
Proof.
  induction items as [|[v n] items IH]; intros F w b' w' Hfits Hne HF Hlen; [congruence|].
  inversion Hfits as [|x l Hfit Hrest]; subst.
  pose proof (sum_fits items Hrest) as Hsum.
  cbn [map sum_Z fold_right snd] in Hlen. fold (sum_Z (map snd items)) in Hlen.
  cbn [write_stream_bits]. rewrite stream_write_next by assumption.
  pose proof Hfit as [Hn Hv]. cbn [fst snd] in Hn, Hv.
  assert (Hl : str_len (F ++ str_rev (digits v n)) = str_len F + Z.to_nat n).
  { now rewrite str_len_app, str_rev_len, digits_len. }
  destruct items as [|item items].
  - cbn [map sum_Z fold_right] in Hlen.
    assert (Hfull : str_len (F ++ str_rev (digits v n)) = 8 * size) by lia.
    rewrite Hfull, Nat.leb_refl.
    unfold str_slice, str_drop. rewrite Nat.sub_0_r.
    fold (str_len (F ++ str_rev (digits v n))). rewrite Hfull, Nat.sub_diag, substring_none.
    assert (Hsub : substring 0 (8 * size) (F ++ str_rev (digits v n))
                   = (F ++ str_rev (digits v n))%string).
    { rewrite <- Hfull. apply substring_all. }
    rewrite Hsub. cbn [field_of]. rewrite str_app_nil_r.
    destruct (int_base2 (str_rev (F ++ str_rev (digits v n)))) as [unit|e] eqn:Hi;
      [|discriminate].
    destruct (Writer.pack w fmt [PInt unit]) as [[[]|e] w1] eqn:Hp; [|discriminate].
    cbn [write_stream_bits]. intros H. injection H as <- <-.
    exists unit. split; [reflexivity|]. split; [exact Hp|reflexivity].
  - assert (Hsum' : (1 <= sum_Z (map snd (item :: items)))%Z).
    { cbn [List.length] in Hsum. lia. }
    destruct (8 * size <=? str_len (F ++ str_rev (digits v n)))%nat eqn:E.
    { apply Nat.leb_le in E. lia. }
    intros Hw.
    destruct (IH (F ++ str_rev (digits v n))%string w b' w' Hrest ltac:(discriminate))
      as (unit & Hi & Hp & Hb); [| |exact Hw|].
    + now rewrite binary_app, binary_rev, digits_binary, HF.
    + lia.
    + exists unit. split; [|split; assumption].
      cbn [field_of] in *. now rewrite <- str_app_assoc.
Qed.

(** Reading a bit field from a unit already taken off the stream. *)
Lemma stream_read_next (G : string) (off : Z) (r : Reader.BinaryReader) (n : Z) :
  G <> ""%string -> (off + n <= Z.of_nat (8 * size))%Z ->
  Bits.read (Bits.mkBits G fmt off) r n fmt
  = (let '(res, b') := Bits.take_bits (Bits.mkBits G fmt off) n (8 * size) in (res, b', r)).
Proof.
  intros Hne Hlen. unfold Bits.read, Bits.needs_new_unit.
  rewrite Hsize. cbn [Bits._fmt Bits._field Bits._offset].
  rewrite String.eqb_refl.
  destruct G; [congruence|]. cbn [Bits.str_is_empty negb orb].
  destruct (Z.of_nat (8 * size) <? off + n)%Z eqn:E; [apply Z.ltb_lt in E; lia|].
  reflexivity.
Qed.

(** Reading the first bit field takes the unit off the stream. *)
Lemma stream_read_first (r r' : Reader.BinaryReader) (unit : Z) (D : string) (n : Z) :
  Reader.unpack r fmt = (Ok [PInt unit], r') ->
  format_0b unit (Z.of_nat (8 * size)) = Ok D ->
  Bits.read Bits.init r n fmt
  = (let '(res, b') := Bits.take_bits (Bits.mkBits (str_rev D) fmt 0) n (8 * size) in
     (res, b', r')).
Proof.
  intros Hun HD. unfold Bits.read, Bits.needs_new_unit, Bits.init.
  rewrite Hsize. cbn [Bits._fmt Bits._field Bits._offset Bits.str_is_empty orb].
  unfold Reader.getitem, Reader.unpack_value. rewrite Hun.
  cbn [format_0b_val]. rewrite HD. reflexivity.
Qed.

Lemma stream_read_rest (r : Reader.BinaryReader) (T : string) (items : list (Z * Z)) :
  forall A,
    Forall fits items ->
    str_len (A ++ field_of items ++ T) = 8 * size ->
    exists b',
      read_stream_bits (Bits.mkBits (A ++ field_of items ++ T) fmt (Z.of_nat (str_len A)))
        r (map snd items) fmt
      = (Ok (map fst items), b', r).
Proof.
  induction items as [|[v n] items IH]; intros A Hfits Hlen.
  - eexists. reflexivity.
  - inversion Hfits as [|x l Hfit Hrest]; subst.
    pose proof Hfit as [Hn Hv]. cbn [fst snd] in Hn, Hv.
    pose proof (digits_len v n Hn Hv) as Hd.
    cbn [field_of] in *. rewrite str_app_assoc in *.
    pose proof Hlen as Hlen'. rewrite !str_len_app, str_rev_len, Hd in Hlen'.
    cbn [map fst snd read_stream_bits].
    rewrite stream_read_next.
    2:{ intros Hempty. rewrite Hempty in Hlen. simpl in Hlen. lia. }
    2:{ lia. }
    rewrite (take_ok fmt size) by assumption.
    destruct ((Z.of_nat (str_len A) + n) mod Z.of_nat (8 * size) =? 0)%Z eqn:Emod.
    + apply Z.eqb_eq in Emod.
      assert (Hfull : (Z.of_nat (str_len A) + n = Z.of_nat (8 * size))%Z).
      { destruct (Z.eq_dec (Z.of_nat (str_len A) + n) (Z.of_nat (8 * size))) as [|Hneq];
          [assumption|].
        rewrite Z.mod_small in Emod by lia. lia. }
      pose proof (sum_fits items Hrest) as Hsum.
      rewrite <- (field_of_len items Hrest) in Hsum.
      destruct items as [|item items]; [|cbn [List.length] in Hsum; lia].
      eexists. reflexivity.
    + destruct (IH (A ++ str_rev (digits v n))%string Hrest) as [b' Hb'].
      { now rewrite str_app_assoc. }
      rewrite str_app_assoc in Hb'.
      rewrite str_len_app, str_rev_len, Hd in Hb'.
      replace (Z.of_nat (str_len A + Z.to_nat n)) with (Z.of_nat (str_len A) + n)%Z in Hb'
        by lia.
      rewrite Hb'. eexists. reflexivity.
Qed.

(** A successful write of bit fields that fit one unit is one [pack] of
    the unit. *)
Lemma stream_write_unit_ok (w w' : Writer.BinaryWriter) (v n : Z) (items : list (Z * Z)) :
  Forall fits ((v, n) :: items) ->
  (n < Z.of_nat (8 * size))%Z ->
  (sum_Z (map snd ((v, n) :: items)) <= Z.of_nat (8 * size))%Z ->
  write_stream_unit w ((v, n) :: items) fmt = (Ok tt, w') ->
  exists unit j,
    Writer.pack w fmt [PInt unit] = (Ok tt, w')
    /\ int_base2 (str_rev (field_of ((v, n) :: items) ++ str_repeat "0" j)) = Ok unit
    /\ str_len (field_of ((v, n) :: items)) + j <= 8 * size.
Proof.
  intros Hfits Hn Hsum.
  inversion Hfits as [|x l Hfit Hrest]; subst.
  pose proof Hfit as [Hn1 Hv]. cbn [fst snd] in Hn1, Hv.
  pose proof (digits_len v n Hn1 Hv) as Hd.
  pose proof (field_of_len _ Hfits) as Hlen.
  cbn [map sum_Z fold_right snd] in Hsum. fold (sum_Z (map snd items)) in Hsum.
  cbn [map sum_Z fold_right snd] in Hlen. fold (sum_Z (map snd items)) in Hlen.
  assert (HF : binary (str_rev (digits v n)) = true)
    by now rewrite binary_rev, digits_binary.
  unfold write_stream_unit. cbn [write_stream_bits]. rewrite stream_write_first by assumption.
  destruct (Z.eq_dec (n + sum_Z (map snd items)) (Z.of_nat (8 * size))) as [Hfull|Hopen].
  - assert (Hne : items <> []).
    { intros ->. cbn [map sum_Z fold_right] in Hfull. lia. }
    destruct (write_stream_bits (Bits.mkBits (str_rev (digits v n)) fmt 0) w items fmt)
      as [[[[]|e] b1] w1] eqn:Hw; [|discriminate].
    destruct (stream_write_full items _ w b1 w1 Hrest Hne HF) as (unit & Hi & Hp & ->);
      [rewrite str_rev_len, Hd; lia|exact Hw|].
    unfold Bits.finish_field. cbn [Bits._field Bits.str_is_empty].
    intros H. injection H as <-.
    exists unit, 0. split; [exact Hp|]. split.
    + cbn [field_of str_repeat]. now rewrite str_app_nil_r.
    + lia.
  - rewrite stream_write_open; [|assumption|rewrite str_rev_len, Hd; lia].
    unfold Bits.finish_field, format_pad_right0. cbn [Bits._field Bits._fmt].
    assert (Hne : Bits.str_is_empty (str_rev (digits v n) ++ field_of items) = false).
    { destruct (str_rev (digits v n) ++ field_of items)%string eqn:EF; [|reflexivity].
      apply (f_equal str_len) in EF.
      rewrite str_len_app, str_rev_len, Hd in EF. simpl in EF. lia. }
    rewrite Hne, Hsize.
    change (str_rev (digits v n) ++ field_of items)%string
      with (field_of ((v, n) :: items)).
    destruct (int_base2
                (str_rev (field_of ((v, n) :: items)
                          ++ str_repeat "0" (size - str_len (field_of ((v, n) :: items))))))
      as [unit|e] eqn:Hi; [|discriminate].
    destruct (Writer.pack w fmt [PInt unit]) as [[[]|e] w1] eqn:Hp; [|discriminate].
    intros H. injection H as <-.
    exists unit, (size - str_len (field_of ((v, n) :: items))).
    split; [exact Hp|]. split; [exact Hi|]. lia.
Qed.

End BitStream.

(** X29.  Bit fields written to a stream are read back: when [write]
    and then [finish_field] succeed on a writer for values that fit their
    bit counts (each of at least one bit, the first narrower than the
    unit, together no wider than the unit), with a unit format that
    parses to integer codes, then [read] with the same bit counts, on a
    reader with the writer's byte order and width flag standing where the
    writer stood over the bytes written, returns the values and stops
    where the writer stopped: one unit was written and one is read. *)
Theorem bit_stream_round_trip (fmt f : string) (size : nat)
  (w w' : Writer.BinaryWriter) (v n : Z) (items : list (Z * Z)) (post : list byte) :
  Struct.calcsize fmt = Ok size ->
  Writer.parse_fmt w fmt = Ok f -> int_format f = true ->
  Forall fits ((v, n) :: items) ->
  (n < Z.of_nat (8 * size))%Z ->
  (sum_Z (map snd ((v, n) :: items)) <= Z.of_nat (8 * size))%Z ->
  write_stream_unit w ((v, n) :: items) fmt = (Ok tt, w') ->
  exists b',
    read_stream_bits Bits.init
      (Reader.mkReader (Writer._array w' ++ post) (Writer.position w)
         (Writer.default_byte_order w) (Writer.long_varints w))
      (map snd ((v, n) :: items)) fmt
    = (Ok (map fst ((v, n) :: items)), b',
       Reader.mkReader (Writer._array w' ++ post) (Writer.position w')
         (Writer.default_byte_order w) (Writer.long_varints w)).
Proof.
  intros Hsize Hf Hint Hfits Hn Hsum Hw.
  destruct (stream_write_unit_ok fmt size Hsize w w' v n items Hfits Hn Hsum Hw)
    as (unit & j & Hp & Hi & Hj).
  pose proof (pack_then_unpack w w' fmt f [unit] post Hf Hint Hp) as Hun.
  cbn [map] in Hun.
  inversion Hfits as [|x l Hfit Hrest]; subst.
  pose proof Hfit as [Hn1 Hv]. cbn [fst snd] in Hn1, Hv.
  pose proof (digits_len v n Hn1 Hv) as Hd.
  set (P := (field_of ((v, n) :: items) ++ str_repeat "0" j)%string) in *.
  assert (HP : binary P = true).
  { subst P. now rewrite binary_app, field_of_binary, binary_zeros. }
  assert (HlenP : str_len P = str_len (field_of ((v, n) :: items)) + j).
  { subst P. now rewrite str_len_app, str_repeat_len. }
  assert (HneP : P <> ""%string).
  { intros Hempty. apply (f_equal str_len) in Hempty. rewrite HlenP in Hempty.
    cbn [field_of] in Hempty. rewrite str_len_app, str_rev_len, Hd in Hempty.
    simpl in Hempty. lia. }
  destruct (unit_digits size (2 ^ Z.of_nat (8 * size) - 1) P unit (Z.le_refl _)
              HP HneP ltac:(lia) Hi) as (_ & D & HD & Hrev).
  assert (HG : str_rev D
               = (str_rev (digits v n) ++ field_of items
                  ++ str_repeat "0" (j + (8 * size - str_len P)))%string).
  { rewrite Hrev. subst P. cbn [field_of].
    now rewrite !str_app_assoc, str_repeat_app. }
  assert (HlenG : str_len (str_rev (digits v n) ++ field_of items
                           ++ str_repeat "0" (j + (8 * size - str_len P))) = 8 * size).
  { rewrite !str_len_app, str_repeat_len, str_rev_len, Hd.
    rewrite HlenP in *. cbn [field_of] in Hj.
    rewrite str_len_app, str_rev_len, Hd in Hj. cbn [field_of].
    rewrite str_len_app, str_rev_len, Hd. lia. }
  destruct (stream_read_rest fmt size Hsize
              (Reader.mkReader (Writer._array w' ++ post) (Writer.position w')
                 (Writer.default_byte_order w) (Writer.long_varints w))
              (str_repeat "0" (j + (8 * size - str_len P))) items
              (str_rev (digits v n)) Hrest HlenG) as [b' Hb'].
  exists b'.
  cbn [map fst snd read_stream_bits].
  rewrite (stream_read_first fmt size Hsize _ _ unit D n Hun HD), HG.
  pose proof (take_ok fmt size ""%string
                (field_of items ++ str_repeat "0" (j + (8 * size - str_len P)))
                v n Hfit) as Htake.
  cbn [append str_len String.length Z.of_nat Z.add] in Htake.
  rewrite Htake by exact HlenG.
  destruct (n mod Z.of_nat (8 * size) =? 0)%Z eqn:Emod.
  { apply Z.eqb_eq in Emod. rewrite Z.mod_small in Emod by lia. lia. }
  rewrite str_rev_len, Hd in Hb'.
  replace (Z.of_nat (Z.to_nat n)) with n in Hb' by lia.
  rewrite Hb'. reflexivity.
Qed.

Lemma bit_stream_round_trip_witness :
  exists b',
    read_stream_bits Bits.init
      (Reader.mkReader
         (Writer._array
            (snd (write_stream_unit (Writer.init BigEndian (Some true))
                    [(5, 3); (3, 3); (1, 2)]%Z "H")) ++ [x07])
         (Writer.position (Writer.init BigEndian (Some true)))
         (Writer.default_byte_order (Writer.init BigEndian (Some true)))
         (Writer.long_varints (Writer.init BigEndian (Some true))))
      (map snd [(5, 3); (3, 3); (1, 2)]%Z) "H"
    = (Ok (map fst [(5, 3); (3, 3); (1, 2)]%Z), b',
       Reader.mkReader
         (Writer._array
            (snd (write_stream_unit (Writer.init BigEndian (Some true))
                    [(5, 3); (3, 3); (1, 2)]%Z "H")) ++ [x07])
         (Writer.position
            (snd (write_stream_unit (Writer.init BigEndian (Some true))
                    [(5, 3); (3, 3); (1, 2)]%Z "H")))
         (Writer.default_byte_order (Writer.init BigEndian (Some true)))
         (Writer.long_varints (Writer.init BigEndian (Some true)))).
Proof.
  apply (bit_stream_round_trip "H" ">H" 2 (Writer.init BigEndian (Some true)) _
           5 3 [(3, 3); (1, 2)]%Z [x07]).
  - reflexivity.
  - reflexivity.
  - reflexivity.
  - repeat constructor; vm_compute; congruence.
  - vm_compute. reflexivity.
  - vm_compute. discriminate.
  - vm_compute. reflexivity.
Defined.

(* ===================================================================== *)
(** * Skipped fields in the instance returned *)
(* ===================================================================== *)













